(** * Productivity dashboard: the RTP scoring engine

    A shallow embedding of [src/lib/calculate-rtp.tsx] (with the records of
    [src/types/index.ts]) and the properties of its weight model, subtask
    aggregator, RTP calculator, workload analyzer and task classifier.

    Number model.  Input numbers (minutes, preference ratios, capacities) are
    rationals [Q]; counters are [nat]; time stamps are milliseconds since the
    epoch in [Z]; priority values and classifier scores are integers in [Z].
    The numbers the engine computes with [/], [Math.log10] and [Math.pow]
    (dynamic weights, weighted sums, the percentage, the estimation accuracy)
    are [JsNumber]s: a real number, or one of the non-finite values Infinity,
    -Infinity and NaN.  Floating-point rounding and overflow are not
    represented, and there is one zero (a zero divisor is the positive zero).
    An Invalid Date is the time value [None]. *)

From Stdlib Require Import ZArith QArith Qround Qabs Qminmax Lqa.

(** Linear arithmetic over [Q]; [lra] is kept for the reals. *)
Ltac lqa := lra.

From Stdlib Require Import Reals Lra Lia.
From Stdlib Require Import List String Ascii Bool.
Import ListNotations.

Local Open Scope Z_scope.

(** ** Data model ([src/types/index.ts]) *)

(** [type TaskType = "LOW" | "MID" | "HIGH"] *)
Inductive TaskType : Type := LOW | MID | HIGH.

Definition TaskType_name (t : TaskType) : string :=
  match t with
  | LOW => "LOW"
  | MID => "MID"
  | HIGH => "HIGH"
  end%string.

(** [type PriorityScale = 1 | 2 | ... | 10] *)
Inductive PriorityScale : Type :=
  P1 | P2 | P3 | P4 | P5 | P6 | P7 | P8 | P9 | P10.

Definition priorityValue (p : PriorityScale) : Z :=
  match p with
  | P1 => 1 | P2 => 2 | P3 => 3 | P4 => 4 | P5 => 5
  | P6 => 6 | P7 => 7 | P8 => 8 | P9 => 9 | P10 => 10
  end.

(** A date-time string, up to what [new Date(s)] makes of it: the empty
    string (falsy, and an Invalid Date), a non-empty string that does not
    parse, or a string that parses to a time value. *)
Inductive DateTimeString : Type :=
| EmptyDateTime
| UnparsedDateTime
| DateTime (ms : Z).

(** A [Date] object is its [getTime()] value; [None] is NaN. *)
Definition Date : Type := option Z.

Definition new_Date (s : DateTimeString) : Date :=
  match s with
  | DateTime ms => Some ms
  | _ => None
  end.

(** Truthiness of the values the engine tests. *)
Definition truthyQ (q : Q) : bool := negb (Qeq_bool q 0).

Definition truthyNumber (o : option Q) : bool :=
  match o with
  | Some q => truthyQ q
  | None => false
  end.

Definition truthyDateTime (s : DateTimeString) : bool :=
  match s with
  | EmptyDateTime => false
  | _ => true
  end.

(** [xs && xs.length > 0] *)
Definition nonEmpty {A : Type} (o : option (list A)) : bool :=
  match o with
  | Some (_ :: _) => true
  | _ => false
  end.

(** [xs || []] *)
Definition orEmpty {A : Type} (o : option (list A)) : list A :=
  match o with
  | Some l => l
  | None => []
  end.

(** Fields the engine never reads ([id], [qualityRating], [tags],
    [recurrence], [productivityHistory]) are left out of the records. *)
Module SubTask.
Record t : Type := mk {
  name : string;
  description : string;
  startDateTime : DateTimeString;
  endDateTime : DateTimeString;
  completed : bool;
  type : string;
  priority : option PriorityScale;
  estimatedMinutes : option Q;
  actualMinutes : option Q;
  blockedBy : option (list string)
}.
End SubTask.

Module Task.
Record t : Type := mk {
  name : string;
  description : string;
  startDateTime : DateTimeString;
  endDateTime : DateTimeString;
  completed : bool;
  type : string;
  priority : option PriorityScale;
  subTasks : option (list SubTask.t);
  estimatedMinutes : option Q;
  actualMinutes : option Q;
  blockedBy : option (list string);
  collaborators : option (list string)
}.
End Task.

(** [Partial<Task>]: every field may be missing. *)
Module PartialTask.
Record t : Type := mk {
  name : option string;
  description : option string;
  startDateTime : option DateTimeString;
  endDateTime : option DateTimeString;
  subTasks : option (list SubTask.t);
  estimatedMinutes : option Q;
  blockedBy : option (list string);
  collaborators : option (list string)
}.
End PartialTask.

(** [{ start: number; end: number }], an hour-of-day window. *)
Module HourRange.
Record t : Type := mk {
  start : Q;
  end_ : Q
}.
End HourRange.

(** [{ start: Date; end: Date }] *)
Module DateRange.
Record t : Type := mk {
  start : Date;
  end_ : Date
}.
End DateRange.

Record WeightPreferences : Type := {
  deadline : Q;
  priority : Q;
  complexity : Q
}.

Record UserPreferences : Type := {
  productiveHours : option (list HourRange.t);
  preferredTaskTypes : option (list TaskType);
  workloadCapacity : option Q;
  weightPreferences : option WeightPreferences
}.

Record User : Type := {
  name : string;
  tasks : list Task.t;
  preferences : option UserPreferences
}.

Record WorkloadMetrics : Type := {
  dailyCapacity : Q;
  currentLoad : nat;
  overloadFactor : Q;
  upcomingDeadlines : nat;
  blockedTasks : nat
}.

(** ** JavaScript numbers *)

Inductive JsNumber : Type :=
| Finite (x : R)
| PosInfinity
| NegInfinity
| NaN.

Declare Scope js_scope.
Delimit Scope js_scope with js.
Bind Scope js_scope with JsNumber.

(** An input number as a JavaScript number. *)
Definition number (q : Q) : JsNumber := Finite (Q2R q).

(** The sign of a real number, as its comparison with zero. *)
Definition Rsign (x : R) : comparison :=
  if Rlt_dec 0 x then Gt else if Rlt_dec x 0 then Lt else Eq.

(** The infinity of a sign; where there is no sign (zero times an infinity,
    zero divided by zero) the result is NaN. *)
Definition infinityOf (s : comparison) : JsNumber :=
  match s with
  | Gt => PosInfinity
  | Lt => NegInfinity
  | Eq => NaN
  end.

(** [a + b] *)
Definition js_add (a b : JsNumber) : JsNumber :=
  match a with
  | NaN => NaN
  | Finite x =>
      match b with
      | Finite y => Finite (x + y)
      | _ => b
      end
  | PosInfinity =>
      match b with
      | NaN | NegInfinity => NaN
      | _ => PosInfinity
      end
  | NegInfinity =>
      match b with
      | NaN | PosInfinity => NaN
      | _ => NegInfinity
      end
  end.

(** [- a] *)
Definition js_opp (a : JsNumber) : JsNumber :=
  match a with
  | Finite x => Finite (- x)
  | PosInfinity => NegInfinity
  | NegInfinity => PosInfinity
  | NaN => NaN
  end.

(** [a - b] *)
Definition js_sub (a b : JsNumber) : JsNumber := js_add a (js_opp b).

(** [a * b] *)
Definition js_mul (a b : JsNumber) : JsNumber :=
  match a with
  | NaN => NaN
  | Finite x =>
      match b with
      | Finite y => Finite (x * y)
      | PosInfinity => infinityOf (Rsign x)
      | NegInfinity => infinityOf (CompOpp (Rsign x))
      | NaN => NaN
      end
  | PosInfinity =>
      match b with
      | Finite y => infinityOf (Rsign y)
      | PosInfinity => PosInfinity
      | NegInfinity => NegInfinity
      | NaN => NaN
      end
  | NegInfinity =>
      match b with
      | Finite y => infinityOf (CompOpp (Rsign y))
      | PosInfinity => NegInfinity
      | NegInfinity => PosInfinity
      | NaN => NaN
      end
  end.

(** [a / b]: a finite number over zero is an infinity of its sign, zero over
    zero is NaN, a finite number over an infinity is zero. *)
Definition js_div (a b : JsNumber) : JsNumber :=
  match a with
  | NaN => NaN
  | Finite x =>
      match b with
      | Finite y => if Req_dec_T y 0 then infinityOf (Rsign x) else Finite (x / y)
      | PosInfinity | NegInfinity => Finite 0
      | NaN => NaN
      end
  | PosInfinity =>
      match b with
      | Finite y => if Rlt_dec y 0 then NegInfinity else PosInfinity
      | _ => NaN
      end
  | NegInfinity =>
      match b with
      | Finite y => if Rlt_dec y 0 then PosInfinity else NegInfinity
      | _ => NaN
      end
  end.

Infix "+" := js_add : js_scope.
Infix "-" := js_sub : js_scope.
Infix "*" := js_mul : js_scope.
Infix "/" := js_div : js_scope.

(** [a === 0] *)
Definition strictEqualsZero (a : JsNumber) : bool :=
  match a with
  | Finite x => if Req_dec_T x 0 then true else false
  | _ => false
  end.

(** [Math.abs(a)] *)
Definition Math_abs (a : JsNumber) : JsNumber :=
  match a with
  | Finite x => Finite (Rabs x)
  | PosInfinity | NegInfinity => PosInfinity
  | NaN => NaN
  end.

(** [Math.min(a, b)] *)
Definition Math_min (a b : JsNumber) : JsNumber :=
  match a with
  | NaN => NaN
  | NegInfinity =>
      match b with
      | NaN => NaN
      | _ => NegInfinity
      end
  | PosInfinity => b
  | Finite x =>
      match b with
      | Finite y => Finite (Rmin x y)
      | PosInfinity => a
      | NegInfinity => NegInfinity
      | NaN => NaN
      end
  end.

(** [Math.round(a)]: the floor of [a + 1/2]. *)
Definition Math_round (a : JsNumber) : JsNumber :=
  match a with
  | Finite x => Finite (IZR (up (x + 1 / 2) - 1))
  | _ => a
  end.

(** The exponent is an integer, an odd integer. *)
Definition isInteger (y : Q) : bool := Pos.eqb (Qden (Qred y)) 1.

Definition isOddInteger (y : Q) : bool := isInteger y && Z.odd (Qnum (Qred y)).

(** [Math.pow(x, y)] for a finite exponent [y]: a negative base has a power
    only for an integer exponent, and gives NaN for any other. *)
Definition Math_pow (x : JsNumber) (y : Q) : JsNumber :=
  if Qeq_bool y 0 then Finite 1
  else
    match x with
    | NaN => NaN
    | Finite r =>
        if Rlt_dec 0 r then Finite (Rpower r (Q2R y))
        else if Rlt_dec r 0 then
          if isInteger y
          then Finite ((if isOddInteger y then -1 else 1) * Rpower (- r) (Q2R y))
          else NaN
        else if Qle_bool 0 y then Finite 0
        else PosInfinity
    | PosInfinity => if Qle_bool 0 y then PosInfinity else Finite 0
    | NegInfinity =>
        if Qle_bool 0 y
        then (if isOddInteger y then NegInfinity else PosInfinity)
        else Finite 0
    end.

(** ** Weight model: base weight *)

(** What [object[key]] gives on an object literal with number entries: an
    own entry, a member inherited from [Object.prototype] (a function, or
    the prototype object itself for [__proto__]), or [undefined]. *)
Inductive Lookup : Type :=
| OwnEntry (value : Z)
| InheritedMember
| Undefined.

Definition objectPrototypeKeys : list string :=
  ["constructor"; "hasOwnProperty"; "isPrototypeOf"; "propertyIsEnumerable";
   "toLocaleString"; "toString"; "valueOf"; "__proto__";
   "__defineGetter__"; "__defineSetter__"; "__lookupGetter__";
   "__lookupSetter__"]%string.

Definition isObjectPrototypeKey (key : string) : bool :=
  existsb (String.eqb key) objectPrototypeKeys.

Definition BASE_TASK_WEIGHTS (type : string) : Lookup :=
  if String.eqb type "LOW" then OwnEntry 2
  else if String.eqb type "MID" then OwnEntry 5
  else if String.eqb type "HIGH" then OwnEntry 8
  else if isObjectPrototypeKey type then InheritedMember
  else Undefined.

(** The value [getPriorityWeight] returns: a number, or the function or
    object that the lookup of an inherited key finds (it is truthy, so that
    [|| 5] keeps it). *)
Inductive PriorityWeight : Type :=
| NumberWeight (w : Z)
| ObjectWeight.

Definition getPriorityWeight (priority : option PriorityScale) (type : string)
  : PriorityWeight :=
  match priority with
  | Some p => NumberWeight (priorityValue p)
  | None =>
      match BASE_TASK_WEIGHTS type with
      | OwnEntry w => if w =? 0 then NumberWeight 5 else NumberWeight w
      | InheritedMember => ObjectWeight
      | Undefined => NumberWeight 5
      end
  end.

(** The weight as an operand of [*]: a function or an object converts to
    NaN. *)
Definition toNumber (w : PriorityWeight) : JsNumber :=
  match w with
  | NumberWeight z => Finite (IZR z)
  | ObjectWeight => NaN
  end.

(** ** Subtask aggregator *)

Record SubtaskContribution : Type := {
  completedWeight : Q;
  totalWeight : Q;
  completedSubtasks : nat
}.

Definition subtaskWeight (s : SubTask.t) : PriorityWeight :=
  getPriorityWeight (SubTask.priority s) (SubTask.type s).

(** One round of the [forEach] over the subtasks.  The state is
    [Some (weightedCompletion, totalSubtaskWeight)] as long as every weight
    added so far is a number.  Once a function or an object has been added
    [+=] concatenates strings: [totalSubtaskWeight] is a string from there
    on, and the state is [None]. *)
Definition addSubtask (acc : option (Z * Z)) (s : SubTask.t) : option (Z * Z) :=
  match acc, subtaskWeight s with
  | Some (weightedCompletion, totalSubtaskWeight), NumberWeight w =>
      Some (if SubTask.completed s then weightedCompletion + w
            else weightedCompletion,
            totalSubtaskWeight + w)
  | _, _ => None
  end.

Definition subtaskWeights (subtasks : list SubTask.t) : option (Z * Z) :=
  fold_left addSubtask subtasks (Some (0, 0)).

Definition bool01 (b : bool) : Q := if b then 1%Q else 0%Q.

Definition calculateSubtaskContribution (task : Task.t) : SubtaskContribution :=
  let subtasks := orEmpty (Task.subTasks task) in
  let totalSubtasks := List.length subtasks in
  if Nat.eqb totalSubtasks 0 then
    {| completedWeight := bool01 (Task.completed task);
       totalWeight := 1%Q;
       completedSubtasks := if Task.completed task then 1%nat else 0%nat |}
  else
    let completedSubtasks := List.length (filter SubTask.completed subtasks) in
    let unweighted :=
      {| completedWeight :=
           (inject_Z (Z.of_nat completedSubtasks) / inject_Z (Z.of_nat totalSubtasks))%Q;
         totalWeight := 1%Q;
         completedSubtasks := completedSubtasks |} in
    match subtaskWeights subtasks with
    | Some (weightedCompletion, totalSubtaskWeight) =>
        if 0 <? totalSubtaskWeight then
          {| completedWeight :=
               (inject_Z weightedCompletion / inject_Z totalSubtaskWeight)%Q;
             totalWeight := 1%Q;
             completedSubtasks := completedSubtasks |}
        else unweighted
    | None =>
        (* [totalSubtaskWeight > 0] converts the string to NaN and fails *)
        unweighted
    end.

(** ** The clock

    The source reads [new Date()]; here the evaluation time is a parameter,
    together with the time zone of the host: the offset of local time from
    UTC in force at a time value, and the offset that the zone assigns to a
    local time (the two differ around a daylight-saving change). *)

Record Clock : Type := {
  now : Z;
  utcOffsetAt : Z -> Z;
  localOffsetAt : Z -> Z
}.

Definition msPerHour : Z := 1000 * 60 * 60.
Definition msPerDay : Z := 1000 * 60 * 60 * 24.

(** The local time of a time value, and the time value of a local time. *)
Definition localTime (c : Clock) (t : Z) : Z := t + utcOffsetAt c t.

Definition utcTime (c : Clock) (local : Z) : Z := local - localOffsetAt c local.

(** [now.getHours()] *)
Definition getHours (c : Clock) : Z :=
  (localTime c (now c) / msPerHour) mod 24.

(** [d.setDate(d.getDate() + days)]: the same local time of day, [days]
    days later. *)
Definition addDays (c : Clock) (t : Z) (days : Z) : Z :=
  utcTime c (localTime c t + days * msPerDay).

(** [d.setHours(23, 59, 59, 999)]: the last millisecond of the local day. *)
Definition endOfDay (c : Clock) (t : Z) : Z :=
  utcTime c ((localTime c t / msPerDay) * msPerDay + msPerDay - 1).

(** [tomorrow.setDate(tomorrow.getDate() + 1); tomorrow.setHours(23, 59, 59, 999)] *)
Definition endOfTomorrow (c : Clock) : Z := endOfDay c (addDays c (now c) 1).

(** [threeDaysFromNow.setDate(threeDaysFromNow.getDate() + 3)] *)
Definition threeDaysFromNow (c : Clock) : Z := addDays c (now c) 3.

(** Comparisons of dates go through their time values and are false on NaN. *)
Definition date_leb (a b : Date) : bool :=
  match a, b with
  | Some x, Some y => x <=? y
  | _, _ => false
  end.

Definition date_ltb (a b : Date) : bool :=
  match a, b with
  | Some x, Some y => x <? y
  | _, _ => false
  end.

Definition date_minus (a b : Date) : option Z :=
  match a, b with
  | Some x, Some y => Some (x - y)
  | _, _ => None
  end.

Definition Qltb (a b : Q) : bool := negb (Qle_bool b a).

(** ** Workload analyzer *)

Definition natQ (n : nat) : Q := inject_Z (Z.of_nat n).

Definition calculateWorkloadMetrics (c : Clock) (user : User) : WorkloadMetrics :=
  let tomorrow : Date := Some (endOfTomorrow c) in
  let dailyCapacity : Q :=
    match preferences user with
    | Some p =>
        match workloadCapacity p with
        | Some cap => if truthyQ cap then cap else 5%Q
        | None => 5%Q
        end
    | None => 5%Q
    end in
  let upcomingTasks :=
    filter (fun task =>
              let deadline := new_Date (Task.endDateTime task) in
              date_leb deadline tomorrow && negb (Task.completed task))
           (tasks user) in
  let blockedTasks :=
    List.length
      (filter (fun task => negb (Task.completed task) && nonEmpty (Task.blockedBy task))
              (tasks user)) in
  let currentLoad := List.length upcomingTasks in
  let overloadFactor := (natQ currentLoad / dailyCapacity)%Q in
  let threeDays : Date := Some (threeDaysFromNow c) in
  let upcomingDeadlines :=
    List.length
      (filter (fun task =>
                 let deadline := new_Date (Task.endDateTime task) in
                 date_leb deadline threeDays && date_ltb tomorrow deadline
                 && negb (Task.completed task))
              (tasks user)) in
  {| dailyCapacity := dailyCapacity;
     currentLoad := currentLoad;
     overloadFactor := overloadFactor;
     upcomingDeadlines := upcomingDeadlines;
     blockedTasks := blockedTasks |}.

(** ** Weight model: dynamic weight *)

Definition log10 (x : R) : R := (ln x / ln 10)%R.

Definition defaultWeightPreferences : WeightPreferences :=
  {| deadline := 4 # 10; priority := 4 # 10; complexity := 2 # 10 |}.

(** [user.preferences?.weightPreferences || { deadline: 0.4, ... }] *)
Definition userWeightPreferences (user : User) : WeightPreferences :=
  match preferences user with
  | Some p =>
      match weightPreferences p with
      | Some w => w
      | None => defaultWeightPreferences
      end
  | None => defaultWeightPreferences
  end.

Definition timeRemaining (c : Clock) (task : Task.t) : option Z :=
  date_minus (new_Date (Task.endDateTime task)) (Some (now c)).

Definition totalTaskDuration (task : Task.t) : option Z :=
  date_minus (new_Date (Task.endDateTime task)) (new_Date (Task.startDateTime task)).

(** [Math.max(1, Math.log10(totalTaskDuration / (1000 * 60 * 60 * 24)))].
    The source computes it for every task and reads it only where
    [totalTaskDuration > 0]. *)
Definition durationFactor (total : Z) : R :=
  Rmax 1 (log10 (IZR total / IZR msPerDay)).

(** [totalTaskDuration || 1000 * 60 * 60 * 24]: zero and NaN are falsy. *)
Definition overdueDenominator (total : option Z) : Z :=
  match total with
  | Some d => if d =? 0 then msPerDay else d
  | None => msPerDay
  end.

Definition urgencyFactor (c : Clock) (task : Task.t) : R :=
  let remaining := timeRemaining c task in
  let total := totalTaskDuration task in
  let urgency : R :=
    match remaining, total with
    | Some r, Some d =>
        if (0 <? r) && (0 <? d) then
          let proportionRemaining := (IZR r / IZR d)%R in
          (1 + (1 - proportionRemaining) * (1 / 2) * durationFactor d)%R
        else 1%R
    | _, _ => 1%R
    end in
  match remaining with
  | Some r =>
      if r <? 0 then
        Rmin 3 (1 + IZR (Z.abs r) / IZR (overdueDenominator total))
      else urgency
  | None => urgency
  end.

Definition lengthZ {A : Type} (o : option (list A)) : Z :=
  Z.of_nat (List.length (orEmpty o)).

Definition complexityFactor (task : Task.t) : R :=
  let c0 := 1%R in
  let c1 :=
    if nonEmpty (Task.subTasks task)
    then (c0 + (1 / 10) * IZR (Z.min 10 (lengthZ (Task.subTasks task))))%R
    else c0 in
  if nonEmpty (Task.collaborators task)
  then (c1 + (1 / 10) * IZR (Z.min 5 (lengthZ (Task.collaborators task))))%R
  else c1.

Definition baseWeight (task : Task.t) : PriorityWeight :=
  getPriorityWeight (Task.priority task) (Task.type task).

(** Step 3: the preference-weighted average of the three terms. *)
Definition preferenceWeight (c : Clock) (task : Task.t) (user : User) : JsNumber :=
  let b := toNumber (baseWeight task) in
  let prefs := userWeightPreferences user in
  ((b * number (priority prefs)
    + b * Finite (urgencyFactor c task) * number (deadline prefs)
    + b * Finite (complexityFactor task) * number (complexity prefs))
   / (number (priority prefs) + number (deadline prefs) + number (complexity prefs)))%js.

Definition isProductiveHour (c : Clock) (ranges : list HourRange.t) : bool :=
  existsb (fun range =>
             Qle_bool (HourRange.start range) (inject_Z (getHours c))
             && Qltb (inject_Z (getHours c)) (HourRange.end_ range))
          ranges.

Definition userProductiveHours (user : User) : option (list HourRange.t) :=
  match preferences user with
  | Some p => productiveHours p
  | None => None
  end.

Definition userWorkloadCapacity (user : User) : option Q :=
  match preferences user with
  | Some p => workloadCapacity p
  | None => None
  end.

(** Steps 3 and 4: the weight before the workload adjustment. *)
Definition weightBeforeWorkload (c : Clock) (task : Task.t) (user : User) : JsNumber :=
  let w := preferenceWeight c task user in
  if nonEmpty (userProductiveHours user)
     && isProductiveHour c (orEmpty (userProductiveHours user))
  then (w * Finite (11 / 10))%js
  else w.

(** Step 5 as a test: does the source take the [Math.pow] branch? *)
Definition overloadAdjusts (c : Clock) (user : User) : bool :=
  truthyNumber (userWorkloadCapacity user)
  && Qltb 1 (overloadFactor (calculateWorkloadMetrics c user)).

Definition calculateDynamicWeight (c : Clock) (task : Task.t) (user : User) : JsNumber :=
  let w := weightBeforeWorkload c task user in
  if overloadAdjusts c user then Math_pow w (12 # 10) else w.

(** ** RTP calculator *)

(** The eight accumulators of [calculateRTP]. *)
Module Acc.
Record t : Type := mk {
  weightedCompletedSum : JsNumber;
  weightedTotalSum : JsNumber;
  totalEstimatedTime : Q;
  totalActualTime : Q;
  tasksWithAccurateEstimates : nat;
  totalTasks : nat;
  completedTasks : nat;
  blockedTasks : nat
}.
End Acc.

Definition initialAcc : Acc.t :=
  Acc.mk (Finite 0) (Finite 0) 0%Q 0%Q 0%nat 0%nat 0%nat 0%nat.

(** [estimationAccuracy] is a number or [null]. *)
Record Metrics : Type := {
  estimationAccuracy : option JsNumber;
  completionRate : Q;
  blockedTasksPercentage : Q;
  averageTaskWeight : JsNumber
}.

Record RTP : Type := {
  percentage : JsNumber;
  score : JsNumber;
  metrics : Metrics
}.

(** The date-range filter: [taskDate >= dateRange.start && taskDate <= dateRange.end]. *)
Definition inDateRange (dateRange : DateRange.t) (task : Task.t) : bool :=
  let taskDate := new_Date (Task.startDateTime task) in
  date_leb (DateRange.start dateRange) taskDate
  && date_leb taskDate (DateRange.end_ dateRange).

Definition filteredTasks (user : User) (dateRange : option DateRange.t) : list Task.t :=
  match dateRange with
  | Some range => filter (inDateRange range) (tasks user)
  | None => tasks user
  end.

(** [filterType && taskType !== filterType] *)
Definition skippedByType (filterType : option TaskType) (task : Task.t) : bool :=
  match filterType with
  | Some ft => negb (String.eqb (Task.type task) (TaskType_name ft))
  | None => false
  end.

Definition incrIf (b : bool) (n : nat) : nat := if b then S n else n.

(** The time-estimate bookkeeping of one task. *)
Definition trackEstimates (task : Task.t) (est act : Q) (n : nat) : Q * Q * nat :=
  match Task.estimatedMinutes task with
  | Some e =>
      if truthyQ e then
        match Task.actualMinutes task with
        | Some a =>
            if truthyQ a then ((est + e)%Q, (act + a)%Q, S n)
            else ((est + e)%Q, act, n)
        | None => ((est + e)%Q, act, n)
        end
      else (est, act, n)
  | None => (est, act, n)
  end.

(** The body of [filteredTasks.forEach]. *)
Definition processTask (c : Clock) (user : User) (filterType : option TaskType)
    (acc : Acc.t) (task : Task.t) : Acc.t :=
  let totalTasks := S (Acc.totalTasks acc) in
  if skippedByType filterType task then
    Acc.mk (Acc.weightedCompletedSum acc) (Acc.weightedTotalSum acc)
           (Acc.totalEstimatedTime acc) (Acc.totalActualTime acc)
           (Acc.tasksWithAccurateEstimates acc)
           totalTasks (Acc.completedTasks acc) (Acc.blockedTasks acc)
  else
    let blockedTasks := incrIf (nonEmpty (Task.blockedBy task)) (Acc.blockedTasks acc) in
    let dynamicWeight := calculateDynamicWeight c task user in
    let '(est, act, accurate) :=
      trackEstimates task (Acc.totalEstimatedTime acc) (Acc.totalActualTime acc)
                     (Acc.tasksWithAccurateEstimates acc) in
    if nonEmpty (Task.subTasks task) then
      let contribution := calculateSubtaskContribution task in
      let completedTasks :=
        incrIf (Nat.eqb (completedSubtasks contribution)
                        (List.length (orEmpty (Task.subTasks task)))
                && Task.completed task)
               (Acc.completedTasks acc) in
      Acc.mk (Acc.weightedCompletedSum acc
              + dynamicWeight * number (completedWeight contribution))%js
             (Acc.weightedTotalSum acc
              + dynamicWeight * number (totalWeight contribution))%js
             est act accurate totalTasks completedTasks blockedTasks
    else
      let completedTasks := incrIf (Task.completed task) (Acc.completedTasks acc) in
      Acc.mk (Acc.weightedCompletedSum acc
              + (if Task.completed task then dynamicWeight else Finite 0))%js
             (Acc.weightedTotalSum acc + dynamicWeight)%js
             est act accurate totalTasks completedTasks blockedTasks.

Definition accumulate (c : Clock) (user : User) (filterType : option TaskType)
    (dateRange : option DateRange.t) : Acc.t :=
  fold_left (processTask c user filterType) (filteredTasks user dateRange) initialAcc.

Definition zeroRTP : RTP :=
  {| percentage := Finite 0;
     score := Finite 0;
     metrics := {| estimationAccuracy := Some (Finite 0);
                   completionRate := 0%Q;
                   blockedTasksPercentage := 0%Q;
                   averageTaskWeight := Finite 0 |} |}.

(** [Math.min(100, 100 - Math.abs(((actual - estimated) / estimated) * 100))] *)
Definition accuracyOf (totalActualTime totalEstimatedTime : Q) : JsNumber :=
  Math_min (Finite 100)
    (Finite 100
     - Math_abs ((number (totalActualTime - totalEstimatedTime)
                  / number totalEstimatedTime) * Finite 100))%js.

Definition calculateRTP (c : Clock) (user : User) (filterType : option TaskType)
    (dateRange : option DateRange.t) : RTP :=
  let acc := accumulate c user filterType dateRange in
  if strictEqualsZero (Acc.weightedTotalSum acc) then zeroRTP
  else
    let totalTasks := Acc.totalTasks acc in
    {| percentage :=
         (Acc.weightedCompletedSum acc / Acc.weightedTotalSum acc * Finite 100)%js;
       score := Math_round (Acc.weightedCompletedSum acc);
       metrics :=
         {| estimationAccuracy :=
              if Nat.ltb 0 (Acc.tasksWithAccurateEstimates acc)
              then Some (accuracyOf (Acc.totalActualTime acc) (Acc.totalEstimatedTime acc))
              else None;
            completionRate :=
              if Nat.ltb 0 totalTasks
              then (natQ (Acc.completedTasks acc) / natQ totalTasks * 100)%Q
              else 0%Q;
            blockedTasksPercentage :=
              if Nat.ltb 0 totalTasks
              then (natQ (Acc.blockedTasks acc) / natQ totalTasks * 100)%Q
              else 0%Q;
            averageTaskWeight :=
              if Nat.ltb 0 totalTasks
              then (Acc.weightedTotalSum acc / Finite (INR totalTasks))%js
              else Finite 0 |} |}.

(** ** Task classifier *)

Record Scores : Type := {
  scoreLOW : Z;
  scoreMID : Z;
  scoreHIGH : Z
}.

Definition addLOW (n : Z) (s : Scores) : Scores :=
  {| scoreLOW := scoreLOW s + n; scoreMID := scoreMID s; scoreHIGH := scoreHIGH s |}.
Definition addMID (n : Z) (s : Scores) : Scores :=
  {| scoreLOW := scoreLOW s; scoreMID := scoreMID s + n; scoreHIGH := scoreHIGH s |}.
Definition addHIGH (n : Z) (s : Scores) : Scores :=
  {| scoreLOW := scoreLOW s; scoreMID := scoreMID s; scoreHIGH := scoreHIGH s + n |}.

(** [String.prototype.toLowerCase] on the ASCII letters; other characters
    are kept. *)
Definition lowerAscii (ch : ascii) : ascii :=
  let n := nat_of_ascii ch in
  if (Nat.leb 65 n && Nat.leb n 90)%bool then ascii_of_nat (n + 32) else ch.

Fixpoint toLowerCase (s : string) : string :=
  match s with
  | EmptyString => EmptyString
  | String ch rest => String (lowerAscii ch) (toLowerCase rest)
  end.

(** [text.includes(keyword)] *)
Fixpoint includes (text keyword : string) : bool :=
  if String.prefix keyword text then true
  else
    match text with
    | EmptyString => false
    | String _ rest => includes rest keyword
    end.

Definition highPriorityKeywords : list string :=
  ["urgent"; "critical"; "important"; "deadline"; "priority"; "asap";
   "emergency"; "crucial"]%string.
Definition midPriorityKeywords : list string :=
  ["review"; "update"; "prepare"; "meeting"; "report"; "develop";
   "implement"; "analyze"]%string.
Definition lowPriorityKeywords : list string :=
  ["check"; "read"; "reminder"; "routine"; "daily"; "follow-up"; "monitor";
   "maintain"]%string.

(** [keywords.forEach((keyword) => { if (text.includes(keyword)) n += 1 })] *)
Definition keywordHits (text : string) (keywords : list string) : Z :=
  fold_left (fun n keyword => if includes text keyword then n + 1 else n) keywords 0.

Definition orEmptyString (o : option string) : string :=
  match o with
  | Some s => s
  | None => EmptyString
  end.

Definition classifierText (task : PartialTask.t) : string :=
  toLowerCase (orEmptyString (PartialTask.name task) ++ " "
               ++ orEmptyString (PartialTask.description task))%string.

(** [(end.getTime() - start.getTime()) / (1000 * 60 * 60)]; [None] is NaN. *)
Definition durationHours (startDateTime endDateTime : DateTimeString) : option Q :=
  match date_minus (new_Date endDateTime) (new_Date startDateTime) with
  | Some d => Some (inject_Z d / inject_Z msPerHour)%Q
  | None => None
  end.

Definition gtQ (o : option Q) (bound : Q) : bool :=
  match o with
  | Some q => Qltb bound q
  | None => false
  end.

Definition ruleDescription (task : PartialTask.t) (s : Scores) : Scores :=
  let descriptionLength :=
    Z.of_nat (String.length (orEmptyString (PartialTask.description task))) in
  if 300 <? descriptionLength then addHIGH 3 s
  else if 150 <? descriptionLength then addHIGH 2 s
  else if 80 <? descriptionLength then addMID 2 s
  else addLOW 1 s.

Definition ruleSubtasks (task : PartialTask.t) (s : Scores) : Scores :=
  let subtaskCount := lengthZ (PartialTask.subTasks task) in
  if 5 <? subtaskCount then addHIGH 4 s
  else if 3 <? subtaskCount then addHIGH 3 s
  else if 0 <? subtaskCount then addMID 2 s
  else addLOW 1 s.

Definition ruleDuration (task : PartialTask.t) (s : Scores) : Scores :=
  match PartialTask.startDateTime task, PartialTask.endDateTime task with
  | Some st, Some en =>
      if truthyDateTime st && truthyDateTime en then
        let hours := durationHours st en in
        if gtQ hours 24 then addHIGH 3 s
        else if gtQ hours 8 then addHIGH 2 s
        else if gtQ hours 2 then addMID 2 s
        else addLOW 2 s
      else s
  | _, _ => s
  end.

Definition ruleKeywords (task : PartialTask.t) (s : Scores) : Scores :=
  let text := classifierText task in
  addLOW (keywordHits text lowPriorityKeywords)
    (addMID (keywordHits text midPriorityKeywords)
       (addHIGH (keywordHits text highPriorityKeywords) s)).

Definition ruleCollaborators (task : PartialTask.t) (s : Scores) : Scores :=
  let n := lengthZ (PartialTask.collaborators task) in
  if 2 <? n then addHIGH 2 s
  else if 0 <? n then addMID 1 s
  else s.

Definition ruleBlocked (task : PartialTask.t) (s : Scores) : Scores :=
  if nonEmpty (PartialTask.blockedBy task) then addMID 1 s else s.

Definition ruleEstimate (task : PartialTask.t) (s : Scores) : Scores :=
  match PartialTask.estimatedMinutes task with
  | Some m =>
      if truthyQ m then
        if Qltb 240 m then addHIGH 2 s
        else if Qltb 60 m then addMID 2 s
        else addLOW 1 s
      else s
  | None => s
  end.

(** The scores after the seven rules, in the source's order. *)
Definition classifierScores (task : PartialTask.t) : Scores :=
  ruleEstimate task
    (ruleBlocked task
       (ruleCollaborators task
          (ruleKeywords task
             (ruleDuration task
                (ruleSubtasks task
                   (ruleDescription task
                      {| scoreLOW := 0; scoreMID := 0; scoreHIGH := 0 |})))))).

(** [Math.round] on a rational. *)
Definition Math_roundQ (q : Q) : Z := Qfloor (q + (1 # 2)).

(** The cast [as PriorityScale] of a number already clamped to 1..10. *)
Definition asPriorityScale (n : Z) : PriorityScale :=
  if n <=? 1 then P1 else if n =? 2 then P2 else if n =? 3 then P3
  else if n =? 4 then P4 else if n =? 5 then P5 else if n =? 6 then P6
  else if n =? 7 then P7 else if n =? 8 then P8 else if n =? 9 then P9
  else P10.

Module Classification.
Record t : Type := mk {
  type : TaskType;
  priority : PriorityScale
}.
End Classification.

Definition classifyTask (task : PartialTask.t) : Classification.t :=
  let scores := classifierScores task in
  let taskType :=
    if (scoreMID scores <? scoreHIGH scores) && (scoreLOW scores <? scoreHIGH scores)
    then HIGH
    else if scoreLOW scores <? scoreMID scores then MID
    else LOW in
  let totalScore := scoreLOW scores + scoreMID scores + scoreHIGH scores in
  let highContribution := scoreHIGH scores * 3 in
  let midContribution := scoreMID scores * 2 in
  let lowContribution := scoreLOW scores in
  let weightedScore :=
    (inject_Z (highContribution + midContribution + lowContribution)
     / inject_Z (if totalScore =? 0 then 1 else totalScore))%Q in
  let priority := Z.max 1 (Z.min 10 (Math_roundQ (weightedScore * 3))) in
  Classification.mk taskType (asPriorityScale priority).

(** ** Notions used in the statements *)

(** The base weight of a subtask in the words of the specification: its
    explicit priority (1 to 10) when it has one, and otherwise the default
    of its tier, 2 for LOW, 5 for MID, 8 for HIGH, and 5 for any other
    type. *)
Definition tierDefault (type : string) : Z :=
  if String.eqb type "LOW" then 2
  else if String.eqb type "MID" then 5
  else if String.eqb type "HIGH" then 8
  else 5.

Definition specifiedWeight (priority : option PriorityScale) (type : string) : Z :=
  match priority with
  | Some p => priorityValue p
  | None => tierDefault type
  end.

(** The sum of the specified weights of a list of subtasks, and of its
    completed members; their quotient is the priority-weighted completion
    ratio. *)
Definition sumOfWeights (subtasks : list SubTask.t) : Z :=
  fold_right Z.add 0
    (map (fun s => specifiedWeight (SubTask.priority s) (SubTask.type s)) subtasks).

Definition sumOfCompletedWeights (subtasks : list SubTask.t) : Z :=
  sumOfWeights (filter SubTask.completed subtasks).

(** The unweighted completion ratio: the completed subtasks over all of
    them. *)
Definition simpleRatio (subtasks : list SubTask.t) : Q :=
  (inject_Z (Z.of_nat (List.length (filter SubTask.completed subtasks)))
   / inject_Z (Z.of_nat (List.length subtasks)))%Q.

(** The lookup of the type does not reach [Object.prototype]: there is an
    explicit priority, or the type is none of the inherited keys. *)
Definition weightIsNumber (priority : option PriorityScale) (type : string) : bool :=
  match priority with
  | Some _ => true
  | None => negb (isObjectPrototypeKey type)
  end.

Definition subtaskWeightIsNumber (s : SubTask.t) : bool :=
  weightIsNumber (SubTask.priority s) (SubTask.type s).

(** The tasks the loop body works on: inside the date range and not skipped
    by the tier filter. *)
Definition processedTasks (user : User) (filterType : option TaskType)
    (dateRange : option DateRange.t) : list Task.t :=
  filter (fun task => negb (skippedByType filterType task)) (filteredTasks user dateRange).

(** Both [estimatedMinutes] and [actualMinutes] are recorded (truthy). *)
Definition hasBothTimes (task : Task.t) : bool :=
  truthyNumber (Task.estimatedMinutes task) && truthyNumber (Task.actualMinutes task).

(** The accuracy in the words of the specification:
    [min(100, 100 - |actualTotal - estimatedTotal| / estimatedTotal * 100)]. *)
Definition specifiedAccuracy (actualTotal estimatedTotal : Q) : JsNumber :=
  Math_min (Finite 100)
    (Finite 100
     - Math_abs (number (actualTotal - estimatedTotal)) / number estimatedTotal
       * Finite 100)%js.

(** The same with the absolute value of the estimated total as the divisor:
    [min(100, 100 - |actualTotal - estimatedTotal| / |estimatedTotal| * 100)]. *)
Definition amendedAccuracy (actualTotal estimatedTotal : Q) : JsNumber :=
  Math_min (Finite 100)
    (Finite 100
     - Math_abs (number (actualTotal - estimatedTotal))
       / Math_abs (number estimatedTotal)
       * Finite 100)%js.

(** The task with its explicit priority set to [p], all else unchanged. *)
Definition withPriority (task : Task.t) (p : PriorityScale) : Task.t :=
  Task.mk (Task.name task) (Task.description task) (Task.startDateTime task)
          (Task.endDateTime task) (Task.completed task) (Task.type task) (Some p)
          (Task.subTasks task) (Task.estimatedMinutes task) (Task.actualMinutes task)
          (Task.blockedBy task) (Task.collaborators task).

(** The task has started and does not end before it starts (when both of
    its dates are valid). *)
Definition scheduleStarted (c : Clock) (task : Task.t) : Prop :=
  match new_Date (Task.startDateTime task), new_Date (Task.endDateTime task) with
  | Some s, Some e => s <= now c /\ s <= e
  | _, _ => True
  end.

(** The sum of the three preference ratios. *)
Definition preferenceSum (user : User) : Q :=
  let prefs := userWeightPreferences user in
  (priority prefs + deadline prefs + complexity prefs)%Q.

(** The three preference ratios are non-negative with a positive sum. *)
Definition preferencesNonNegative (user : User) : Prop :=
  let prefs := userWeightPreferences user in
  (0 <= deadline prefs /\ 0 <= priority prefs /\ 0 <= complexity prefs
   /\ 0 < deadline prefs + priority prefs + complexity prefs)%Q.

(** The factor that multiplies the base weight in step 3. *)
Definition weightFactor (c : Clock) (task : Task.t) (user : User) : R :=
  let prefs := userWeightPreferences user in
  ((Q2R (priority prefs)
    + urgencyFactor c task * Q2R (deadline prefs)
    + complexityFactor task * Q2R (complexity prefs))
   / (Q2R (priority prefs) + Q2R (deadline prefs) + Q2R (complexity prefs)))%R.

(** The factor of step 4. *)
Definition productiveBoost (c : Clock) (user : User) : R :=
  if nonEmpty (userProductiveHours user)
     && isProductiveHour c (orEmpty (userProductiveHours user))
  then (11 / 10)%R
  else 1%R.

(** Step 5 on a weight that is a real number and not negative: where the
    source takes the [Math.pow] branch a positive weight is raised to the
    power 1.2, and zero stays zero. *)
Definition workloadAdjustment (c : Clock) (user : User) (w : R) : R :=
  if overloadAdjusts c user
  then (if Rlt_dec 0 w then Rpower w (12 / 10) else 0)%R
  else w.

(** The test the loop body makes before it increments [completedTasks]. *)
Definition countsAsCompleted (task : Task.t) : bool :=
  if nonEmpty (Task.subTasks task)
  then Nat.eqb (List.length (filter SubTask.completed (orEmpty (Task.subTasks task))))
               (List.length (orEmpty (Task.subTasks task)))
       && Task.completed task
  else Task.completed task.

(** ** Example inputs

    The evaluation time of the examples is 2024-10-04T00:00:00Z, in UTC. *)

Definition exampleNow : Z := 1728000000000.

Definition exampleClock : Clock :=
  {| now := exampleNow; utcOffsetAt := fun _ => 0; localOffsetAt := fun _ => 0 |}.

(** A task without subtasks, estimates, blockers or collaborators that runs
    from [startDay] to [endDay], counted in days from the evaluation time. *)
Definition plainTask (type : string) (priority : option PriorityScale)
    (completed : bool) (startDay endDay : Z) : Task.t :=
  Task.mk "task" "" (DateTime (exampleNow + startDay * msPerDay))
          (DateTime (exampleNow + endDay * msPerDay))
          completed type priority None None None None None.

Definition plainSubTask (priority : option PriorityScale) (completed : bool) : SubTask.t :=
  SubTask.mk "step" "" EmptyDateTime EmptyDateTime completed "MID" priority
             None None None.

Definition userOf (tasks : list Task.t) : User :=
  {| name := "user"; tasks := tasks; preferences := None |}.

(** Finished yesterday after one day of work, priority 10. *)
Definition finishedTask : Task.t := plainTask "HIGH" (Some P10) true (-2) (-1).

(** A one-day task of tier MID scheduled for next week. *)
Definition nextWeekTask (priority : option PriorityScale) : Task.t :=
  plainTask "MID" priority false 6 7.

Definition plannerUser : User := userOf [finishedTask; nextWeekTask None].

(** A blocked task of tier LOW. *)
Definition blockedLowTask : Task.t :=
  Task.mk "task" "" (DateTime exampleNow) (DateTime (exampleNow + msPerDay))
          false "LOW" None None None None (Some ["t1"%string]) None.

(** A parent task with two subtasks of priorities 3 and 7. *)
Definition parentTask (completed firstDone secondDone : bool) : Task.t :=
  Task.mk "parent" "" (DateTime (exampleNow - msPerDay)) (DateTime exampleNow)
          completed "MID" None
          (Some [plainSubTask (Some P3) firstDone; plainSubTask (Some P7) secondDone])
          None None None None.

(** Six unfinished tasks that were due yesterday, for a user who declares
    no workload capacity. *)
Definition lateTask : Task.t := plainTask "MID" None false (-1) (-1).

Definition lateUser : User := userOf (repeat lateTask 6).

(** The same six tasks for a user who declares a capacity of five tasks a
    day. *)
Definition lateUserWithCapacity : User :=
  {| name := "user";
     tasks := repeat lateTask 6;
     preferences :=
       Some {| productiveHours := None;
               preferredTaskTypes := None;
               workloadCapacity := Some 5%Q;
               weightPreferences := None |} |}.

(** A subtask without priority whose type is a key of [Object.prototype],
    not completed. *)
Definition inheritedKeySubTask : SubTask.t :=
  SubTask.mk "step" "" EmptyDateTime EmptyDateTime false "constructor" None
             None None None.

(** A parent task with that subtask and a completed subtask of priority 9. *)
Definition inheritedKeyParent : Task.t :=
  Task.mk "parent" "" (DateTime (exampleNow - msPerDay)) (DateTime exampleNow)
          false "MID" None
          (Some [inheritedKeySubTask; plainSubTask (Some P9) true])
          None None None None.

(** A finished task without priority whose type is a key of
    [Object.prototype]. *)
Definition inheritedKeyTask : Task.t := plainTask "constructor" None true (-2) (-1).

(** A task with an estimate of [est] minutes that took [act] minutes. *)
Definition timedTask (est act : Q) : Task.t :=
  Task.mk "task" "" (DateTime (exampleNow - msPerDay)) (DateTime exampleNow)
          true "MID" None None (Some est) (Some act) None None.

(** One task estimated at one minute that took [3 + |bound|] minutes. *)
Definition overrunUser (bound : Q) : User :=
  userOf [timedTask 1 (3 + Qabs bound)].

(** One task recorded with an estimate of minus ten minutes that took five
    minutes. *)
Definition negativeEstimateUser : User := userOf [timedTask (-10) 5].

Definition todayRange : DateRange.t :=
  DateRange.mk (Some exampleNow) (Some (exampleNow + msPerDay)).

(** A task that starts exactly at the end of [todayRange]. *)
Definition midnightTask : Task.t := plainTask "MID" None false 1 2.

Fixpoint repeatChar (ch : ascii) (n : nat) : string :=
  match n with
  | O => EmptyString
  | S k => String ch (repeatChar ch k)
  end.

(** The scenario of the classifier: 400 characters of description, six
    subtasks, thirty hours. *)
Definition scenarioTask : PartialTask.t :=
  PartialTask.mk (Some "Quarterly plan"%string) (Some (repeatChar "x" 400))
                 (Some (DateTime exampleNow))
                 (Some (DateTime (exampleNow + 30 * msPerHour)))
                 (Some (repeat (plainSubTask None false) 6))
                 None None None.

(** ** Further notions used in the statements *)

Definition sumJs (l : list JsNumber) : JsNumber := fold_right js_add (Finite 0) l.

(** The sum of the dynamic weights of a list of tasks. *)
Definition sumOfDynamicWeights (c : Clock) (user : User) (l : list Task.t) : JsNumber :=
  sumJs (map (fun task => calculateDynamicWeight c task user) l).

(** [task.blockedBy && task.blockedBy.length > 0] *)
Definition isBlocked (task : Task.t) : bool := nonEmpty (Task.blockedBy task).

(** The fraction of its dynamic weight that the loop body adds to
    [weightedCompletedSum] for a task. *)
Definition completionShare (task : Task.t) : R :=
  if nonEmpty (Task.subTasks task)
  then Q2R (completedWeight (calculateSubtaskContribution task))
  else if Task.completed task then 1%R else 0%R.

(** What the loop body adds to [weightedCompletedSum] for a task of dynamic
    weight [w]: the product with the completed weight when the task has
    subtasks, and otherwise [w] or [0], without a product. *)
Definition completedPart (w : JsNumber) (task : Task.t) : JsNumber :=
  if nonEmpty (Task.subTasks task)
  then (w * number (completedWeight (calculateSubtaskContribution task)))%js
  else if Task.completed task then w else Finite 0.

(** Every piece of work of the task is done: the task itself when it has no
    subtasks, all of its subtasks otherwise. *)
Definition fullyDone (task : Task.t) : bool :=
  if nonEmpty (Task.subTasks task)
  then forallb SubTask.completed (orEmpty (Task.subTasks task))
  else Task.completed task.

(** No piece of work of the task is done. *)
Definition nothingDone (task : Task.t) : bool :=
  if nonEmpty (Task.subTasks task)
  then forallb (fun s => negb (SubTask.completed s)) (orEmpty (Task.subTasks task))
  else negb (Task.completed task).

(** The user with the three preference ratios multiplied by [k]; capacity,
    productive hours and tasks are kept. *)
Definition scalePreferences (k : Q) (user : User) : User :=
  let prefs := userWeightPreferences user in
  {| name := name user;
     tasks := tasks user;
     preferences :=
       Some {| productiveHours := userProductiveHours user;
               preferredTaskTypes :=
                 match preferences user with
                 | Some p => preferredTaskTypes p
                 | None => None
                 end;
               workloadCapacity := userWorkloadCapacity user;
               weightPreferences :=
                 Some {| deadline := k * deadline prefs;
                         priority := k * priority prefs;
                         complexity := k * complexity prefs |}%Q |} |}.

(** The task is running: both dates are valid, it has started, and its
    deadline is still ahead. *)
Definition inProgress (c : Clock) (task : Task.t) : Prop :=
  exists s e,
    new_Date (Task.startDateTime task) = Some s
    /\ new_Date (Task.endDateTime task) = Some e
    /\ s <= now c /\ now c < e.

Definition incompleteTasks (user : User) : list Task.t :=
  filter (fun task => negb (Task.completed task)) (tasks user).

(** The task lasts at most ten days (when both of its dates are valid). *)
Definition atMostTenDays (task : Task.t) : Prop :=
  forall s e,
    new_Date (Task.startDateTime task) = Some s ->
    new_Date (Task.endDateTime task) = Some e ->
    e - s <= 10 * msPerDay.

Definition scoreTotal (s : Scores) : Z := scoreLOW s + scoreMID s + scoreHIGH s.

Definition scoresNonNegative (s : Scores) : Prop :=
  0 <= scoreLOW s /\ 0 <= scoreMID s /\ 0 <= scoreHIGH s.

(** * The callers of the engine *)

(** ** The task form ([AddTaskForm]) *)

(** [TaskType | "AUTO"] *)
Inductive TaskTypeChoice : Type :=
| AUTO
| FixedType (t : TaskType).

(** A subtask row of the form. *)
Module FormSubtask.
Record t : Type := mk {
  name : string;
  description : string;
  startDateTime : DateTimeString;
  endDateTime : DateTimeString;
  estimatedMinutes : option Q;
  priority : option PriorityScale
}.
End FormSubtask.

(** The state of the form that [handleSubmit] reads; the tags and the
    recurrence only feed fields of the task that the engine never reads. *)
Module Form.
Record t : Type := mk {
  taskName : string;
  taskDescription : string;
  startDateTime : DateTimeString;
  endDateTime : DateTimeString;
  taskType : TaskTypeChoice;
  priority : option PriorityScale;
  estimatedMinutes : option Q;
  selectedCollaborators : list string;
  blockedByTasks : list string;
  subtasks : list FormSubtask.t
}.
End Form.

(** [handleCollaboratorToggle], [handleTagToggle] and
    [handleBlockingTaskToggle]: the new value of the selection. *)
Definition toggle (selected : list string) (item : string) : list string :=
  if existsb (String.eqb item) selected
  then filter (fun c => negb (String.eqb c item)) selected
  else selected ++ [item].

(** [priority || fallback] *)
Definition orPriority (p : option PriorityScale) (fallback : PriorityScale) : PriorityScale :=
  match p with
  | Some x => x
  | None => fallback
  end.

Definition truthyString (s : string) : bool := negb (String.eqb s "").

(** [xs.length > 0 ? xs : undefined] *)
Definition nonEmptyList {A : Type} (l : list A) : option (list A) :=
  match l with
  | [] => None
  | _ :: _ => Some l
  end.

(** [{ ...s, completed: false, type: "" }] *)
Definition classifierSubtask (s : FormSubtask.t) : SubTask.t :=
  SubTask.mk (FormSubtask.name s) (FormSubtask.description s)
             (FormSubtask.startDateTime s) (FormSubtask.endDateTime s)
             false "" (FormSubtask.priority s) (FormSubtask.estimatedMinutes s)
             None None.

Definition formClassification (f : Form.t) : Classification.t :=
  match Form.taskType f with
  | AUTO =>
      classifyTask
        (PartialTask.mk (Some (Form.taskName f)) (Some (Form.taskDescription f))
                        (Some (Form.startDateTime f)) (Some (Form.endDateTime f))
                        (Some (map classifierSubtask (Form.subtasks f)))
                        (Form.estimatedMinutes f) None
                        (Some (Form.selectedCollaborators f)))
  | FixedType ty => Classification.mk ty (orPriority (Form.priority f) P5)
  end.

Definition submittedSubtask (f : Form.t) (classification : Classification.t)
    (s : FormSubtask.t) : SubTask.t :=
  let subtaskClassification :=
    match Form.taskType f with
    | AUTO =>
        classifyTask
          (PartialTask.mk (Some (FormSubtask.name s)) (Some (FormSubtask.description s))
                          (Some (FormSubtask.startDateTime s))
                          (Some (FormSubtask.endDateTime s))
                          None (FormSubtask.estimatedMinutes s) None None)
    | FixedType ty =>
        Classification.mk ty (orPriority (FormSubtask.priority s)
                                         (Classification.priority classification))
    end in
  SubTask.mk (FormSubtask.name s) (FormSubtask.description s)
             (FormSubtask.startDateTime s) (FormSubtask.endDateTime s)
             false
             (TaskType_name (Classification.type subtaskClassification))
             (Some (orPriority (FormSubtask.priority s)
                               (Classification.priority subtaskClassification)))
             (FormSubtask.estimatedMinutes s) None None.

(** [handleSubmit]: the task handed to [onAddTask], or nothing when the
    validation stops the submission. *)
Definition handleSubmit (f : Form.t) : option Task.t :=
  if negb (truthyString (Form.taskName f))
     || negb (truthyDateTime (Form.startDateTime f))
     || negb (truthyDateTime (Form.endDateTime f))
  then None
  else
    let classification := formClassification f in
    Some (Task.mk (Form.taskName f) (Form.taskDescription f)
                  (Form.startDateTime f) (Form.endDateTime f)
                  false
                  (TaskType_name (Classification.type classification))
                  (Some (orPriority (Form.priority f)
                                    (Classification.priority classification)))
                  (match Form.subtasks f with
                   | [] => None
                   | _ :: _ =>
                       Some (map (submittedSubtask f classification) (Form.subtasks f))
                   end)
                  (if truthyNumber (Form.estimatedMinutes f)
                   then Form.estimatedMinutes f else None)
                  None
                  (nonEmptyList (Form.blockedByTasks f))
                  (nonEmptyList (Form.selectedCollaborators f))).

(** ** The dashboard ([ProductivityDashboard]) *)

(** [{ ...user, tasks: [...user.tasks, newTask] }] *)
Definition addTask (user : User) (newTask : Task.t) : User :=
  {| name := name user;
     tasks := tasks user ++ [newTask];
     preferences := preferences user |}.

(** [handleAddTask]: the new value of [users]. *)
Definition handleAddTask (users : list User) (currentUser : User) (newTask : Task.t)
  : list User :=
  map (fun user =>
         if String.eqb (name user) (name currentUser)
         then addTask user newTask
         else user)
      users.

(** ** The task list ([TaskList]): pagination *)

(** [limit || 10] *)
Definition tasksPerPage (limit : option nat) : nat :=
  match limit with
  | Some n => if Nat.eqb n 0 then 10%nat else n
  | None => 10%nat
  end.

(** [Math.ceil(totalTasks / tasksPerPage)] *)
Definition totalPages (totalTasks perPage : nat) : nat :=
  Nat.div (totalTasks + perPage - 1) perPage.

(** [Array.prototype.slice(start, end)] for indices inside the array. *)
Definition slice {A : Type} (start end_ : nat) (l : list A) : list A :=
  firstn (end_ - start) (skipn start l).

(** The page numbers are counted from 1. *)
Definition currentTasks {A : Type} (perPage currentPage : nat) (sortedTasks : list A)
  : list A :=
  let startIndex := ((currentPage - 1) * perPage)%nat in
  let endIndex := Nat.min (startIndex + perPage) (List.length sortedTasks) in
  slice startIndex endIndex sortedTasks.

(** [handlePageChange]: the new value of [currentPage]. *)
Definition handlePageChange (pages currentPage page : nat) : nat :=
  if Nat.leb 1 page && Nat.leb page pages then page else currentPage.

(** ** The task list ([TaskList]): the pagination bar *)

Inductive PaginationItem : Type :=
| PageLink (page : nat) (isActive : bool)
| PageEllipsis.

(** The pages pushed by the loop
    [for (i = Math.max(2, currentPage - 1); i <= Math.min(totalPages - 1, currentPage + 1); i++)]
    with its [continue] for [i <= 1 || i >= totalPages]. *)
Definition pagesAround (currentPage pages : nat) : list nat :=
  let first := Nat.max 2 (currentPage - 1) in
  let last := Nat.min (pages - 1) (currentPage + 1) in
  filter (fun i => negb (Nat.leb i 1 || Nat.leb pages i)) (seq first (S last - first)).

Definition getPaginationItems (currentPage pages : nat) : list PaginationItem :=
  [PageLink 1 (Nat.eqb currentPage 1)]
  ++ (if Nat.ltb 3 currentPage then [PageEllipsis] else [])
  ++ map (fun i => PageLink i (Nat.eqb currentPage i)) (pagesAround currentPage pages)
  ++ (if Nat.ltb currentPage (pages - 2) then [PageEllipsis] else [])
  ++ (if Nat.ltb 1 pages then [PageLink pages (Nat.eqb currentPage pages)] else []).

(** The pages that have a link, and those whose link is marked active. *)
Definition linkedPages (items : list PaginationItem) : list nat :=
  flat_map (fun item => match item with
                        | PageLink page _ => [page]
                        | PageEllipsis => []
                        end) items.

Definition activePages (items : list PaginationItem) : list nat :=
  flat_map (fun item => match item with
                        | PageLink page true => [page]
                        | _ => []
                        end) items.

(** ** The task breakdown ([TaskBreakdown]) *)

Record TierCount : Type := {
  total : nat;
  completed : Q
}.

Module TaskCounts.
Record t : Type := mk {
  LOW : TierCount;
  MID : TierCount;
  HIGH : TierCount
}.
End TaskCounts.

(** The own keys of [taskCounts]. *)
Definition tierOfString (type : string) : option TaskType :=
  if String.eqb type "LOW" then Some LOW
  else if String.eqb type "MID" then Some MID
  else if String.eqb type "HIGH" then Some HIGH
  else None.

Definition tierCount (counts : TaskCounts.t) (tier : TaskType) : TierCount :=
  match tier with
  | LOW => TaskCounts.LOW counts
  | MID => TaskCounts.MID counts
  | HIGH => TaskCounts.HIGH counts
  end.

Definition setTierCount (counts : TaskCounts.t) (tier : TaskType) (entry : TierCount)
  : TaskCounts.t :=
  match tier with
  | LOW => TaskCounts.mk entry (TaskCounts.MID counts) (TaskCounts.HIGH counts)
  | MID => TaskCounts.mk (TaskCounts.LOW counts) entry (TaskCounts.HIGH counts)
  | HIGH => TaskCounts.mk (TaskCounts.LOW counts) (TaskCounts.MID counts) entry
  end.

(** What one task adds to the completed count of its tier. *)
Definition breakdownShare (task : Task.t) : Q :=
  if nonEmpty (Task.subTasks task) then
    (natQ (List.length (filter SubTask.completed (orEmpty (Task.subTasks task))))
     / natQ (List.length (orEmpty (Task.subTasks task))))%Q
  else if Task.completed task then 1%Q else 0%Q.

(** One round of [user.tasks.forEach].  For a type that is a key of
    [Object.prototype] the lookup [taskCounts[type]] finds the inherited
    function or object, and [total++] and [completed += ...] write to that
    object: the three entries stay as they are.  For any other type that is
    not a tier the lookup is [undefined], and [None] is the TypeError that
    [taskCounts[type].total++] raises. *)
Definition countTask (counts : TaskCounts.t) (task : Task.t) : option TaskCounts.t :=
  match tierOfString (Task.type task) with
  | Some tier =>
      let entry := tierCount counts tier in
      Some (setTierCount counts tier
              {| total := S (total entry);
                 completed := (completed entry + breakdownShare task)%Q |})
  | None =>
      if isObjectPrototypeKey (Task.type task) then Some counts else None
  end.

Definition zeroCounts : TaskCounts.t :=
  let zero := {| total := 0%nat; completed := 0%Q |} in
  TaskCounts.mk zero zero zero.

Definition countTasks (l : list Task.t) (start : option TaskCounts.t)
  : option TaskCounts.t :=
  fold_left (fun acc task =>
               match acc with
               | Some counts => countTask counts task
               | None => None
               end)
            l start.

Definition taskCounts (user : User) : option TaskCounts.t :=
  countTasks (tasks user) (Some zeroCounts).

(** ** The workload card ([WorkloadMetrics]) *)

Inductive OverloadColor : Type := Red | Amber | Green | Blue.

(** [Math.min(100, Math.round(metrics.overloadFactor * 100))] *)
Definition workloadPercentage (m : WorkloadMetrics) : Z :=
  Z.min 100 (Math_roundQ (overloadFactor m * 100)).

Definition getOverloadColor (m : WorkloadMetrics) : OverloadColor :=
  if Qltb (15 # 10) (overloadFactor m) then Red
  else if Qltb 1 (overloadFactor m) then Amber
  else if Qltb (7 # 10) (overloadFactor m) then Green
  else Blue.

(** [metrics.overloadFactor > 1 && ...]: the over-capacity warning. *)
Definition showsOverloadWarning (m : WorkloadMetrics) : bool :=
  Qltb 1 (overloadFactor m).

(** [Math.round((metrics.overloadFactor - 1) * 100)] *)
Definition overCapacityPercent (m : WorkloadMetrics) : Z :=
  Math_roundQ ((overloadFactor m - 1) * 100).

(** [metrics.overloadFactor <= 0.5 && ...]: the spare-capacity hint. *)
Definition showsSpareCapacity (m : WorkloadMetrics) : bool :=
  Qle_bool (overloadFactor m) (5 # 10).

(** The task's type is the name of the tier. *)
Definition hasTier (tier : TaskType) (task : Task.t) : bool :=
  String.eqb (Task.type task) (TaskType_name tier).

(** Every tier has completed at most as many tasks as it has. *)
Definition countsSound (counts : TaskCounts.t) : Prop :=
  forall tier,
    (0 <= completed (tierCount counts tier) <= natQ (total (tierCount counts tier)))%Q.

(** ** Example inputs for the callers *)

Definition exampleForm : Form.t :=
  Form.mk "Write report" "Summary of the quarter"
          (DateTime exampleNow) (DateTime (exampleNow + msPerDay))
          AUTO None None [] []
          [FormSubtask.mk "Collect figures" "" EmptyDateTime EmptyDateTime None None].

(** ** Proof automation *)

(** Case analysis on every conditional of the goal. *)
Ltac split_conditionals :=
  repeat match goal with
         | |- context [if ?b then _ else _] => destruct b
         | |- context [match ?x with Some _ => _ | None => _ end] => destruct x
         end.

Ltac score_arith :=
  unfold scoresNonNegative, scoreTotal, addLOW, addMID, addHIGH in *;
  cbn [scoreLOW scoreMID scoreHIGH] in *; lia.

(** * Properties *)

(** ** Arithmetic of JavaScript numbers *)

Lemma Rsign_pos (x : R) : (0 < x)%R -> Rsign x = Gt.
Proof. intros H. unfold Rsign. destruct (Rlt_dec 0 x); [reflexivity | contradiction]. Qed.

Lemma Rsign_neg (x : R) : (x < 0)%R -> Rsign x = Lt.
Proof.
  intros H. unfold Rsign.
  destruct (Rlt_dec 0 x); [lra|]. destruct (Rlt_dec x 0); [reflexivity | contradiction].
Qed.

Lemma Rsign_zero : Rsign 0 = Eq.
Proof.
  unfold Rsign. destruct (Rlt_dec 0 0); [lra|]. destruct (Rlt_dec 0 0); [lra | reflexivity].
Qed.

Lemma js_add_0_l (a : JsNumber) : (Finite 0 + a)%js = a.
Proof. destruct a; cbn; try reflexivity. f_equal. ring. Qed.

Lemma js_add_0_r (a : JsNumber) : (a + Finite 0)%js = a.
Proof. destruct a; cbn; try reflexivity. f_equal. ring. Qed.

Lemma js_add_comm (a b : JsNumber) : (a + b)%js = (b + a)%js.
Proof. destruct a, b; cbn; try reflexivity. f_equal. ring. Qed.

Lemma js_add_assoc (a b c : JsNumber) : (a + (b + c))%js = (a + b + c)%js.
Proof. destruct a, b, c; cbn; try reflexivity. f_equal. ring. Qed.

Lemma js_mul_1_r (a : JsNumber) : (a * Finite 1)%js = a.
Proof.
  destruct a; cbn; rewrite ?(Rsign_pos 1) by lra; try reflexivity.
  f_equal. ring.
Qed.

Lemma js_div_finite (x y : R) : y <> 0%R -> (Finite x / Finite y)%js = Finite (x / y).
Proof. intros Hy. cbn. destruct (Req_dec_T y 0); [contradiction | reflexivity]. Qed.

Lemma strictEqualsZero_finite (x : R) : x <> 0%R -> strictEqualsZero (Finite x) = false.
Proof. intros Hx. cbn. destruct (Req_dec_T x 0); [contradiction | reflexivity]. Qed.

(** ** Base weights and the subtask aggregator *)

Lemma priorityValue_range (p : PriorityScale) : 1 <= priorityValue p <= 10.
Proof. destruct p; simpl; lia. Qed.

Lemma specifiedWeight_range (priority : option PriorityScale) (type : string) :
  1 <= specifiedWeight priority type <= 10.
Proof.
  unfold specifiedWeight, tierDefault.
  destruct priority as [p|]; [apply priorityValue_range|].
  repeat match goal with |- context [String.eqb ?a ?b] => destruct (String.eqb a b) end; lia.
Qed.

(** Where the lookup does not reach [Object.prototype], the weight is the
    number the specification names. *)
Lemma getPriorityWeight_number (priority : option PriorityScale) (type : string) :
  weightIsNumber priority type = true ->
  getPriorityWeight priority type = NumberWeight (specifiedWeight priority type).
Proof.
  unfold weightIsNumber, getPriorityWeight, specifiedWeight, BASE_TASK_WEIGHTS, tierDefault.
  destruct priority as [p|]; [reflexivity|].
  intros Hkey. apply negb_true_iff in Hkey. rewrite Hkey.
  repeat match goal with |- context [String.eqb ?a ?b] => destruct (String.eqb a b) end;
    reflexivity.
Qed.

(** Where it does, the weight is the inherited member. *)
Lemma getPriorityWeight_object (priority : option PriorityScale) (type : string) :
  weightIsNumber priority type = false ->
  getPriorityWeight priority type = ObjectWeight.
Proof.
  unfold weightIsNumber, getPriorityWeight, BASE_TASK_WEIGHTS.
  destruct priority as [p|]; [discriminate|].
  intros Hkey. apply negb_false_iff in Hkey.
  destruct (String.eqb_spec type "LOW") as [->|_]; [discriminate Hkey|].
  destruct (String.eqb_spec type "MID") as [->|_]; [discriminate Hkey|].
  destruct (String.eqb_spec type "HIGH") as [->|_]; [discriminate Hkey|].
  rewrite Hkey. reflexivity.
Qed.

Lemma getPriorityWeight_cases (priority : option PriorityScale) (type : string) :
  (weightIsNumber priority type = true
   /\ getPriorityWeight priority type = NumberWeight (specifiedWeight priority type))
  \/ (weightIsNumber priority type = false
      /\ getPriorityWeight priority type = ObjectWeight).
Proof.
  destruct (weightIsNumber priority type) eqn:Hn; [left | right]; split; try reflexivity.
  - apply getPriorityWeight_number. exact Hn.
  - apply getPriorityWeight_object. exact Hn.
Qed.

Lemma fold_addSubtask_none (subtasks : list SubTask.t) :
  fold_left addSubtask subtasks None = None.
Proof. induction subtasks as [|s rest IH]; [reflexivity | exact IH]. Qed.

(** While every weight is a number the loop over the subtasks computes the
    two sums. *)
Lemma fold_addSubtask_numbers (subtasks : list SubTask.t) :
  forallb subtaskWeightIsNumber subtasks = true ->
  forall wc tw,
  fold_left addSubtask subtasks (Some (wc, tw))
  = Some (wc + sumOfCompletedWeights subtasks, tw + sumOfWeights subtasks).
Proof.
  unfold sumOfCompletedWeights, sumOfWeights.
  induction subtasks as [|s rest IH]; intros Hall wc tw.
  - cbn. do 2 f_equal; lia.
  - cbn [forallb] in Hall. apply andb_true_iff in Hall. destruct Hall as [Hs Hrest].
    cbn [fold_left]. unfold addSubtask at 2, subtaskWeight.
    rewrite (getPriorityWeight_number _ _ Hs), (IH Hrest).
    cbn [filter]. destruct (SubTask.completed s); cbn [map fold_right]; do 2 f_equal; lia.
Qed.

(** One weight that is no number leaves the loop without sums. *)
Lemma fold_addSubtask_object (subtasks : list SubTask.t) :
  forallb subtaskWeightIsNumber subtasks = false ->
  forall acc, fold_left addSubtask subtasks acc = None.
Proof.
  induction subtasks as [|s rest IH]; intros Hsome acc; [discriminate|].
  cbn [forallb] in Hsome. cbn [fold_left].
  destruct (subtaskWeightIsNumber s) eqn:Hs; cbn [andb] in Hsome.
  - apply IH. exact Hsome.
  - unfold addSubtask at 2, subtaskWeight.
    rewrite (getPriorityWeight_object _ _ Hs).
    destruct acc as [[wc tw]|]; apply fold_addSubtask_none.
Qed.

Lemma subtaskWeights_numbers (subtasks : list SubTask.t) :
  forallb subtaskWeightIsNumber subtasks = true ->
  subtaskWeights subtasks = Some (sumOfCompletedWeights subtasks, sumOfWeights subtasks).
Proof. intros Hall. unfold subtaskWeights. rewrite (fold_addSubtask_numbers _ Hall). reflexivity. Qed.

Lemma sumOfWeights_filter_le (f : SubTask.t -> bool) (l : list SubTask.t) :
  0 <= sumOfWeights (filter f l) <= sumOfWeights l.
Proof.
  unfold sumOfWeights.
  induction l as [|s rest IH]; cbn [filter map fold_right]; [lia|].
  pose proof (specifiedWeight_range (SubTask.priority s) (SubTask.type s)).
  destruct (f s); cbn [map fold_right]; lia.
Qed.

Lemma sumOfWeights_bounds (s : SubTask.t) (rest : list SubTask.t) :
  0 <= sumOfCompletedWeights (s :: rest) <= sumOfWeights (s :: rest)
  /\ 0 < sumOfWeights (s :: rest).
Proof.
  split; [apply sumOfWeights_filter_le|].
  pose proof (sumOfWeights_filter_le (fun _ => true) rest) as Hrest.
  pose proof (specifiedWeight_range (SubTask.priority s) (SubTask.type s)).
  unfold sumOfWeights in *. cbn [map fold_right].
  assert (Hall : filter (fun _ : SubTask.t => true) rest = rest).
  { clear. induction rest as [|x l IH]; cbn; [reflexivity | f_equal; exact IH]. }
  rewrite Hall in Hrest. lia.
Qed.

Lemma ratio_in_unit (a b : Z) :
  0 <= a <= b -> 0 < b -> (0 <= inject_Z a / inject_Z b <= 1)%Q.
Proof.
  intros Hab Hb.
  assert (Hbq : (0 < inject_Z b)%Q) by (rewrite Zlt_Qlt in Hb; exact Hb).
  split.
  - apply Qle_shift_div_l; [exact Hbq|]. rewrite Qmult_0_l.
    change (inject_Z 0 <= inject_Z a)%Q. rewrite <- Zle_Qle. lia.
  - apply Qle_shift_div_r; [exact Hbq|]. rewrite Qmult_1_l.
    rewrite <- Zle_Qle. lia.
Qed.

Lemma simpleRatio_unit (s : SubTask.t) (rest : list SubTask.t) :
  (0 <= simpleRatio (s :: rest) <= 1)%Q.
Proof.
  unfold simpleRatio. apply ratio_in_unit.
  - pose proof (filter_length_le SubTask.completed (s :: rest)). lia.
  - cbn [List.length]. lia.
Qed.

(** With subtasks whose weights are all numbers the aggregator takes its
    weighted branch. *)
Lemma contribution_of_subtasks (task : Task.t) (s : SubTask.t) (rest : list SubTask.t) :
  Task.subTasks task = Some (s :: rest) ->
  forallb subtaskWeightIsNumber (s :: rest) = true ->
  calculateSubtaskContribution task =
    {| completedWeight :=
         (inject_Z (sumOfCompletedWeights (s :: rest))
          / inject_Z (sumOfWeights (s :: rest)))%Q;
       totalWeight := 1%Q;
       completedSubtasks := List.length (filter SubTask.completed (s :: rest)) |}.
Proof.
  intros Hsubs Hall.
  destruct (sumOfWeights_bounds s rest) as [_ Hpos].
  unfold calculateSubtaskContribution. rewrite Hsubs.
  cbn [orEmpty List.length Nat.eqb].
  rewrite (subtaskWeights_numbers _ Hall).
  apply Z.ltb_lt in Hpos. rewrite Hpos. reflexivity.
Qed.

(** With a subtask whose weight is no number it takes the simple ratio. *)
Lemma contribution_of_object_weight (task : Task.t) (s : SubTask.t)
    (rest : list SubTask.t) :
  Task.subTasks task = Some (s :: rest) ->
  forallb subtaskWeightIsNumber (s :: rest) = false ->
  calculateSubtaskContribution task =
    {| completedWeight := simpleRatio (s :: rest);
       totalWeight := 1%Q;
       completedSubtasks := List.length (filter SubTask.completed (s :: rest)) |}.
Proof.
  intros Hsubs Hsome.
  unfold calculateSubtaskContribution. rewrite Hsubs.
  cbn [orEmpty List.length Nat.eqb].
  unfold subtaskWeights. rewrite (fold_addSubtask_object _ Hsome). reflexivity.
Qed.

(** In either branch the aggregator counts the completed subtasks and gives
    the parent the total weight 1. *)
Lemma contribution_completedSubtasks (task : Task.t) :
  nonEmpty (Task.subTasks task) = true ->
  completedSubtasks (calculateSubtaskContribution task)
  = List.length (filter SubTask.completed (orEmpty (Task.subTasks task)))
  /\ totalWeight (calculateSubtaskContribution task) = 1%Q.
Proof.
  destruct (Task.subTasks task) as [[|s rest]|] eqn:Hsubs; cbn [nonEmpty]; try discriminate.
  intros _. cbn [orEmpty].
  destruct (forallb subtaskWeightIsNumber (s :: rest)) eqn:Hall.
  - rewrite (contribution_of_subtasks task s rest Hsubs Hall). split; reflexivity.
  - rewrite (contribution_of_object_weight task s rest Hsubs Hall). split; reflexivity.
Qed.

(** C10 (failing input): a parent task with two subtasks, the first of type
    "constructor" without priority and not completed, the second completed
    with priority 9.  For the first subtask [getPriorityWeight] returns the
    inherited function instead of a number of at least 1; the total subtask
    weight is then no positive number, the aggregator takes its unweighted
    fallback and returns 1/2, where the priority-weighted completion ratio
    (with the weights 5 and 9) is 9/14. *)
Theorem inherited_subtask_type_takes_the_unweighted_fallback :
  let subtasks := [inheritedKeySubTask; plainSubTask (Some P9) true] in
  Task.subTasks inheritedKeyParent = Some subtasks
  /\ SubTask.priority inheritedKeySubTask = None
  /\ SubTask.type inheritedKeySubTask = "constructor"%string
  /\ getPriorityWeight None "constructor" = ObjectWeight
  /\ subtaskWeights subtasks = None
  /\ completedWeight (calculateSubtaskContribution inheritedKeyParent) = simpleRatio subtasks
  /\ (completedWeight (calculateSubtaskContribution inheritedKeyParent) == 1 # 2)%Q
  /\ specifiedWeight None "constructor" = 5
  /\ (inject_Z (sumOfCompletedWeights subtasks) / inject_Z (sumOfWeights subtasks)
      == 9 # 14)%Q
  /\ ~ (completedWeight (calculateSubtaskContribution inheritedKeyParent)
        == inject_Z (sumOfCompletedWeights subtasks) / inject_Z (sumOfWeights subtasks))%Q.
Proof.
  cbv zeta. repeat split; try reflexivity. vm_compute. discriminate.
Qed.

(** X27: for a task with at least one subtask, where every subtask has an
    explicit priority or a type that is no key of [Object.prototype], each
    subtask's base weight is the number the specification names (the
    explicit priority, or the tier default 2, 5, 8 or 5), at least 1 and at
    most 10; the total subtask weight is positive, and the aggregator
    returns the priority-weighted completion ratio, a value in [0,1]. *)
Theorem number_weights_give_the_weighted_ratio
    (task : Task.t) (s : SubTask.t) (rest : list SubTask.t) :
  Task.subTasks task = Some (s :: rest) ->
  Forall (fun x => SubTask.priority x <> None
                   \/ isObjectPrototypeKey (SubTask.type x) = false) (s :: rest) ->
  Forall (fun x =>
            getPriorityWeight (SubTask.priority x) (SubTask.type x)
            = NumberWeight (specifiedWeight (SubTask.priority x) (SubTask.type x))
            /\ 1 <= specifiedWeight (SubTask.priority x) (SubTask.type x) <= 10)
         (s :: rest)
  /\ subtaskWeights (s :: rest)
     = Some (sumOfCompletedWeights (s :: rest), sumOfWeights (s :: rest))
  /\ 0 < sumOfWeights (s :: rest)
  /\ calculateSubtaskContribution task =
       {| completedWeight :=
            (inject_Z (sumOfCompletedWeights (s :: rest))
             / inject_Z (sumOfWeights (s :: rest)))%Q;
          totalWeight := 1%Q;
          completedSubtasks := List.length (filter SubTask.completed (s :: rest)) |}
  /\ (0 <= completedWeight (calculateSubtaskContribution task) <= 1)%Q.
Proof.
  intros Hsubs Hnumbers.
  assert (Hall : forallb subtaskWeightIsNumber (s :: rest) = true).
  { apply forallb_forall. rewrite Forall_forall in Hnumbers.
    intros x Hin. specialize (Hnumbers x Hin).
    unfold subtaskWeightIsNumber, weightIsNumber.
    destruct (SubTask.priority x); [reflexivity|].
    destruct Hnumbers as [H|H]; [congruence | rewrite H; reflexivity]. }
  destruct (sumOfWeights_bounds s rest) as [Hratio Hpos].
  split; [|split; [exact (subtaskWeights_numbers _ Hall)|split; [exact Hpos|split]]].
  - apply Forall_forall. intros x Hin.
    split; [|apply specifiedWeight_range].
    apply getPriorityWeight_number.
    rewrite forallb_forall in Hall. exact (Hall x Hin).
  - exact (contribution_of_subtasks _ _ _ Hsubs Hall).
  - rewrite (contribution_of_subtasks _ _ _ Hsubs Hall). cbn [completedWeight].
    apply ratio_in_unit; assumption.
Qed.

Lemma number_weights_give_the_weighted_ratio_witness :
  (completedWeight (calculateSubtaskContribution (parentTask false true false)) == 3 # 10)%Q
  /\ (0 <= completedWeight (calculateSubtaskContribution (parentTask false true false)) <= 1)%Q.
Proof.
  destruct (number_weights_give_the_weighted_ratio
              (parentTask false true false)
              (plainSubTask (Some P3) true) [plainSubTask (Some P7) false])
    as (_ & _ & _ & Hvalue & Hunit).
  - reflexivity.
  - repeat constructor; left; discriminate.
  - split; [rewrite Hvalue; reflexivity | exact Hunit].
Defined.

(** ** The loop body of the RTP calculator *)

Lemma filter_length_all {A : Type} (f : A -> bool) (l : list A) :
  List.length (filter f l) = List.length l <-> Forall (fun x => f x = true) l.
Proof.
  induction l as [|x l IH]; simpl.
  - split; [constructor | reflexivity].
  - pose proof (filter_length_le f l) as Hle.
    destruct (f x) eqn:Hx; simpl; split; intros H.
    + constructor; [exact Hx | apply IH; lia].
    + inversion H; subst. f_equal. apply IH. assumption.
    + lia.
    + inversion H; subst. congruence.
Qed.

Lemma nonEmpty_orEmpty {A : Type} (o : option (list A)) :
  nonEmpty o = true <-> orEmpty o <> [].
Proof.
  destruct o as [[|x l]|]; simpl; split; intros H; congruence.
Qed.

Lemma processTask_completedTasks (c : Clock) (user : User)
    (filterType : option TaskType) (acc : Acc.t) (task : Task.t) :
  skippedByType filterType task = false ->
  Acc.completedTasks (processTask c user filterType acc task)
  = incrIf (countsAsCompleted task) (Acc.completedTasks acc).
Proof.
  intros Hkeep. unfold processTask, countsAsCompleted. rewrite Hkeep.
  destruct (trackEstimates task _ _ _) as [[est act] n].
  destruct (nonEmpty (Task.subTasks task)) eqn:Hne; [|reflexivity].
  destruct (contribution_completedSubtasks task Hne) as [-> _]. reflexivity.
Qed.

Lemma countsAsCompleted_spec (task : Task.t) :
  countsAsCompleted task = true <->
  (orEmpty (Task.subTasks task) = [] /\ Task.completed task = true)
  \/ (orEmpty (Task.subTasks task) <> []
      /\ Forall (fun s => SubTask.completed s = true) (orEmpty (Task.subTasks task))
      /\ Task.completed task = true).
Proof.
  unfold countsAsCompleted.
  destruct (nonEmpty (Task.subTasks task)) eqn:Hne.
  - apply nonEmpty_orEmpty in Hne.
    rewrite andb_true_iff, Nat.eqb_eq, filter_length_all. tauto.
  - assert (Hempty : orEmpty (Task.subTasks task) = []).
    { destruct (Task.subTasks task) as [[|s rest]|]; simpl in *; congruence. }
    rewrite Hempty. intuition congruence.
Qed.

(** C5: a processed task increments [completedTasks] exactly when it has no
    subtasks and is completed, or has subtasks that are all completed and is
    itself completed; otherwise the counter is unchanged, in particular for
    an uncompleted task whose subtasks are all completed. *)
Theorem completedTasks_counts_fully_completed (c : Clock) (user : User)
    (filterType : option TaskType) (acc : Acc.t) (task : Task.t) :
  skippedByType filterType task = false ->
  let subtasks := orEmpty (Task.subTasks task) in
  let after := Acc.completedTasks (processTask c user filterType acc task) in
  (after = S (Acc.completedTasks acc) <->
     (subtasks = [] /\ Task.completed task = true)
     \/ (subtasks <> []
         /\ Forall (fun s => SubTask.completed s = true) subtasks
         /\ Task.completed task = true))
  /\ (after <> S (Acc.completedTasks acc) -> after = Acc.completedTasks acc)
  /\ (subtasks <> [] ->
      Forall (fun s => SubTask.completed s = true) subtasks ->
      Task.completed task = false ->
      after = Acc.completedTasks acc).
Proof.
  intros Hkeep subtasks after. subst subtasks after.
  rewrite (processTask_completedTasks c user filterType acc task Hkeep).
  pose proof (countsAsCompleted_spec task) as Hspec.
  destruct (countsAsCompleted task) eqn:Hc; cbn [incrIf].
  - split; [|split].
    + split; [intros _; apply Hspec; reflexivity | reflexivity].
    + congruence.
    + intros Hne Hall Hfalse. exfalso.
      destruct (proj1 Hspec eq_refl) as [[_ Ht]|[_ [_ Ht]]]; congruence.
  - split; [|split].
    + split; [lia | intros H; apply Hspec in H; discriminate].
    + reflexivity.
    + reflexivity.
Qed.

Lemma completedTasks_counts_fully_completed_witness :
  Acc.completedTasks
    (processTask exampleClock (userOf [parentTask false true true]) None initialAcc
                 (parentTask false true true))
  = Acc.completedTasks initialAcc.
Proof.
  apply (completedTasks_counts_fully_completed
           exampleClock (userOf [parentTask false true true]) None initialAcc
           (parentTask false true true)).
  - reflexivity.
  - discriminate.
  - repeat constructor.
  - reflexivity.
Defined.

(** C3 (as amended): with a tier filter, a task of another tier is counted
    in [totalTasks] and in nothing else: the weighted sums, the time totals,
    the completed count and the blocked count are left as they were. *)
Theorem skipped_tier_counts_only_in_totalTasks (c : Clock) (user : User)
    (filterType : TaskType) (acc : Acc.t) (task : Task.t) :
  Task.type task <> TaskType_name filterType ->
  processTask c user (Some filterType) acc task
  = Acc.mk (Acc.weightedCompletedSum acc) (Acc.weightedTotalSum acc)
           (Acc.totalEstimatedTime acc) (Acc.totalActualTime acc)
           (Acc.tasksWithAccurateEstimates acc)
           (S (Acc.totalTasks acc)) (Acc.completedTasks acc) (Acc.blockedTasks acc).
Proof.
  intros Htier. unfold processTask, skippedByType.
  apply String.eqb_neq in Htier. rewrite Htier. reflexivity.
Qed.

Lemma skipped_tier_counts_only_in_totalTasks_witness :
  Acc.blockedTasks
    (processTask exampleClock (userOf [blockedLowTask]) (Some HIGH) initialAcc blockedLowTask)
  = 0%nat.
Proof.
  rewrite (skipped_tier_counts_only_in_totalTasks
             exampleClock (userOf [blockedLowTask]) HIGH initialAcc blockedLowTask).
  - reflexivity.
  - discriminate.
Defined.

(** C3 (counterexample): a blocked task of tier LOW under the filter HIGH
    passes the date filter and is counted in [totalTasks], and the blocked
    count stays at zero. *)
Lemma skipped_blocked_task_is_not_counted_as_blocked :
  let acc := accumulate exampleClock (userOf [blockedLowTask]) (Some HIGH) (Some todayRange) in
  nonEmpty (Task.blockedBy blockedLowTask) = true
  /\ filteredTasks (userOf [blockedLowTask]) (Some todayRange) = [blockedLowTask]
  /\ Acc.totalTasks acc = 1%nat
  /\ Acc.blockedTasks acc = 0%nat
  /\ Acc.blockedTasks acc <> S (Acc.blockedTasks initialAcc).
Proof.
  cbv zeta. unfold accumulate.
  assert (Hf : filteredTasks (userOf [blockedLowTask]) (Some todayRange) = [blockedLowTask])
    by (vm_compute; reflexivity).
  rewrite Hf. cbn [fold_left].
  unfold processTask.
  assert (Hs : skippedByType (Some HIGH) blockedLowTask = true) by reflexivity.
  rewrite Hs. cbn.
  repeat split; discriminate.
Qed.

(** ** The date-range filter *)

Lemma date_leb_le (a b : Date) :
  date_leb a b = true <-> exists x y, a = Some x /\ b = Some y /\ x <= y.
Proof.
  destruct a as [x|], b as [y|]; simpl; split.
  - intros H. apply Z.leb_le in H. eauto.
  - intros (x' & y' & Hx & Hy & Hle). inversion Hx; inversion Hy; subst.
    apply Z.leb_le. exact Hle.
  - discriminate.
  - intros (x' & y' & _ & Hy & _). discriminate.
  - discriminate.
  - intros (x' & y' & Hx & _). discriminate.
  - discriminate.
  - intros (x' & y' & Hx & _). discriminate.
Qed.

(** C4 (as amended): with a date range, a task is processed exactly when
    its start time lies in the closed interval from [dateRange.start] to
    [dateRange.end], both ends included. *)
Theorem date_range_filter_is_closed_interval
    (user : User) (dateRange : DateRange.t) (task : Task.t) :
  In task (filteredTasks user (Some dateRange)) <->
  In task (tasks user)
  /\ exists rangeStart rangeEnd taskStart,
       DateRange.start dateRange = Some rangeStart
       /\ DateRange.end_ dateRange = Some rangeEnd
       /\ new_Date (Task.startDateTime task) = Some taskStart
       /\ rangeStart <= taskStart <= rangeEnd.
Proof.
  unfold filteredTasks. rewrite filter_In. unfold inDateRange.
  rewrite andb_true_iff, !date_leb_le.
  split.
  - intros [Hin [(s & x & Hs & Hx & Hsx) (x' & e & Hx' & He & Hxe)]].
    split; [exact Hin|]. exists s, e, x.
    rewrite Hx in Hx'. inversion Hx'; subst. repeat split; assumption.
  - intros [Hin (s & e & x & Hs & He & Hx & Hsx & Hxe)].
    split; [exact Hin|]. split; [exists s, x | exists x, e]; repeat split; assumption.
Qed.

(** C4 (counterexample): a task that starts exactly at [dateRange.end] is
    kept by the filter. *)
Lemma task_starting_at_range_end_is_processed :
  new_Date (Task.startDateTime midnightTask) = DateRange.end_ todayRange
  /\ filteredTasks (userOf [midnightTask]) (Some todayRange) = [midnightTask]
  /\ Acc.totalTasks (accumulate exampleClock (userOf [midnightTask]) None (Some todayRange))
     = 1%nat.
Proof.
  assert (Hf : filteredTasks (userOf [midnightTask]) (Some todayRange) = [midnightTask])
    by (vm_compute; reflexivity).
  split; [vm_compute; reflexivity|]. split; [exact Hf|].
  unfold accumulate. rewrite Hf. cbn [fold_left].
  unfold processTask. cbn [skippedByType].
  destruct (trackEstimates midnightTask _ _ _) as [[est act] n].
  destruct (nonEmpty (Task.subTasks midnightTask)); reflexivity.
Qed.

(** ** The task classifier *)

Lemma keywordHits_none (text : string) (keywords : list string) :
  (forall k, In k keywords -> includes text k = false) ->
  keywordHits text keywords = 0.
Proof.
  unfold keywordHits. generalize 0.
  induction keywords as [|k rest IH]; intros n Hnone; simpl.
  - reflexivity.
  - rewrite (Hnone k (or_introl eq_refl)).
    apply IH. intros k' Hk'. apply Hnone. right. exact Hk'.
Qed.

Lemma lengthZ_nil {A : Type} (o : option (list A)) : orEmpty o = [] -> lengthZ o = 0.
Proof. unfold lengthZ. intros ->. reflexivity. Qed.

Lemma nonEmpty_nil {A : Type} (o : option (list A)) : orEmpty o = [] -> nonEmpty o = false.
Proof. destruct o as [[|x l]|]; simpl; congruence. Qed.

(** C9: a partial task with a 400-character description, exactly six
    subtasks, a thirty-hour duration, no keyword in its name and
    description, no collaborators, no blockers and no estimate gets the
    scores HIGH = 10, MID = 0, LOW = 0, hence the tier HIGH and priority 9. *)
Theorem classifyTask_scenario (task : PartialTask.t)
    (text : string) (subtasks : list SubTask.t) (startMs endMs : Z) :
  PartialTask.description task = Some text ->
  String.length text = 400%nat ->
  PartialTask.subTasks task = Some subtasks ->
  List.length subtasks = 6%nat ->
  PartialTask.startDateTime task = Some (DateTime startMs) ->
  PartialTask.endDateTime task = Some (DateTime endMs) ->
  endMs - startMs = 30 * msPerHour ->
  (forall keyword,
      In keyword (highPriorityKeywords ++ midPriorityKeywords ++ lowPriorityKeywords) ->
      includes (classifierText task) keyword = false) ->
  orEmpty (PartialTask.collaborators task) = [] ->
  orEmpty (PartialTask.blockedBy task) = [] ->
  truthyNumber (PartialTask.estimatedMinutes task) = false ->
  classifierScores task = {| scoreLOW := 0; scoreMID := 0; scoreHIGH := 3 + 4 + 3 |}
  /\ classifyTask task = Classification.mk HIGH P9.
Proof.
  intros Hdesc Hlen Hsubs Hsix Hstart Hend Hdur Hkw Hcollab Hblock Hest.
  assert (Hscores :
    classifierScores task = {| scoreLOW := 0; scoreMID := 0; scoreHIGH := 3 + 4 + 3 |}).
  { unfold classifierScores.
    unfold ruleDescription. rewrite Hdesc. cbn [orEmptyString]. rewrite Hlen.
    unfold ruleSubtasks, lengthZ. rewrite Hsubs. cbn [orEmpty]. rewrite Hsix.
    unfold ruleDuration. rewrite Hstart, Hend. cbn [truthyDateTime andb].
    unfold durationHours. cbn [new_Date date_minus]. rewrite Hdur.
    unfold ruleKeywords.
    rewrite !keywordHits_none
      by (intros k Hk; apply Hkw; rewrite !in_app_iff; auto).
    unfold ruleCollaborators. rewrite (lengthZ_nil _ Hcollab).
    unfold ruleBlocked. rewrite (nonEmpty_nil _ Hblock).
    unfold ruleEstimate.
    destruct (PartialTask.estimatedMinutes task) as [m|]; cbn [truthyNumber] in Hest;
      [rewrite Hest|]; vm_compute; reflexivity. }
  split; [exact Hscores|].
  unfold classifyTask. rewrite Hscores. vm_compute. reflexivity.
Qed.

Lemma classifyTask_scenario_witness :
  classifierScores scenarioTask = {| scoreLOW := 0; scoreMID := 0; scoreHIGH := 10 |}
  /\ classifyTask scenarioTask = Classification.mk HIGH P9.
Proof.
  apply (classifyTask_scenario scenarioTask (repeatChar "x" 400)
           (repeat (plainSubTask None false) 6)
           exampleNow (exampleNow + 30 * msPerHour)).
  - reflexivity.
  - vm_compute; reflexivity.
  - reflexivity.
  - reflexivity.
  - reflexivity.
  - reflexivity.
  - vm_compute; reflexivity.
  - intros keyword Hin.
    repeat (destruct Hin as [<-|Hin]; [vm_compute; reflexivity|]).
    destruct Hin.
  - reflexivity.
  - reflexivity.
  - reflexivity.
Defined.

(** ** Urgency of overdue tasks *)

Lemma Rmin_3_le (x : R) : (Rmin 3 x <= 3)%R.
Proof. apply Rmin_l. Qed.

Lemma urgencyFactor_overdue (c : Clock) (task : Task.t) (deadlineMs : Z) :
  new_Date (Task.endDateTime task) = Some deadlineMs ->
  deadlineMs < now c ->
  urgencyFactor c task
  = Rmin 3 (1 + IZR (now c - deadlineMs)
                / IZR (overdueDenominator (totalTaskDuration task))).
Proof.
  intros Hdeadline Hlate.
  unfold urgencyFactor, timeRemaining. rewrite Hdeadline. cbn [date_minus].
  assert (Hneg : (deadlineMs - now c <? 0) = true) by (apply Z.ltb_lt; lia).
  rewrite Hneg.
  replace (Z.abs (deadlineMs - now c)) with (now c - deadlineMs) by lia.
  reflexivity.
Qed.

(** C7: for a task whose deadline is strictly before the evaluation time
    the urgency factor is [min(3, 1 + |timeOverdue| / totalDuration)], where
    the total duration is the deadline minus the start, and one day takes
    its place when that difference is zero or the start is no valid date; it
    is therefore at most 3, and it is the factor that enters the weighted
    average of [calculateDynamicWeight]. *)
Theorem overdue_urgency_is_capped_at_3 (c : Clock) (task : Task.t) (deadlineMs : Z) :
  Task.endDateTime task = DateTime deadlineMs ->
  deadlineMs < now c ->
  let timeOverdue := Z.abs (deadlineMs - now c) in
  let totalDuration :=
    match Task.startDateTime task with
    | DateTime startMs =>
        if deadlineMs - startMs =? 0 then 1000 * 60 * 60 * 24 else deadlineMs - startMs
    | _ => 1000 * 60 * 60 * 24
    end in
  urgencyFactor c task = Rmin 3 (1 + IZR timeOverdue / IZR totalDuration)
  /\ (urgencyFactor c task <= 3)%R
  /\ (forall user,
        let b := toNumber (getPriorityWeight (Task.priority task) (Task.type task)) in
        let prefs := userWeightPreferences user in
        preferenceWeight c task user
        = ((b * number (priority prefs)
            + b * Finite (Rmin 3 (1 + IZR timeOverdue / IZR totalDuration))
              * number (deadline prefs)
            + b * Finite (complexityFactor task) * number (complexity prefs))
           / (number (priority prefs) + number (deadline prefs)
              + number (complexity prefs)))%js).
Proof.
  intros Hdeadline Hlate timeOverdue totalDuration.
  assert (Hover : timeOverdue = now c - deadlineMs) by (unfold timeOverdue; lia).
  assert (Hend : new_Date (Task.endDateTime task) = Some deadlineMs)
    by (rewrite Hdeadline; reflexivity).
  assert (Hden : overdueDenominator (totalTaskDuration task) = totalDuration).
  { unfold totalTaskDuration, totalDuration. rewrite Hend.
    destruct (Task.startDateTime task); reflexivity. }
  assert (Hu : urgencyFactor c task = Rmin 3 (1 + IZR timeOverdue / IZR totalDuration)).
  { rewrite (urgencyFactor_overdue c task deadlineMs Hend Hlate), Hden, Hover.
    reflexivity. }
  split; [exact Hu|]. split.
  - rewrite Hu. apply Rmin_3_le.
  - intros user b prefs. unfold preferenceWeight, baseWeight. rewrite Hu. reflexivity.
Qed.

(** ** Evaluating the weight model on the example tasks *)

Lemma msPerDay_pos : 0 < msPerDay.
Proof. reflexivity. Qed.

Lemma IZR_msPerDay_neq_0 : IZR msPerDay <> 0%R.
Proof. apply not_0_IZR. discriminate. Qed.

Lemma log10_1 : log10 1 = 0%R.
Proof. unfold log10. rewrite ln_1. unfold Rdiv. apply Rmult_0_l. Qed.

Lemma durationFactor_one_day : durationFactor msPerDay = 1%R.
Proof.
  unfold durationFactor.
  replace (IZR msPerDay / IZR msPerDay)%R with 1%R
    by (field; apply IZR_msPerDay_neq_0).
  rewrite log10_1. apply Rmax_left. lra.
Qed.

Lemma timeRemaining_plainTask (type : string) (p : option PriorityScale)
    (done : bool) (startDay endDay : Z) :
  timeRemaining exampleClock (plainTask type p done startDay endDay)
  = Some (endDay * msPerDay).
Proof.
  unfold timeRemaining, plainTask. cbn [Task.endDateTime new_Date date_minus now exampleClock].
  f_equal. lia.
Qed.

Lemma totalTaskDuration_plainTask (type : string) (p : option PriorityScale)
    (done : bool) (startDay endDay : Z) :
  totalTaskDuration (plainTask type p done startDay endDay)
  = Some ((endDay - startDay) * msPerDay).
Proof.
  unfold totalTaskDuration, plainTask.
  cbn [Task.endDateTime Task.startDateTime new_Date date_minus].
  f_equal. lia.
Qed.

(** A one-day task that starts in six days: seven times its duration
    remains, and the urgency factor is [1 + (1 - 7) * 0.5 * 1 = -2]. *)
Lemma urgencyFactor_nextWeekTask (p : option PriorityScale) :
  urgencyFactor exampleClock (nextWeekTask p) = (-2)%R.
Proof.
  unfold urgencyFactor, nextWeekTask.
  rewrite timeRemaining_plainTask, totalTaskDuration_plainTask.
  change ((7 - 6) * msPerDay) with msPerDay.
  change (0 <? 7 * msPerDay) with true. change (0 <? msPerDay) with true.
  change (7 * msPerDay <? 0) with false. cbn [andb].
  rewrite durationFactor_one_day, mult_IZR.
  field. apply IZR_msPerDay_neq_0.
Qed.

(** A one-day task that ended one day ago is overdue by its whole
    duration. *)
Lemma urgencyFactor_finishedTask : urgencyFactor exampleClock finishedTask = 2%R.
Proof.
  rewrite (urgencyFactor_overdue exampleClock finishedTask (exampleNow - msPerDay))
    by (vm_compute; reflexivity).
  unfold finishedTask. rewrite totalTaskDuration_plainTask.
  change ((-1 - -2) * msPerDay) with msPerDay.
  change (overdueDenominator (Some msPerDay)) with msPerDay.
  replace (now exampleClock - (exampleNow - msPerDay)) with msPerDay
    by (cbn [now exampleClock]; lia).
  replace (1 + IZR msPerDay / IZR msPerDay)%R with 2%R
    by (field; apply IZR_msPerDay_neq_0).
  apply Rmin_right. lra.
Qed.

Lemma overdue_urgency_is_capped_at_3_witness :
  urgencyFactor exampleClock finishedTask
  = Rmin 3 (1 + IZR (1000 * 60 * 60 * 24) / IZR (1000 * 60 * 60 * 24))
  /\ (urgencyFactor exampleClock finishedTask <= 3)%R.
Proof.
  destruct (overdue_urgency_is_capped_at_3 exampleClock finishedTask (exampleNow - msPerDay))
    as (Hvalue & Hcap & _).
  - reflexivity.
  - vm_compute; reflexivity.
  - split; [exact Hvalue | exact Hcap].
Defined.

(** A task without duration that was due one day ago: the denominator is
    one day. *)
Lemma urgencyFactor_lateTask : urgencyFactor exampleClock lateTask = 2%R.
Proof.
  rewrite (urgencyFactor_overdue exampleClock lateTask (exampleNow - msPerDay))
    by (vm_compute; reflexivity).
  unfold lateTask. rewrite totalTaskDuration_plainTask.
  change ((-1 - -1) * msPerDay) with 0.
  change (overdueDenominator (Some 0)) with msPerDay.
  replace (now exampleClock - (exampleNow - msPerDay)) with msPerDay
    by (cbn [now exampleClock]; lia).
  replace (1 + IZR msPerDay / IZR msPerDay)%R with 2%R
    by (field; apply IZR_msPerDay_neq_0).
  apply Rmin_right. lra.
Qed.

Lemma complexityFactor_plainTask (type : string) (p : option PriorityScale)
    (done : bool) (startDay endDay : Z) :
  complexityFactor (plainTask type p done startDay endDay) = 1%R.
Proof. reflexivity. Qed.

Lemma Q2R_tenths (n : Z) : Q2R (n # 10) = (IZR n / 10)%R.
Proof. unfold Q2R. cbn [Qnum Qden]. reflexivity. Qed.

(** ** The weight as a real number

    Where the base weight is a number and the preference ratios do not sum
    to zero, the weight before the workload step is the base weight times
    two real factors. *)

Lemma preferenceSum_R (user : User) :
  (Q2R (priority (userWeightPreferences user))
   + Q2R (deadline (userWeightPreferences user))
   + Q2R (complexity (userWeightPreferences user)))%R
  = Q2R (preferenceSum user).
Proof. unfold preferenceSum. cbv zeta. rewrite !Qreals.Q2R_plus. reflexivity. Qed.

Lemma Q2R_nonzero (q : Q) : ~ (q == 0)%Q -> Q2R q <> 0%R.
Proof.
  intros H Heq. apply H. apply Qreals.eqR_Qeq. rewrite Heq, RMicromega.Q2R_0. reflexivity.
Qed.

Lemma preferenceWeight_number (c : Clock) (task : Task.t) (user : User) (b : Z) :
  baseWeight task = NumberWeight b ->
  ~ (preferenceSum user == 0)%Q ->
  preferenceWeight c task user = Finite (IZR b * weightFactor c task user).
Proof.
  intros Hb Hsum. apply Q2R_nonzero in Hsum. rewrite <- preferenceSum_R in Hsum.
  unfold preferenceWeight. cbv zeta. rewrite Hb. unfold number.
  cbn [toNumber js_mul js_add]. rewrite (js_div_finite _ _ Hsum).
  f_equal. unfold weightFactor. cbv zeta. field. exact Hsum.
Qed.

(** A base weight that is no number makes the weight NaN. *)
Lemma preferenceWeight_object (c : Clock) (task : Task.t) (user : User) :
  baseWeight task = ObjectWeight -> preferenceWeight c task user = NaN.
Proof. intros Hb. unfold preferenceWeight. cbv zeta. rewrite Hb. reflexivity. Qed.

Lemma weightBeforeWorkload_number (c : Clock) (task : Task.t) (user : User) (b : Z) :
  baseWeight task = NumberWeight b ->
  ~ (preferenceSum user == 0)%Q ->
  weightBeforeWorkload c task user
  = Finite (IZR b * (weightFactor c task user * productiveBoost c user)).
Proof.
  intros Hb Hsum. unfold weightBeforeWorkload, productiveBoost. cbv zeta.
  rewrite (preferenceWeight_number c task user b Hb Hsum).
  destruct (_ && _); cbn [js_mul]; f_equal; ring.
Qed.

Lemma Q2R_12_10 : Q2R (12 # 10) = (12 / 10)%R.
Proof. apply Q2R_tenths. Qed.

(** [Math.pow(w, 1.2)] on a real weight: the power for a positive weight,
    zero for zero. *)
Lemma Math_pow_positive (w : R) :
  (0 < w)%R -> Math_pow (Finite w) (12 # 10) = Finite (Rpower w (12 / 10)).
Proof.
  intros Hw. unfold Math_pow. change (Qeq_bool (12 # 10) 0) with false. cbv iota.
  destruct (Rlt_dec 0 w); [|contradiction]. rewrite Q2R_12_10. reflexivity.
Qed.

Lemma Math_pow_zero : Math_pow (Finite 0) (12 # 10) = Finite 0.
Proof.
  unfold Math_pow. change (Qeq_bool (12 # 10) 0) with false. cbv iota.
  destruct (Rlt_dec 0 0); [lra|]. reflexivity.
Qed.

Lemma calculateDynamicWeight_number (c : Clock) (task : Task.t) (user : User) (b : Z) :
  baseWeight task = NumberWeight b ->
  ~ (preferenceSum user == 0)%Q ->
  (0 <= IZR b * (weightFactor c task user * productiveBoost c user))%R ->
  calculateDynamicWeight c task user
  = Finite (workloadAdjustment c user
              (IZR b * (weightFactor c task user * productiveBoost c user))).
Proof.
  intros Hb Hsum Hw. unfold calculateDynamicWeight, workloadAdjustment. cbv zeta.
  rewrite (weightBeforeWorkload_number c task user b Hb Hsum).
  destruct (overloadAdjusts c user); [|reflexivity].
  destruct (Rlt_dec 0 _) as [Hpos|Hzero].
  - apply Math_pow_positive. exact Hpos.
  - assert (Hz : (IZR b * (weightFactor c task user * productiveBoost c user))%R = 0%R)
      by lra.
    rewrite Hz. apply Math_pow_zero.
Qed.

(** Without declared preferences the ratios are 0.4, 0.4 and 0.2, and
    neither the productive-hour boost nor the workload adjustment applies. *)
Lemma default_preferenceSum (user : User) :
  preferences user = None -> ~ (preferenceSum user == 0)%Q.
Proof.
  intros Hnone. unfold preferenceSum, userWeightPreferences. rewrite Hnone. discriminate.
Qed.

Lemma weightFactor_default (c : Clock) (task : Task.t) (user : User) :
  preferences user = None ->
  weightFactor c task user
  = (4 / 10 + urgencyFactor c task * (4 / 10) + complexityFactor task * (2 / 10))%R.
Proof.
  intros Hnone. unfold weightFactor, userWeightPreferences. rewrite Hnone.
  cbn [priority deadline complexity defaultWeightPreferences].
  rewrite !Q2R_tenths. field.
Qed.

Lemma calculateDynamicWeight_no_preferences (c : Clock) (task : Task.t) (user : User) :
  preferences user = None ->
  calculateDynamicWeight c task user = preferenceWeight c task user.
Proof.
  intros Hnone.
  unfold calculateDynamicWeight, overloadAdjusts, weightBeforeWorkload,
    userWorkloadCapacity, userProductiveHours.
  rewrite Hnone. reflexivity.
Qed.

Lemma weight_default (c : Clock) (task : Task.t) (user : User) (b : Z) :
  preferences user = None ->
  baseWeight task = NumberWeight b ->
  calculateDynamicWeight c task user
  = Finite (IZR b * (4 / 10 + urgencyFactor c task * (4 / 10)
                     + complexityFactor task * (2 / 10))).
Proof.
  intros Hnone Hb.
  rewrite (calculateDynamicWeight_no_preferences _ _ _ Hnone),
          (preferenceWeight_number _ _ _ b Hb (default_preferenceSum _ Hnone)),
          (weightFactor_default _ _ _ Hnone).
  reflexivity.
Qed.

Lemma weight_finishedTask (user : User) :
  preferences user = None ->
  calculateDynamicWeight exampleClock finishedTask user = Finite 14.
Proof.
  intros Hnone.
  rewrite (weight_default exampleClock finishedTask user 10 Hnone eq_refl),
          urgencyFactor_finishedTask.
  unfold finishedTask. rewrite complexityFactor_plainTask. f_equal. lra.
Qed.

Lemma weight_nextWeekTask (p : option PriorityScale) (user : User) :
  preferences user = None ->
  calculateDynamicWeight exampleClock (nextWeekTask p) user
  = Finite (IZR (specifiedWeight p "MID") * (-2 / 10)).
Proof.
  intros Hnone.
  assert (Hb : baseWeight (nextWeekTask p) = NumberWeight (specifiedWeight p "MID")).
  { destruct p; reflexivity. }
  rewrite (weight_default _ _ _ _ Hnone Hb), urgencyFactor_nextWeekTask.
  unfold nextWeekTask. rewrite complexityFactor_plainTask. f_equal. lra.
Qed.

Lemma weight_lateTask (user : User) :
  preferences user = None ->
  weightBeforeWorkload exampleClock lateTask user = Finite 7
  /\ calculateDynamicWeight exampleClock lateTask user = Finite 7.
Proof.
  intros Hnone.
  assert (Hw : preferenceWeight exampleClock lateTask user = Finite 7).
  { rewrite (preferenceWeight_number exampleClock lateTask user 5 eq_refl
               (default_preferenceSum _ Hnone)),
            (weightFactor_default _ _ _ Hnone), urgencyFactor_lateTask.
    unfold lateTask. rewrite complexityFactor_plainTask. f_equal. lra. }
  split.
  - unfold weightBeforeWorkload, userProductiveHours. rewrite Hnone. exact Hw.
  - rewrite (calculateDynamicWeight_no_preferences _ _ _ Hnone). exact Hw.
Qed.

(** ** The workload adjustment *)

Lemma Qltb_lt (a b : Q) : Qltb a b = true <-> (a < b)%Q.
Proof.
  unfold Qltb. rewrite negb_true_iff. split.
  - intros H. apply Qnot_le_lt. intros Hle. apply Qle_bool_iff in Hle. congruence.
  - intros H. destruct (Qle_bool b a) eqn:Hle; [|reflexivity].
    apply Qle_bool_iff in Hle. exfalso. exact (Qlt_not_le _ _ H Hle).
Qed.

(** Raising to the power 1.2 moves every positive weight other than 1. *)
Lemma Math_pow_moves (x : R) :
  (0 < x)%R -> x <> 1%R -> Math_pow (Finite x) (12 # 10) <> Finite x.
Proof.
  intros Hpos Hne Heq. rewrite (Math_pow_positive x Hpos) in Heq.
  injection Heq as Heq. unfold Rpower in Heq.
  rewrite <- (exp_ln x Hpos) in Heq at 2.
  apply exp_inv in Heq.
  assert (Hln : ln x = 0%R) by lra.
  rewrite <- ln_1 in Hln. apply ln_inv in Hln; lra.
Qed.

(** C2 (as amended): when the analyzer reports an overload factor above 1,
    every task's weight is raised to the power 1.2 if the user declares a
    non-zero workload capacity, and is left as it is if the user declares
    none. *)
Theorem overload_adjustment_requires_declared_capacity
    (c : Clock) (user : User) (task : Task.t) :
  (1 < overloadFactor (calculateWorkloadMetrics c user))%Q ->
  (truthyNumber (userWorkloadCapacity user) = true ->
   calculateDynamicWeight c task user
   = Math_pow (weightBeforeWorkload c task user) (12 # 10))
  /\ (truthyNumber (userWorkloadCapacity user) = false ->
      calculateDynamicWeight c task user = weightBeforeWorkload c task user).
Proof.
  intros Hover. apply Qltb_lt in Hover.
  unfold calculateDynamicWeight, overloadAdjusts.
  split; intros Hcap; rewrite Hcap; cbn [andb]; [rewrite Hover|]; reflexivity.
Qed.

Lemma overload_adjustment_requires_declared_capacity_witness :
  calculateDynamicWeight exampleClock lateTask lateUserWithCapacity
  = Math_pow (weightBeforeWorkload exampleClock lateTask lateUserWithCapacity) (12 # 10).
Proof.
  apply (overload_adjustment_requires_declared_capacity
           exampleClock lateUserWithCapacity lateTask).
  - vm_compute; reflexivity.
  - reflexivity.
Defined.

(** C2 (counterexample): six unfinished tasks due yesterday give a user
    without a declared capacity the overload factor 6/5, and the weight of
    each of these tasks is 7, not 7 to the power 1.2. *)
Lemma overloaded_user_without_capacity_is_not_adjusted :
  In lateTask (tasks lateUser)
  /\ (overloadFactor (calculateWorkloadMetrics exampleClock lateUser) == 6 # 5)%Q
  /\ (1 < overloadFactor (calculateWorkloadMetrics exampleClock lateUser))%Q
  /\ weightBeforeWorkload exampleClock lateTask lateUser = Finite 7
  /\ calculateDynamicWeight exampleClock lateTask lateUser = Finite 7
  /\ calculateDynamicWeight exampleClock lateTask lateUser
     <> Math_pow (weightBeforeWorkload exampleClock lateTask lateUser) (12 # 10).
Proof.
  destruct (weight_lateTask lateUser eq_refl) as [Hbefore Hweight].
  split; [left; reflexivity|].
  split; [vm_compute; reflexivity|].
  split; [vm_compute; reflexivity|].
  split; [exact Hbefore|]. split; [exact Hweight|].
  rewrite Hweight, Hbefore. intros Heq. symmetry in Heq. revert Heq.
  apply Math_pow_moves; lra.
Qed.

(** ** Weights of tasks that have not started *)

(** The loop body on a task without subtasks, estimate or blockers, with no
    tier filter. *)
Lemma processTask_simple (c : Clock) (user : User) (acc : Acc.t) (task : Task.t) :
  Task.subTasks task = None ->
  Task.estimatedMinutes task = None ->
  Task.blockedBy task = None ->
  processTask c user None acc task
  = Acc.mk (Acc.weightedCompletedSum acc
            + (if Task.completed task then calculateDynamicWeight c task user
               else Finite 0))%js
           (Acc.weightedTotalSum acc + calculateDynamicWeight c task user)%js
           (Acc.totalEstimatedTime acc) (Acc.totalActualTime acc)
           (Acc.tasksWithAccurateEstimates acc)
           (S (Acc.totalTasks acc))
           (incrIf (Task.completed task) (Acc.completedTasks acc))
           (Acc.blockedTasks acc).
Proof.
  intros Hsubs Hest Hblocked.
  unfold processTask, trackEstimates. cbn [skippedByType].
  rewrite Hsubs, Hest, Hblocked. reflexivity.
Qed.

Lemma accumulate_plannerUser :
  Acc.weightedCompletedSum (accumulate exampleClock plannerUser None None) = Finite 14
  /\ Acc.weightedTotalSum (accumulate exampleClock plannerUser None None) = Finite 13.
Proof.
  unfold accumulate.
  change (filteredTasks plannerUser None) with [finishedTask; nextWeekTask None].
  cbn [fold_left].
  rewrite (processTask_simple _ _ _ (nextWeekTask None) eq_refl eq_refl eq_refl).
  rewrite (processTask_simple _ _ _ finishedTask eq_refl eq_refl eq_refl).
  cbn [Acc.weightedCompletedSum Acc.weightedTotalSum initialAcc].
  rewrite (weight_finishedTask plannerUser eq_refl),
          (weight_nextWeekTask None plannerUser eq_refl).
  change (specifiedWeight None "MID") with 5.
  change (Task.completed finishedTask) with true.
  change (Task.completed (nextWeekTask None)) with false.
  cbn [js_add]. split; f_equal; lra.
Qed.

(** C1 (failing input): a user without declared preferences (ratios 0.4,
    0.4, 0.2) has finished a priority-10 task yesterday and has a one-day
    task planned for next week.  The planned task gets the weight -1, the
    weighted total is 13, not zero, and the percentage is 1400/13, above
    100. *)
Theorem percentage_exceeds_100_with_a_planned_task :
  let prefs := userWeightPreferences plannerUser in
  (0 <= deadline prefs /\ 0 <= priority prefs /\ 0 <= complexity prefs
   /\ 0 < deadline prefs + priority prefs + complexity prefs)%Q
  /\ calculateDynamicWeight exampleClock (nextWeekTask None) plannerUser = Finite (-1)
  /\ Acc.weightedTotalSum (accumulate exampleClock plannerUser None None) = Finite 13
  /\ percentage (calculateRTP exampleClock plannerUser None None) = Finite (1400 / 13)
  /\ (100 < 1400 / 13)%R.
Proof.
  destruct accumulate_plannerUser as [Hcompleted Htotal].
  assert (Hp : percentage (calculateRTP exampleClock plannerUser None None)
               = Finite (1400 / 13)).
  { unfold calculateRTP. cbv zeta. rewrite Hcompleted, Htotal.
    rewrite strictEqualsZero_finite by lra.
    cbn [percentage]. rewrite js_div_finite by lra. cbn [js_mul]. f_equal. lra. }
  cbv zeta.
  split; [vm_compute; intuition discriminate|].
  split; [rewrite (weight_nextWeekTask None plannerUser eq_refl);
          change (specifiedWeight None "MID") with 5; f_equal; lra|].
  split; [exact Htotal|]. split; [exact Hp|]. lra.
Qed.

(** C8 (failing input): for the one-day task planned for next week, with
    everything but the priority held fixed, raising the explicit priority
    from 1 to 2 lowers the dynamic weight from -0.2 to -0.4. *)
Theorem weight_decreases_with_priority_of_a_planned_task :
  priorityValue P1 < priorityValue P2
  /\ calculateDynamicWeight exampleClock (nextWeekTask (Some P1)) plannerUser
     = Finite (-2 / 10)
  /\ calculateDynamicWeight exampleClock (nextWeekTask (Some P2)) plannerUser
     = Finite (-4 / 10)
  /\ (-4 / 10 < -2 / 10)%R.
Proof.
  rewrite !(weight_nextWeekTask _ plannerUser eq_refl).
  change (specifiedWeight (Some P1) "MID") with 1.
  change (specifiedWeight (Some P2) "MID") with 2.
  repeat split; try reflexivity; try (f_equal; lra); lra.
Qed.

(** ** Estimation accuracy *)

Lemma truthyQ_true (q : Q) : truthyQ q = true <-> ~ (q == 0)%Q.
Proof.
  unfold truthyQ. rewrite negb_true_iff. split.
  - intros H Heq. apply Qeq_bool_iff in Heq. congruence.
  - intros H. destruct (Qeq_bool q 0) eqn:Hq; [|reflexivity].
    apply Qeq_bool_iff in Hq. contradiction.
Qed.

Lemma trackEstimates_count (task : Task.t) (est act : Q) (n : nat) :
  snd (trackEstimates task est act n) = incrIf (hasBothTimes task) n.
Proof.
  unfold trackEstimates, hasBothTimes, truthyNumber.
  destruct (Task.estimatedMinutes task) as [e|]; [|reflexivity].
  destruct (truthyQ e); [|reflexivity].
  destruct (Task.actualMinutes task) as [a|]; [|reflexivity].
  destruct (truthyQ a); reflexivity.
Qed.

Section TimeTotals.

Variables (c : Clock) (user : User) (filterType : option TaskType).

Let step := processTask c user filterType.

Lemma processTask_estimates (acc : Acc.t) (task : Task.t) :
  (Acc.totalEstimatedTime (step acc task),
   Acc.totalActualTime (step acc task),
   Acc.tasksWithAccurateEstimates (step acc task))
  = if skippedByType filterType task
    then (Acc.totalEstimatedTime acc, Acc.totalActualTime acc,
          Acc.tasksWithAccurateEstimates acc)
    else trackEstimates task (Acc.totalEstimatedTime acc) (Acc.totalActualTime acc)
                        (Acc.tasksWithAccurateEstimates acc).
Proof.
  unfold step, processTask.
  destruct (skippedByType filterType task); [reflexivity|].
  destruct (trackEstimates task _ _ _) as [[est act] n].
  destruct (nonEmpty (Task.subTasks task)); reflexivity.
Qed.

(** The counter is the number of processed tasks with both times. *)
Lemma fold_accurate_count (l : list Task.t) :
  forall acc,
  Acc.tasksWithAccurateEstimates (fold_left step l acc)
  = (Acc.tasksWithAccurateEstimates acc
     + List.length
         (filter hasBothTimes
                 (filter (fun task => negb (skippedByType filterType task)) l)))%nat.
Proof.
  induction l as [|task rest IH]; intros acc; cbn [fold_left filter].
  - cbn. lia.
  - rewrite IH.
    pose proof (processTask_estimates acc task) as Hstep.
    destruct (skippedByType filterType task); cbn [negb filter].
    + injection Hstep as _ _ Hn. rewrite Hn. reflexivity.
    + assert (Hn : Acc.tasksWithAccurateEstimates (step acc task)
                   = incrIf (hasBothTimes task) (Acc.tasksWithAccurateEstimates acc)).
      { rewrite <- trackEstimates_count
          with (est := Acc.totalEstimatedTime acc) (act := Acc.totalActualTime acc).
        rewrite <- Hstep. reflexivity. }
      rewrite Hn. destruct (hasBothTimes task); cbn [incrIf List.length]; lia.
Qed.

End TimeTotals.

Lemma filter_length_none {A : Type} (f : A -> bool) (l : list A) :
  List.length (filter f l) = 0%nat <-> (forall x, In x l -> f x = false).
Proof.
  induction l as [|x l IH]; simpl.
  - split; [intros _ y [] | reflexivity].
  - destruct (f x) eqn:Hx; simpl; split.
    + discriminate.
    + intros H. specialize (H x (or_introl eq_refl)). congruence.
    + intros H y [<-|Hy]; [exact Hx | apply IH; assumption].
    + intros H. apply IH. intros y Hy. apply H. right. exact Hy.
Qed.

Lemma accumulate_accurate_count (c : Clock) (user : User)
    (filterType : option TaskType) (dateRange : option DateRange.t) :
  Acc.tasksWithAccurateEstimates (accumulate c user filterType dateRange)
  = List.length (filter hasBothTimes (processedTasks user filterType dateRange)).
Proof.
  unfold accumulate, processedTasks. rewrite fold_accurate_count. reflexivity.
Qed.

(** The accuracy for an estimated total other than zero: the relative error
    is taken in absolute value as a whole, so that the estimated total
    enters with its absolute value. *)
Lemma accuracyOf_nonzero (actual estimated : Q) :
  ~ (estimated == 0)%Q ->
  accuracyOf actual estimated
  = Finite (Rmin 100 (100 - Rabs (Q2R actual - Q2R estimated) / Rabs (Q2R estimated) * 100)).
Proof.
  intros Hnz. apply Q2R_nonzero in Hnz.
  unfold accuracyOf, number. rewrite (js_div_finite _ _ Hnz).
  cbn [js_mul Math_abs js_sub js_opp js_add Math_min].
  rewrite Qreals.Q2R_minus.
  do 2 f_equal. unfold Rminus. f_equal. f_equal.
  unfold Rdiv. rewrite !Rabs_mult, Rabs_inv. f_equal. apply Rabs_right. lra.
Qed.

Lemma accuracyOf_positive (actual estimated : Q) :
  (0 < estimated)%Q ->
  accuracyOf actual estimated
  = Finite (Rmin 100 (100 - Rabs (Q2R actual - Q2R estimated) / Q2R estimated * 100)).
Proof.
  intros Hpos.
  rewrite accuracyOf_nonzero by (intros H; rewrite H in Hpos; discriminate).
  apply Qreals.Qlt_Rlt in Hpos. rewrite RMicromega.Q2R_0 in Hpos.
  rewrite (Rabs_right (Q2R estimated)) by lra. reflexivity.
Qed.

(** For an estimated total of zero the division gives an infinity, or NaN
    when the actual total is zero as well. *)
Lemma accuracyOf_zero (actual estimated : Q) :
  (estimated == 0)%Q ->
  accuracyOf actual estimated
  = if Qeq_bool actual 0 then NaN else NegInfinity.
Proof.
  intros Hz.
  assert (HE : Q2R estimated = 0%R)
    by (rewrite (Qreals.Qeq_eqR _ _ Hz); apply RMicromega.Q2R_0).
  unfold accuracyOf, number. rewrite Qreals.Q2R_minus, HE.
  cbn [js_div]. destruct (Req_dec_T 0 0) as [_|H0]; [|contradiction].
  replace (Q2R actual - 0)%R with (Q2R actual) by ring.
  destruct (Qeq_bool actual 0) eqn:Hactual.
  - apply Qeq_bool_iff in Hactual.
    rewrite (Qreals.Qeq_eqR _ _ Hactual), RMicromega.Q2R_0, Rsign_zero. reflexivity.
  - assert (Hne : Q2R actual <> 0%R).
    { apply Q2R_nonzero. intros H. apply Qeq_bool_iff in H. congruence. }
    destruct (Rtotal_order (Q2R actual) 0) as [Hlt|[Heq|Hgt]]; [|contradiction|].
    + rewrite (Rsign_neg _ Hlt). cbn. rewrite (Rsign_pos 100) by lra. reflexivity.
    + rewrite (Rsign_pos _ Hgt). cbn. rewrite (Rsign_pos 100) by lra. reflexivity.
Qed.

(** The two formulas for an estimated total other than zero, and for an
    estimated total of zero. *)
Lemma specifiedAccuracy_nonzero (actual estimated : Q) :
  ~ (estimated == 0)%Q ->
  specifiedAccuracy actual estimated
  = Finite (Rmin 100 (100 - Rabs (Q2R actual - Q2R estimated) / Q2R estimated * 100)).
Proof.
  intros Hnz. apply Q2R_nonzero in Hnz.
  unfold specifiedAccuracy, number. cbn [Math_abs].
  rewrite (js_div_finite _ _ Hnz).
  cbn [js_mul js_sub js_opp js_add Math_min]. rewrite Qreals.Q2R_minus. reflexivity.
Qed.

Lemma amendedAccuracy_nonzero (actual estimated : Q) :
  ~ (estimated == 0)%Q ->
  amendedAccuracy actual estimated
  = Finite (Rmin 100 (100 - Rabs (Q2R actual - Q2R estimated) / Rabs (Q2R estimated) * 100)).
Proof.
  intros Hnz. apply Q2R_nonzero in Hnz.
  unfold amendedAccuracy, number. cbn [Math_abs].
  rewrite js_div_finite by (apply Rabs_no_R0; exact Hnz).
  cbn [js_mul js_sub js_opp js_add Math_min]. rewrite Qreals.Q2R_minus. reflexivity.
Qed.

Lemma accuracy_of_zero_divisor (x : R) :
  Math_min (Finite 100) (Finite 100 - Finite (Rabs x) / Finite 0 * Finite 100)%js
  = if Req_dec_T x 0 then NaN else NegInfinity.
Proof.
  cbn [js_div]. destruct (Req_dec_T 0 0) as [_|H0]; [|contradiction].
  destruct (Req_dec_T x 0) as [->|Hx].
  - rewrite Rabs_R0, Rsign_zero. reflexivity.
  - rewrite (Rsign_pos (Rabs x)) by (apply Rabs_pos_lt; exact Hx).
    cbn. rewrite (Rsign_pos 100) by lra. reflexivity.
Qed.

Lemma Q2R_zero_test (actual : Q) :
  (if Req_dec_T (Q2R actual) 0 then NaN else NegInfinity)
  = if Qeq_bool actual 0 then NaN else NegInfinity.
Proof.
  destruct (Qeq_bool actual 0) eqn:Hactual.
  - apply Qeq_bool_iff in Hactual.
    rewrite (Qreals.Qeq_eqR _ _ Hactual), RMicromega.Q2R_0.
    destruct (Req_dec_T 0 0); [reflexivity | contradiction].
  - destruct (Req_dec_T (Q2R actual) 0) as [Hz|_]; [|reflexivity].
    exfalso. revert Hz. apply Q2R_nonzero. intros H. apply Qeq_bool_iff in H. congruence.
Qed.

Lemma specifiedAccuracy_zero (actual estimated : Q) :
  (estimated == 0)%Q ->
  specifiedAccuracy actual estimated = if Qeq_bool actual 0 then NaN else NegInfinity.
Proof.
  intros Hz.
  assert (HE : Q2R estimated = 0%R)
    by (rewrite (Qreals.Qeq_eqR _ _ Hz); apply RMicromega.Q2R_0).
  unfold specifiedAccuracy, number. cbn [Math_abs]. rewrite Qreals.Q2R_minus, HE.
  replace (Q2R actual - 0)%R with (Q2R actual) by ring.
  rewrite accuracy_of_zero_divisor. apply Q2R_zero_test.
Qed.

Lemma amendedAccuracy_zero (actual estimated : Q) :
  (estimated == 0)%Q ->
  amendedAccuracy actual estimated = if Qeq_bool actual 0 then NaN else NegInfinity.
Proof.
  intros Hz.
  assert (HE : Q2R estimated = 0%R)
    by (rewrite (Qreals.Qeq_eqR _ _ Hz); apply RMicromega.Q2R_0).
  unfold amendedAccuracy, number. cbn [Math_abs]. rewrite Qreals.Q2R_minus, HE, Rabs_R0.
  replace (Q2R actual - 0)%R with (Q2R actual) by ring.
  rewrite accuracy_of_zero_divisor. apply Q2R_zero_test.
Qed.

(** The source computes the amended formula, and the formula of the
    specification unless the estimated total is negative. *)
Lemma accuracyOf_amended (actual estimated : Q) :
  accuracyOf actual estimated = amendedAccuracy actual estimated.
Proof.
  destruct (Qeq_dec estimated 0) as [Hz|Hnz].
  - rewrite (accuracyOf_zero _ _ Hz), (amendedAccuracy_zero _ _ Hz). reflexivity.
  - rewrite (accuracyOf_nonzero _ _ Hnz), (amendedAccuracy_nonzero _ _ Hnz). reflexivity.
Qed.

Lemma accuracyOf_specified (actual estimated : Q) :
  (0 <= estimated)%Q ->
  accuracyOf actual estimated = specifiedAccuracy actual estimated.
Proof.
  intros Hnonneg. destruct (Qeq_dec estimated 0) as [Hz|Hnz].
  - rewrite (accuracyOf_zero _ _ Hz), (specifiedAccuracy_zero _ _ Hz). reflexivity.
  - assert (Hpos : (0 < estimated)%Q).
    { apply Qle_lteq in Hnonneg. destruct Hnonneg as [Hlt|Heq]; [exact Hlt|].
      exfalso. apply Hnz. symmetry. exact Heq. }
    rewrite (accuracyOf_positive _ _ Hpos), (specifiedAccuracy_nonzero _ _ Hnz).
    reflexivity.
Qed.

Lemma accuracyOf_le_100 (actual estimated : Q) (a : R) :
  accuracyOf actual estimated = Finite a -> (a <= 100)%R.
Proof.
  destruct (Qeq_dec estimated 0) as [Hz|Hnz].
  - rewrite (accuracyOf_zero _ _ Hz). destruct (Qeq_bool actual 0); discriminate.
  - rewrite (accuracyOf_nonzero _ _ Hnz). intros [= <-]. apply Rmin_l.
Qed.

(** The value of [estimationAccuracy] when the weighted total is not zero. *)
Lemma estimationAccuracy_value (c : Clock) (user : User)
    (filterType : option TaskType) (dateRange : option DateRange.t) :
  let acc := accumulate c user filterType dateRange in
  strictEqualsZero (Acc.weightedTotalSum acc) = false ->
  estimationAccuracy (metrics (calculateRTP c user filterType dateRange))
  = if Nat.ltb 0 (Acc.tasksWithAccurateEstimates acc)
    then Some (accuracyOf (Acc.totalActualTime acc) (Acc.totalEstimatedTime acc))
    else None.
Proof. intros acc Hnz. unfold calculateRTP. fold acc. rewrite Hnz. reflexivity. Qed.

Lemma urgencyFactor_timedTask (est act : Q) :
  urgencyFactor exampleClock (timedTask est act) = 1%R.
Proof.
  unfold urgencyFactor.
  assert (Hr : timeRemaining exampleClock (timedTask est act) = Some 0)
    by (vm_compute; reflexivity).
  assert (Hd : totalTaskDuration (timedTask est act) = Some msPerDay)
    by (vm_compute; reflexivity).
  rewrite Hr, Hd. reflexivity.
Qed.

Lemma weight_timedTask (est act : Q) (user : User) :
  preferences user = None ->
  calculateDynamicWeight exampleClock (timedTask est act) user = Finite 5.
Proof.
  intros Hnone.
  rewrite (weight_default exampleClock (timedTask est act) user 5 Hnone eq_refl),
          urgencyFactor_timedTask.
  change (complexityFactor (timedTask est act)) with 1%R. f_equal. lra.
Qed.

(** The accumulators for a user with one task that has both times. *)
Lemma accumulate_timedTask (est act : Q) :
  truthyQ est = true -> truthyQ act = true ->
  let acc := accumulate exampleClock (userOf [timedTask est act]) None None in
  Acc.weightedTotalSum acc = Finite 5
  /\ Acc.totalEstimatedTime acc = (0 + est)%Q
  /\ Acc.totalActualTime acc = (0 + act)%Q
  /\ Acc.tasksWithAccurateEstimates acc = 1%nat.
Proof.
  intros Hest Hact acc.
  assert (Hacc : acc = processTask exampleClock (userOf [timedTask est act]) None
                         initialAcc (timedTask est act)) by reflexivity.
  rewrite Hacc. unfold processTask, trackEstimates. cbn [skippedByType].
  change (Task.estimatedMinutes (timedTask est act)) with (Some est).
  change (Task.actualMinutes (timedTask est act)) with (Some act).
  cbv beta iota. rewrite Hest, Hact.
  change (nonEmpty (Task.subTasks (timedTask est act))) with false. cbv beta iota.
  cbn [Acc.weightedTotalSum Acc.totalEstimatedTime Acc.totalActualTime
       Acc.tasksWithAccurateEstimates initialAcc].
  rewrite (weight_timedTask est act (userOf [timedTask est act]) eq_refl).
  repeat split. cbn [js_add]. f_equal. lra.
Qed.

(** An estimate of one minute and [3 + |bound|] actual minutes give an
    accuracy below [bound]. *)
Lemma overrun_accuracy_below (bound : Q) :
  strictEqualsZero
    (Acc.weightedTotalSum (accumulate exampleClock (overrunUser bound) None None)) = false
  /\ exists a,
       estimationAccuracy (metrics (calculateRTP exampleClock (overrunUser bound) None None))
       = Some (Finite a)
       /\ (a < Q2R bound)%R.
Proof.
  assert (Htruthy : truthyQ (3 + Qabs bound) = true).
  { apply truthyQ_true. pose proof (Qabs_nonneg bound). intros Heq. lqa. }
  destruct (accumulate_timedTask 1 (3 + Qabs bound) eq_refl Htruthy)
    as (Htotal & HE & HA & Hn).
  fold (overrunUser bound) in Htotal, HE, HA, Hn.
  assert (Hnz : strictEqualsZero
                  (Acc.weightedTotalSum (accumulate exampleClock (overrunUser bound) None None))
                = false)
    by (rewrite Htotal; apply strictEqualsZero_finite; lra).
  split; [exact Hnz|].
  rewrite (estimationAccuracy_value _ _ _ _ Hnz), Hn, HE, HA. cbn [Nat.ltb Nat.leb].
  rewrite accuracyOf_positive by reflexivity.
  eexists. split; [reflexivity|].
  eapply Rle_lt_trans; [apply Rmin_r|].
  rewrite !Qreals.Q2R_plus, RMicromega.Q2R_0.
  replace (Q2R 1) with 1%R by (unfold Q2R; cbn; lra).
  replace (Q2R 3) with 3%R by (unfold Q2R; cbn; lra).
  pose proof (Qreals.Qle_Rle _ _ (Qabs_nonneg bound)) as Hb0.
  rewrite RMicromega.Q2R_0 in Hb0.
  pose proof (Qreals.Qle_Rle _ _ (Qle_Qabs (- bound))) as Hb.
  rewrite Qabs_opp, Qreals.Q2R_opp in Hb.
  set (x := Q2R (Qabs bound)) in *.
  rewrite Rabs_right by lra.
  lra.
Qed.

(** C6 (as amended): when the weighted total is not zero,
    [estimationAccuracy] is null exactly when no processed task has both its
    estimated and its actual minutes recorded.  Otherwise it is
    [min(100, 100 - |actualTotal - estimatedTotal| / |estimatedTotal| * 100)]
    over the accumulated totals, which is the formula of the specification
    unless the estimated total is negative.  Whenever it is a number it is
    at most 100, and it has no lower bound: below every bound there is an
    input whose accuracy is smaller. *)
Theorem estimationAccuracy_null_or_capped_at_100 (c : Clock) (user : User)
    (filterType : option TaskType) (dateRange : option DateRange.t) :
  let acc := accumulate c user filterType dateRange in
  let accuracy := estimationAccuracy (metrics (calculateRTP c user filterType dateRange)) in
  let actualTotal := Acc.totalActualTime acc in
  let estimatedTotal := Acc.totalEstimatedTime acc in
  strictEqualsZero (Acc.weightedTotalSum acc) = false ->
  (accuracy = None <->
   forall task, In task (processedTasks user filterType dateRange) ->
                hasBothTimes task = false)
  /\ (accuracy <> None ->
      accuracy = Some (amendedAccuracy actualTotal estimatedTotal)
      /\ (~ (estimatedTotal == 0)%Q ->
          accuracy
          = Some (Finite (Rmin 100 (100 - Rabs (Q2R actualTotal - Q2R estimatedTotal)
                                          / Rabs (Q2R estimatedTotal) * 100))))
      /\ ((0 <= estimatedTotal)%Q ->
          accuracy = Some (specifiedAccuracy actualTotal estimatedTotal)))
  /\ (forall a, accuracy = Some (Finite a) -> (a <= 100)%R)
  /\ (forall bound : Q,
        exists c' user',
          strictEqualsZero (Acc.weightedTotalSum (accumulate c' user' None None)) = false
          /\ exists a,
               estimationAccuracy (metrics (calculateRTP c' user' None None))
               = Some (Finite a)
               /\ (a < Q2R bound)%R).
Proof.
  intros acc accuracy actualTotal estimatedTotal Hnonzero.
  pose proof (estimationAccuracy_value c user filterType dateRange Hnonzero) as Haccuracy.
  fold acc in Haccuracy. fold accuracy in Haccuracy.
  fold actualTotal in Haccuracy. fold estimatedTotal in Haccuracy.
  pose proof (accumulate_accurate_count c user filterType dateRange) as Hcount.
  fold acc in Hcount.
  split; [|split; [|split]].
  - rewrite Haccuracy, <- filter_length_none, <- Hcount.
    destruct (Acc.tasksWithAccurateEstimates acc) as [|n]; cbn [Nat.ltb Nat.leb];
      split; intros H; try reflexivity; discriminate.
  - intros Hsome. rewrite Haccuracy in *.
    destruct (Nat.ltb 0 (Acc.tasksWithAccurateEstimates acc)); [|contradiction].
    split; [|split].
    + rewrite accuracyOf_amended. reflexivity.
    + intros Hnz. rewrite (accuracyOf_nonzero _ _ Hnz). reflexivity.
    + intros Hnonneg. rewrite (accuracyOf_specified _ _ Hnonneg). reflexivity.
  - intros a Ha. rewrite Haccuracy in Ha.
    destruct (Nat.ltb 0 (Acc.tasksWithAccurateEstimates acc)); [|discriminate].
    injection Ha as Ha. exact (accuracyOf_le_100 _ _ _ Ha).
  - intros bound. exists exampleClock, (overrunUser bound).
    exact (overrun_accuracy_below bound).
Qed.

Lemma estimationAccuracy_null_or_capped_at_100_witness :
  exists a,
    estimationAccuracy (metrics (calculateRTP exampleClock (overrunUser 0) None None))
    = Some (Finite a)
    /\ (a <= 100)%R.
Proof.
  destruct (overrun_accuracy_below 0) as [Hnonzero [a [Ha _]]].
  exists a. split; [exact Ha|].
  apply (estimationAccuracy_null_or_capped_at_100
           exampleClock (overrunUser 0) None None Hnonzero).
  exact Ha.
Defined.

(** C6 (counterexample): one task recorded with an estimate of minus ten
    minutes that took five minutes.  The weighted total is 5, the task has
    both times, and the accuracy is [100 - |15 / -10| * 100 = -50], where
    the formula of the specification,
    [min(100, 100 - |5 - (-10)| / (-10) * 100)], gives 100. *)
Lemma negative_estimate_accuracy_is_not_the_specified_formula :
  let acc := accumulate exampleClock negativeEstimateUser None None in
  strictEqualsZero (Acc.weightedTotalSum acc) = false
  /\ In (timedTask (-10) 5) (processedTasks negativeEstimateUser None None)
  /\ hasBothTimes (timedTask (-10) 5) = true
  /\ (Acc.totalEstimatedTime acc == -10)%Q
  /\ (Acc.totalActualTime acc == 5)%Q
  /\ estimationAccuracy (metrics (calculateRTP exampleClock negativeEstimateUser None None))
     = Some (Finite (-50))
  /\ specifiedAccuracy (Acc.totalActualTime acc) (Acc.totalEstimatedTime acc) = Finite 100
  /\ estimationAccuracy (metrics (calculateRTP exampleClock negativeEstimateUser None None))
     <> Some (specifiedAccuracy (Acc.totalActualTime acc) (Acc.totalEstimatedTime acc)).
Proof.
  cbv zeta.
  destruct (accumulate_timedTask (-10) 5 eq_refl eq_refl) as (Htotal & HE & HA & Hn).
  fold negativeEstimateUser in Htotal, HE, HA, Hn.
  assert (Hnz : strictEqualsZero
                  (Acc.weightedTotalSum (accumulate exampleClock negativeEstimateUser None None))
                = false)
    by (rewrite Htotal; apply strictEqualsZero_finite; lra).
  assert (HQE : Q2R (0 + -10) = (-10)%R) by (unfold Q2R; cbn; lra).
  assert (HQA : Q2R (0 + 5) = 5%R) by (unfold Q2R; cbn; lra).
  assert (Hcode :
    estimationAccuracy (metrics (calculateRTP exampleClock negativeEstimateUser None None))
    = Some (Finite (-50))).
  { rewrite (estimationAccuracy_value _ _ _ _ Hnz), Hn, HE, HA. cbn [Nat.ltb Nat.leb].
    rewrite accuracyOf_nonzero by discriminate. rewrite HQE, HQA.
    do 2 f_equal.
    replace (5 - -10)%R with 15%R by lra.
    rewrite (Rabs_right 15) by lra.
    replace (Rabs (-10)) with 10%R by (rewrite Rabs_left; lra).
    rewrite Rmin_right by lra. lra. }
  assert (Hspec :
    specifiedAccuracy
      (Acc.totalActualTime (accumulate exampleClock negativeEstimateUser None None))
      (Acc.totalEstimatedTime (accumulate exampleClock negativeEstimateUser None None))
    = Finite 100).
  { rewrite HE, HA, specifiedAccuracy_nonzero by discriminate. rewrite HQE, HQA.
    f_equal.
    replace (5 - -10)%R with 15%R by lra.
    rewrite (Rabs_right 15) by lra.
    rewrite Rmin_left by lra. reflexivity. }
  split; [exact Hnz|]. split; [left; reflexivity|]. split; [reflexivity|].
  split; [rewrite HE; reflexivity|]. split; [rewrite HA; reflexivity|].
  split; [exact Hcode|]. split; [exact Hspec|].
  rewrite Hcode, Hspec. intros [= H]. lra.
Qed.

(** X26: for a positive estimated total the accuracy is the number
    [100 - |actual - estimated| / estimated * 100] (the cap at 100 never
    cuts anything off): it is 100 exactly when the two totals agree, the
    same for an overrun and an underrun of the same size, and negative
    exactly when the totals differ by more than the estimate. *)
Theorem accuracy_formula (actual estimated : Q) :
  (0 < estimated)%Q ->
  exists a,
    accuracyOf actual estimated = Finite a
    /\ a = (100 - Rabs (Q2R actual - Q2R estimated) / Q2R estimated * 100)%R
    /\ (a = 100%R <-> (actual == estimated)%Q)
    /\ ((a < 0)%R <-> (Q2R estimated < Rabs (Q2R actual - Q2R estimated))%R)
    /\ (forall d, accuracyOf (estimated + d) estimated
                  = accuracyOf (estimated - d) estimated).
Proof.
  intros Hpos.
  assert (HposR : (0 < Q2R estimated)%R).
  { apply Qreals.Qlt_Rlt in Hpos. rewrite RMicromega.Q2R_0 in Hpos. exact Hpos. }
  assert (Hclosed : forall x,
    accuracyOf x estimated
    = Finite (100 - Rabs (Q2R x - Q2R estimated) / Q2R estimated * 100)).
  { intros x. rewrite (accuracyOf_positive x estimated Hpos).
    f_equal. apply Rmin_right.
    assert (0 <= Rabs (Q2R x - Q2R estimated) / Q2R estimated)%R.
    { unfold Rdiv. apply Rmult_le_pos; [apply Rabs_pos|].
      left. apply Rinv_0_lt_compat. exact HposR. }
    lra. }
  assert (Hscale : forall t : R, (t / Q2R estimated * Q2R estimated = t)%R).
  { intros t. field. lra. }
  eexists. split; [apply Hclosed|]. split; [reflexivity|].
  set (t := Rabs (Q2R actual - Q2R estimated)).
  pose proof (Rabs_pos (Q2R actual - Q2R estimated)) as Hnonneg. fold t in Hnonneg.
  pose proof (Hscale t) as Ht.
  split; [|split].
  - split; intros H.
    + assert (Hzero : (t / Q2R estimated)%R = 0%R) by lra.
      rewrite Hzero, Rmult_0_l in Ht.
      apply Qreals.eqR_Qeq.
      assert (Hd : (Q2R actual - Q2R estimated)%R = 0%R).
      { destruct (Req_dec (Q2R actual - Q2R estimated) 0) as [Hd|Hd]; [exact Hd|].
        apply Rabs_pos_lt in Hd. fold t in Hd. lra. }
      lra.
    + apply Qreals.Qeq_eqR in H. unfold t. rewrite H.
      replace (Q2R estimated - Q2R estimated)%R with 0%R by ring.
      rewrite Rabs_R0. unfold Rdiv. ring.
  - split; intros H.
    + assert (Hlt : (1 < t / Q2R estimated)%R) by lra.
      apply (Rmult_lt_compat_r (Q2R estimated)) in Hlt; [|exact HposR].
      rewrite Ht in Hlt. lra.
    + assert (Hlt : (1 < t / Q2R estimated)%R).
      { apply (Rmult_lt_reg_r (Q2R estimated)); [exact HposR|]. rewrite Ht. lra. }
      lra.
  - intros d. rewrite !Hclosed. f_equal.
    rewrite Qreals.Q2R_plus, Qreals.Q2R_minus.
    replace (Q2R estimated + Q2R d - Q2R estimated)%R with (Q2R d) by ring.
    replace (Q2R estimated - Q2R d - Q2R estimated)%R with (- Q2R d)%R by ring.
    rewrite Rabs_Ropp. reflexivity.
Qed.

Lemma accuracy_formula_witness :
  exists a, accuracyOf 90 60 = Finite a /\ a = 50%R.
Proof.
  destruct (accuracy_formula 90 60) as (a & Ha & Hvalue & _); [reflexivity|].
  exists a. split; [exact Ha|]. rewrite Hvalue.
  replace (Q2R 90) with 90%R by (unfold Q2R; cbn; lra).
  replace (Q2R 60) with 60%R by (unfold Q2R; cbn; lra).
  replace (90 - 60)%R with 30%R by lra.
  rewrite Rabs_right by lra. lra.
Defined.

(** ** Tasks that have started

    The two failing inputs above both rest on a task that has not started.
    Once a task has started (and ends no earlier than it starts), its base
    weight is a number and the preference ratios are non-negative with a
    positive sum, its weight is a real number that is not negative and
    grows with the priority. *)

Lemma Rdiv_nonneg (a b : R) : (0 <= a -> 0 < b -> 0 <= a / b)%R.
Proof.
  intros Ha Hb. unfold Rdiv. apply Rmult_le_pos; [exact Ha|].
  left. apply Rinv_0_lt_compat. exact Hb.
Qed.

Lemma Rdiv_le_one (a b : R) : (a <= b -> 0 < b -> a / b <= 1)%R.
Proof.
  intros Hab Hb. replace 1%R with (b / b)%R by (field; lra).
  unfold Rdiv. apply Rmult_le_compat_r; [|exact Hab].
  left. apply Rinv_0_lt_compat. exact Hb.
Qed.

Lemma durationFactor_ge_1 (total : Z) : (1 <= durationFactor total)%R.
Proof. unfold durationFactor. apply Rmax_l. Qed.

Lemma overdueDenominator_pos (d : Z) : 0 <= d -> 0 < overdueDenominator (Some d).
Proof.
  intros Hd. cbn [overdueDenominator].
  destruct (d =? 0) eqn:Hz; [apply msPerDay_pos|].
  apply Z.eqb_neq in Hz. lia.
Qed.

Lemma urgencyFactor_ge_1 (c : Clock) (task : Task.t) :
  scheduleStarted c task -> (1 <= urgencyFactor c task)%R.
Proof.
  unfold scheduleStarted, urgencyFactor, timeRemaining, totalTaskDuration.
  destruct (new_Date (Task.endDateTime task)) as [e|];
    destruct (new_Date (Task.startDateTime task)) as [s|];
    cbn [date_minus]; intros Hstarted; try lra.
  - destruct Hstarted as [Hnow Hend].
    destruct (e - now c <? 0) eqn:Hover.
    + apply Rmin_glb; [lra|].
      pose proof (overdueDenominator_pos (e - s) ltac:(lia)) as Hden.
      apply IZR_lt in Hden.
      assert (Hnum : (0 <= IZR (Z.abs (e - now c)))%R) by (apply IZR_le; lia).
      pose proof (Rdiv_nonneg _ _ Hnum Hden). lra.
    + destruct ((0 <? e - now c) && (0 <? e - s)) eqn:Hdue; [|lra].
      apply andb_true_iff in Hdue. destruct Hdue as [Hr Hd].
      apply Z.ltb_lt in Hr, Hd.
      assert (Hratio : (IZR (e - now c) / IZR (e - s) <= 1)%R).
      { apply Rdiv_le_one; [apply IZR_le; lia | apply IZR_lt; lia]. }
      pose proof (durationFactor_ge_1 (e - s)) as Hdf.
      nra.
  - destruct (e - now c <? 0); [|lra].
    apply Rmin_glb; [lra|].
    assert (Hnum : (0 <= IZR (Z.abs (e - now c)))%R) by (apply IZR_le; lia).
    pose proof (Rdiv_nonneg _ _ Hnum (IZR_lt _ _ msPerDay_pos)). cbn [overdueDenominator]. lra.
Qed.

Lemma complexityFactor_ge_1 (task : Task.t) : (1 <= complexityFactor task)%R.
Proof.
  unfold complexityFactor.
  assert (Hs : (0 <= IZR (Z.min 10 (lengthZ (Task.subTasks task))))%R)
    by (apply IZR_le; unfold lengthZ; lia).
  assert (Hc : (0 <= IZR (Z.min 5 (lengthZ (Task.collaborators task))))%R)
    by (apply IZR_le; unfold lengthZ; lia).
  destruct (nonEmpty (Task.subTasks task)), (nonEmpty (Task.collaborators task)); lra.
Qed.

Lemma preferencesNonNegative_sum (user : User) :
  preferencesNonNegative user -> ~ (preferenceSum user == 0)%Q.
Proof.
  unfold preferencesNonNegative, preferenceSum. cbv zeta.
  intros (_ & _ & _ & Hsum) Heq. lqa.
Qed.

Lemma weightFactor_nonneg (c : Clock) (task : Task.t) (user : User) :
  preferencesNonNegative user -> scheduleStarted c task ->
  (0 <= weightFactor c task user)%R.
Proof.
  intros (Hd & Hp & Hc & Hsum) Hstarted. unfold weightFactor. cbv zeta.
  apply Qreals.Qle_Rle in Hd, Hp, Hc. apply Qreals.Qlt_Rlt in Hsum.
  rewrite !Qreals.Q2R_plus in Hsum. rewrite RMicromega.Q2R_0 in *.
  pose proof (urgencyFactor_ge_1 c task Hstarted) as Hu.
  pose proof (complexityFactor_ge_1 task) as Hcf.
  apply Rdiv_nonneg; [nra | lra].
Qed.

Lemma productiveBoost_pos (c : Clock) (user : User) : (0 < productiveBoost c user)%R.
Proof. unfold productiveBoost. destruct (_ && _); lra. Qed.

Lemma workloadAdjustment_monotone (c : Clock) (user : User) (x y : R) :
  (0 <= x <= y)%R -> (0 <= workloadAdjustment c user x <= workloadAdjustment c user y)%R.
Proof.
  intros [Hx Hxy]. unfold workloadAdjustment.
  destruct (overloadAdjusts c user); [|split; assumption].
  destruct (Rlt_dec 0 x) as [Hpos|Hzero].
  - destruct (Rlt_dec 0 y) as [_|Hy]; [|lra].
    split; [left; unfold Rpower; apply exp_pos | apply Rle_Rpower_l; lra].
  - destruct (Rlt_dec 0 y); [|lra].
    split; [lra | left; unfold Rpower; apply exp_pos].
Qed.

Lemma workloadAdjustment_grows (c : Clock) (user : User) (x : R) :
  (1 <= x)%R -> (x <= workloadAdjustment c user x)%R.
Proof.
  intros Hx. unfold workloadAdjustment.
  destruct (overloadAdjusts c user); [|lra].
  destruct (Rlt_dec 0 x) as [Hpos|Hn]; [|lra].
  rewrite <- (Rpower_1 x Hpos) at 1. apply Rle_Rpower; lra.
Qed.

(** A base weight that is a number is the one the specification names. *)
Lemma baseWeight_number (task : Task.t) (b : Z) :
  baseWeight task = NumberWeight b ->
  b = specifiedWeight (Task.priority task) (Task.type task) /\ 1 <= b <= 10.
Proof.
  unfold baseWeight. intros Hb.
  destruct (getPriorityWeight_cases (Task.priority task) (Task.type task))
    as [[_ Hn]|[_ Ho]]; [|congruence].
  rewrite Hn in Hb. injection Hb as <-. split; [reflexivity | apply specifiedWeight_range].
Qed.

Lemma baseWeight_of_number (task : Task.t) :
  Task.priority task <> None \/ isObjectPrototypeKey (Task.type task) = false ->
  baseWeight task = NumberWeight (specifiedWeight (Task.priority task) (Task.type task)).
Proof.
  intros Hnumber. unfold baseWeight. apply getPriorityWeight_number.
  unfold weightIsNumber. destruct (Task.priority task); [reflexivity|].
  destruct Hnumber as [H|H]; [congruence | rewrite H; reflexivity].
Qed.

(** The dynamic weight of a started task with a number as its base weight
    is the base weight times two factors, adjusted for the workload. *)
Lemma calculateDynamicWeight_started (c : Clock) (task : Task.t) (user : User) (b : Z) :
  baseWeight task = NumberWeight b ->
  preferencesNonNegative user -> scheduleStarted c task ->
  (0 <= IZR b * (weightFactor c task user * productiveBoost c user))%R
  /\ calculateDynamicWeight c task user
     = Finite (workloadAdjustment c user
                 (IZR b * (weightFactor c task user * productiveBoost c user))).
Proof.
  intros Hb Hprefs Hstarted.
  pose proof (weightFactor_nonneg c task user Hprefs Hstarted) as Hf.
  pose proof (productiveBoost_pos c user) as Hboost.
  destruct (baseWeight_number task b Hb) as [_ Hrange].
  assert (Hbase : (1 <= IZR b)%R) by (apply IZR_le; lia).
  assert (Hw : (0 <= IZR b * (weightFactor c task user * productiveBoost c user))%R).
  { apply Rmult_le_pos; [lra|]. apply Rmult_le_pos; lra. }
  split; [exact Hw|].
  apply calculateDynamicWeight_number;
    [exact Hb | apply preferencesNonNegative_sum; exact Hprefs | exact Hw].
Qed.

Lemma calculateDynamicWeight_nonneg (c : Clock) (task : Task.t) (user : User) :
  Task.priority task <> None \/ isObjectPrototypeKey (Task.type task) = false ->
  preferencesNonNegative user -> scheduleStarted c task ->
  exists w, calculateDynamicWeight c task user = Finite w /\ (0 <= w)%R.
Proof.
  intros Hnumber Hprefs Hstarted.
  destruct (calculateDynamicWeight_started c task user _
              (baseWeight_of_number task Hnumber) Hprefs Hstarted) as [Hw Heq].
  eexists. split; [exact Heq|].
  apply (workloadAdjustment_monotone c user _ _ (conj Hw (Rle_refl _))).
Qed.

(** X24: with non-negative preference ratios of positive sum, raising the
    explicit priority of a task that has started (and ends no earlier than
    it starts), all else unchanged, never lowers its dynamic weight: both
    weights are real numbers, and the second is at least the first. *)
Lemma calculateDynamicWeight_monotone_in_priority (c : Clock) (task : Task.t)
    (user : User) (p p' : PriorityScale) :
  preferencesNonNegative user -> scheduleStarted c task ->
  priorityValue p <= priorityValue p' ->
  exists w w',
    calculateDynamicWeight c (withPriority task p) user = Finite w
    /\ calculateDynamicWeight c (withPriority task p') user = Finite w'
    /\ (w <= w')%R.
Proof.
  intros Hprefs Hstarted Hle.
  destruct (calculateDynamicWeight_started c (withPriority task p) user (priorityValue p)
              eq_refl Hprefs Hstarted) as [Hw Heq].
  destruct (calculateDynamicWeight_started c (withPriority task p') user (priorityValue p')
              eq_refl Hprefs Hstarted) as [Hw' Heq'].
  change (weightFactor c (withPriority task p) user) with (weightFactor c task user) in *.
  change (weightFactor c (withPriority task p') user) with (weightFactor c task user) in *.
  do 2 eexists. split; [exact Heq|]. split; [exact Heq'|].
  pose proof (weightFactor_nonneg c task user Hprefs Hstarted) as Hf.
  pose proof (productiveBoost_pos c user) as Hb.
  apply IZR_le in Hle.
  assert (Hg : (0 <= weightFactor c task user * productiveBoost c user)%R)
    by (apply Rmult_le_pos; lra).
  apply workloadAdjustment_monotone. split; [exact Hw|].
  apply Rmult_le_compat_r; assumption.
Qed.

(** ** Bounds of the weight model *)

Lemma complexityFactor_between_1_and_2_5_aux (task : Task.t) :
  (1 <= complexityFactor task <= 5 / 2)%R.
Proof.
  unfold complexityFactor.
  assert (Hs : (0 <= IZR (Z.min 10 (lengthZ (Task.subTasks task))) <= 10)%R)
    by (split; apply IZR_le; unfold lengthZ; lia).
  assert (Hc : (0 <= IZR (Z.min 5 (lengthZ (Task.collaborators task))) <= 5)%R)
    by (split; apply IZR_le; unfold lengthZ; lia).
  destruct (nonEmpty (Task.subTasks task)), (nonEmpty (Task.collaborators task)); lra.
Qed.

(** X7: the complexity factor is between 1 and 2.5: subtasks add at most 1
    (ten or more of them), collaborators at most 0.5 (five or more). *)
Theorem complexityFactor_between_1_and_2_5 (task : Task.t) :
  (1 <= complexityFactor task <= 5 / 2)%R.
Proof. exact (complexityFactor_between_1_and_2_5_aux task). Qed.

Lemma ln_10_pos : (0 < ln 10)%R.
Proof. rewrite <- ln_1. apply ln_increasing; lra. Qed.

Lemma log10_le_1 (x : R) : (0 < x <= 10 -> log10 x <= 1)%R.
Proof.
  intros [Hpos Hle]. unfold log10.
  apply Rdiv_le_one; [|apply ln_10_pos].
  destruct Hle as [Hlt | ->]; [left; apply ln_increasing; assumption | right; reflexivity].
Qed.

Lemma durationFactor_short (d : Z) : 0 < d <= 10 * msPerDay -> durationFactor d = 1%R.
Proof.
  intros [Hpos Hle]. unfold durationFactor. apply Rmax_left.
  apply log10_le_1.
  pose proof (IZR_lt _ _ msPerDay_pos) as HD.
  apply IZR_lt in Hpos. apply IZR_le in Hle. rewrite mult_IZR in Hle.
  split.
  - unfold Rdiv. apply Rmult_lt_0_compat; [exact Hpos | apply Rinv_0_lt_compat; exact HD].
  - apply Rmult_le_reg_r with (IZR msPerDay); [exact HD|].
    unfold Rdiv. rewrite Rmult_assoc, Rinv_l; lra.
Qed.

Lemma urgencyFactor_le_3 (c : Clock) (task : Task.t) :
  scheduleStarted c task -> atMostTenDays task -> (urgencyFactor c task <= 3)%R.
Proof.
  unfold scheduleStarted, atMostTenDays, urgencyFactor, timeRemaining, totalTaskDuration.
  destruct (new_Date (Task.endDateTime task)) as [e|];
    destruct (new_Date (Task.startDateTime task)) as [s|];
    cbn [date_minus]; intros Hstarted Hshort; try lra.
  - destruct Hstarted as [Hnow Hend]. specialize (Hshort s e eq_refl eq_refl).
    destruct (e - now c <? 0) eqn:Hover; [apply Rmin_l|].
    destruct ((0 <? e - now c) && (0 <? e - s)) eqn:Hdue; [|lra].
    apply andb_true_iff in Hdue. destruct Hdue as [Hr Hd].
    apply Z.ltb_lt in Hr, Hd.
    rewrite (durationFactor_short (e - s)) by lia.
    assert (Hratio : (0 <= IZR (e - now c) / IZR (e - s))%R).
    { apply Rdiv_nonneg; [apply IZR_le; lia | apply IZR_lt; lia]. }
    lra.
  - destruct (e - now c <? 0); [apply Rmin_l | lra].
Qed.

Lemma urgencyFactor_inProgress (c : Clock) (task : Task.t) :
  inProgress c task -> atMostTenDays task -> (urgencyFactor c task < 3 / 2)%R.
Proof.
  intros (s & e & Hs & He & Hnow & Hahead) Hshort.
  specialize (Hshort s e Hs He).
  unfold urgencyFactor, timeRemaining, totalTaskDuration in *.
  rewrite Hs, He in *. cbn [date_minus] in *.
  assert (Hover : (e - now c <? 0) = false) by (apply Z.ltb_ge; lia).
  assert (Hr : (0 <? e - now c) = true) by (apply Z.ltb_lt; lia).
  assert (Hd : (0 <? e - s) = true) by (apply Z.ltb_lt; lia).
  rewrite Hover, Hr, Hd. cbn [andb].
  rewrite (durationFactor_short (e - s)) by lia.
  assert (Hratio : (0 < IZR (e - now c) / IZR (e - s))%R).
  { unfold Rdiv. apply Rmult_lt_0_compat;
      [apply IZR_lt; lia | apply Rinv_0_lt_compat, IZR_lt; lia]. }
  lra.
Qed.

(** X8: for a task that has started and lasts at most ten days the urgency
    factor is between 1 and 3; while the task is running (started, deadline
    ahead) it stays below 1.5. *)
Theorem urgencyFactor_between_1_and_3 (c : Clock) (task : Task.t) :
  scheduleStarted c task -> atMostTenDays task ->
  (1 <= urgencyFactor c task <= 3)%R
  /\ (inProgress c task -> (urgencyFactor c task < 3 / 2)%R).
Proof.
  intros Hstarted Hshort. split; [split|].
  - apply urgencyFactor_ge_1. exact Hstarted.
  - apply urgencyFactor_le_3; assumption.
  - intros Hrun. apply urgencyFactor_inProgress; assumption.
Qed.

Lemma finishedTask_started : scheduleStarted exampleClock finishedTask.
Proof. cbn. split; vm_compute; discriminate. Qed.

Lemma finishedTask_atMostTenDays : atMostTenDays finishedTask.
Proof.
  intros s e Hs He. vm_compute in Hs, He.
  injection Hs as <-. injection He as <-. vm_compute. discriminate.
Qed.

Lemma urgencyFactor_between_1_and_3_witness :
  (1 <= urgencyFactor exampleClock finishedTask <= 3)%R.
Proof.
  apply (urgencyFactor_between_1_and_3 exampleClock finishedTask).
  - apply finishedTask_started.
  - apply finishedTask_atMostTenDays.
Defined.

Lemma Rdiv_between (x s lo hi : R) :
  (0 < s -> lo * s <= x <= hi * s -> lo <= x / s <= hi)%R.
Proof.
  intros Hs [Hlo Hhi].
  unfold Rdiv. split; apply Rmult_le_reg_r with s; try exact Hs;
    rewrite Rmult_assoc, Rinv_l; lra.
Qed.

Lemma weightFactor_between_1_and_3 (c : Clock) (task : Task.t) (user : User) :
  preferencesNonNegative user -> scheduleStarted c task -> atMostTenDays task ->
  (1 <= weightFactor c task user <= 3)%R.
Proof.
  intros (Hd & Hp & Hc & Hsum) Hstarted Hshort. unfold weightFactor. cbv zeta.
  apply Qreals.Qle_Rle in Hd, Hp, Hc. apply Qreals.Qlt_Rlt in Hsum.
  rewrite !Qreals.Q2R_plus in Hsum. rewrite RMicromega.Q2R_0 in *.
  pose proof (urgencyFactor_ge_1 c task Hstarted) as Hu1.
  pose proof (urgencyFactor_le_3 c task Hstarted Hshort) as Hu3.
  pose proof (complexityFactor_between_1_and_2_5_aux task) as [Hcf Hcf2].
  apply Rdiv_between; [lra|]. split; nra.
Qed.

Lemma productiveBoost_range (c : Clock) (user : User) :
  (1 <= productiveBoost c user <= 11 / 10)%R.
Proof. unfold productiveBoost. destruct (_ && _); lra. Qed.

(** X9: with non-negative preference ratios of positive sum, a task that
    has started, lasts at most ten days and has a number as its base weight
    (an explicit priority, or a type that is no key of [Object.prototype])
    has a weight before the workload step between its base weight and 3.3
    times its base weight, and a dynamic weight of at least its base weight;
    the base weight is between 1 and 10. *)
Theorem dynamic_weight_at_least_base_weight (c : Clock) (task : Task.t) (user : User) :
  preferencesNonNegative user -> scheduleStarted c task -> atMostTenDays task ->
  Task.priority task <> None \/ isObjectPrototypeKey (Task.type task) = false ->
  exists (b : Z) (before weight : R),
    getPriorityWeight (Task.priority task) (Task.type task) = NumberWeight b
    /\ weightBeforeWorkload c task user = Finite before
    /\ calculateDynamicWeight c task user = Finite weight
    /\ 1 <= b <= 10
    /\ (IZR b <= before <= 33 / 10 * IZR b)%R
    /\ (IZR b <= weight)%R.
Proof.
  intros Hprefs Hstarted Hshort Hnumber.
  pose proof (baseWeight_of_number task Hnumber) as Hb.
  set (b := specifiedWeight (Task.priority task) (Task.type task)) in *.
  destruct (baseWeight_number task b Hb) as [_ Hrange].
  assert (Hb1 : (1 <= IZR b)%R) by (apply IZR_le; lia).
  pose proof (weightFactor_between_1_and_3 c task user Hprefs Hstarted Hshort) as Hf.
  pose proof (productiveBoost_range c user) as Hboost.
  destruct (calculateDynamicWeight_started c task user b Hb Hprefs Hstarted) as [Hw Heq].
  set (before := (IZR b * (weightFactor c task user * productiveBoost c user))%R) in *.
  assert (Hbefore : (IZR b <= before <= 33 / 10 * IZR b)%R).
  { unfold before.
    assert (Hg : (1 <= weightFactor c task user * productiveBoost c user <= 33 / 10)%R)
      by (split; nra).
    split; nra. }
  exists b, before, (workloadAdjustment c user before).
  split; [exact Hb|]. split.
  { apply weightBeforeWorkload_number;
      [exact Hb | apply preferencesNonNegative_sum; exact Hprefs]. }
  split; [exact Heq|]. split; [exact Hrange|]. split; [exact Hbefore|].
  apply Rle_trans with before; [apply Hbefore|].
  apply workloadAdjustment_grows. lra.
Qed.

Lemma default_preferencesNonNegative (tasks : list Task.t) :
  preferencesNonNegative (userOf tasks).
Proof. vm_compute. intuition discriminate. Qed.

Lemma dynamic_weight_at_least_base_weight_witness :
  exists weight,
    calculateDynamicWeight exampleClock finishedTask plannerUser = Finite weight
    /\ (10 <= weight)%R.
Proof.
  destruct (dynamic_weight_at_least_base_weight exampleClock finishedTask plannerUser)
    as (b & before & weight & Hb & _ & Hweight & _ & _ & Hle).
  - apply default_preferencesNonNegative.
  - apply finishedTask_started.
  - apply finishedTask_atMostTenDays.
  - left. discriminate.
  - exists weight. split; [exact Hweight|].
    injection Hb as <-. exact Hle.
Defined.

Lemma calculateDynamicWeight_monotone_in_priority_witness :
  exists w w',
    calculateDynamicWeight exampleClock (withPriority finishedTask P1) plannerUser = Finite w
    /\ calculateDynamicWeight exampleClock (withPriority finishedTask P2) plannerUser
       = Finite w'
    /\ (w <= w')%R.
Proof.
  apply (calculateDynamicWeight_monotone_in_priority
           exampleClock finishedTask plannerUser P1 P2).
  - apply default_preferencesNonNegative.
  - apply finishedTask_started.
  - vm_compute. discriminate.
Defined.

(** ** Preference ratios are relative *)

Lemma calculateWorkloadMetrics_scalePreferences (c : Clock) (k : Q) (user : User) :
  calculateWorkloadMetrics c (scalePreferences k user) = calculateWorkloadMetrics c user.
Proof.
  unfold calculateWorkloadMetrics, scalePreferences, userWorkloadCapacity.
  cbn [preferences tasks workloadCapacity].
  destruct (preferences user) as [p|]; reflexivity.
Qed.

Lemma preferenceSum_scalePreferences (k : Q) (user : User) :
  (preferenceSum (scalePreferences k user) == k * preferenceSum user)%Q.
Proof. unfold preferenceSum, scalePreferences, userWeightPreferences. cbn. ring. Qed.

Lemma weightFactor_scalePreferences (c : Clock) (task : Task.t) (user : User) (k : Q) :
  ~ (k == 0)%Q -> ~ (preferenceSum user == 0)%Q ->
  weightFactor c task (scalePreferences k user) = weightFactor c task user.
Proof.
  intros Hk Hsum. apply Q2R_nonzero in Hk, Hsum. rewrite <- preferenceSum_R in Hsum.
  unfold weightFactor.
  change (userWeightPreferences (scalePreferences k user))
    with {| deadline := (k * deadline (userWeightPreferences user))%Q;
            priority := (k * priority (userWeightPreferences user))%Q;
            complexity := (k * complexity (userWeightPreferences user))%Q |}.
  cbn [priority deadline complexity].
  rewrite !Qreals.Q2R_mult.
  field. split; [exact Hsum|].
  intros H. apply (Rmult_integral_contrapositive_currified _ _ Hk Hsum).
  rewrite <- H. ring.
Qed.

(** X10: only the proportions of the three preference ratios matter:
    multiplying all three by the same non-zero number leaves every dynamic
    weight unchanged (the ratios need not sum to 1, only to something other
    than zero). *)
Theorem dynamic_weight_invariant_under_scaling
    (c : Clock) (task : Task.t) (user : User) (k : Q) :
  ~ (k == 0)%Q ->
  (let prefs := userWeightPreferences user in
   ~ (priority prefs + deadline prefs + complexity prefs == 0)%Q) ->
  calculateDynamicWeight c task (scalePreferences k user)
  = calculateDynamicWeight c task user.
Proof.
  intros Hk Hsum. cbv zeta in Hsum. fold (preferenceSum user) in Hsum.
  assert (Hsum' : ~ (preferenceSum (scalePreferences k user) == 0)%Q).
  { rewrite preferenceSum_scalePreferences. intros H.
    apply Qmult_integral in H. tauto. }
  assert (Hpref : preferenceWeight c task (scalePreferences k user)
                  = preferenceWeight c task user).
  { destruct (baseWeight task) as [b|] eqn:Hb.
    - rewrite (preferenceWeight_number c task _ b Hb Hsum'),
              (preferenceWeight_number c task _ b Hb Hsum),
              (weightFactor_scalePreferences c task user k Hk Hsum).
      reflexivity.
    - rewrite !preferenceWeight_object by exact Hb. reflexivity. }
  unfold calculateDynamicWeight, overloadAdjusts, weightBeforeWorkload.
  rewrite calculateWorkloadMetrics_scalePreferences, Hpref.
  change (userWorkloadCapacity (scalePreferences k user)) with (userWorkloadCapacity user).
  change (userProductiveHours (scalePreferences k user)) with (userProductiveHours user).
  reflexivity.
Qed.

Lemma dynamic_weight_invariant_under_scaling_witness :
  calculateDynamicWeight exampleClock finishedTask (scalePreferences 10 plannerUser)
  = calculateDynamicWeight exampleClock finishedTask plannerUser.
Proof.
  apply (dynamic_weight_invariant_under_scaling exampleClock finishedTask plannerUser 10).
  - discriminate.
  - vm_compute. discriminate.
Defined.

(** * Further properties of the engine *)

(** ** The counters of the RTP calculator *)

Section Counters.

Variables (c : Clock) (user : User) (filterType : option TaskType).

Let step := processTask c user filterType.
Let kept := fun task => negb (skippedByType filterType task).

Lemma processTask_counters (acc : Acc.t) (task : Task.t) :
  Acc.totalTasks (step acc task) = S (Acc.totalTasks acc)
  /\ Acc.completedTasks (step acc task)
     = incrIf (kept task && countsAsCompleted task) (Acc.completedTasks acc)
  /\ Acc.blockedTasks (step acc task)
     = incrIf (kept task && isBlocked task) (Acc.blockedTasks acc).
Proof.
  unfold step, kept.
  destruct (skippedByType filterType task) eqn:Hskip; cbn [negb andb incrIf].
  - unfold processTask. rewrite Hskip. repeat split.
  - split; [|split].
    + unfold processTask. rewrite Hskip.
      destruct (trackEstimates task _ _ _) as [[est act] n].
      destruct (nonEmpty (Task.subTasks task)); reflexivity.
    + apply processTask_completedTasks. exact Hskip.
    + unfold processTask, isBlocked. rewrite Hskip.
      destruct (trackEstimates task _ _ _) as [[est act] n].
      destruct (nonEmpty (Task.subTasks task)); reflexivity.
Qed.

Lemma fold_counters (l : list Task.t) :
  forall acc,
  Acc.totalTasks (fold_left step l acc) = (Acc.totalTasks acc + List.length l)%nat
  /\ Acc.completedTasks (fold_left step l acc)
     = (Acc.completedTasks acc
        + List.length (filter countsAsCompleted (filter kept l)))%nat
  /\ Acc.blockedTasks (fold_left step l acc)
     = (Acc.blockedTasks acc + List.length (filter isBlocked (filter kept l)))%nat.
Proof.
  induction l as [|task rest IH]; intros acc; cbn [fold_left filter List.length].
  - repeat split; lia.
  - destruct (IH (step acc task)) as (Ht & Hc & Hb).
    destruct (processTask_counters acc task) as (Ht1 & Hc1 & Hb1).
    rewrite Ht, Hc, Hb, Ht1, Hc1, Hb1.
    destruct (kept task); cbn [andb filter incrIf].
    + destruct (countsAsCompleted task), (isBlocked task);
        cbn [incrIf List.length]; repeat split; lia.
    + repeat split; lia.
Qed.

End Counters.

(** X1: [totalTasks] counts every task inside the date range, whatever its
    tier; [completedTasks] and [blockedTasks] count only among the tasks
    that also pass the tier filter. *)
Theorem rtp_counters_count (c : Clock) (user : User)
    (filterType : option TaskType) (dateRange : option DateRange.t) :
  let acc := accumulate c user filterType dateRange in
  Acc.totalTasks acc = List.length (filteredTasks user dateRange)
  /\ Acc.completedTasks acc
     = List.length (filter countsAsCompleted (processedTasks user filterType dateRange))
  /\ Acc.blockedTasks acc
     = List.length (filter isBlocked (processedTasks user filterType dateRange)).
Proof.
  cbv zeta. unfold accumulate, processedTasks.
  destruct (fold_counters c user filterType (filteredTasks user dateRange) initialAcc)
    as (Ht & Hc & Hb).
  rewrite Ht, Hc, Hb. repeat split.
Qed.

Lemma percent_of_part (part whole : nat) :
  (part <= whole)%nat -> (0 < whole)%nat ->
  (0 <= natQ part / natQ whole * 100 <= 100)%Q.
Proof.
  intros Hle Hpos. unfold natQ.
  destruct (ratio_in_unit (Z.of_nat part) (Z.of_nat whole) ltac:(lia) ltac:(lia))
    as [Hlo Hhi].
  split; lqa.
Qed.

Lemma filter_filter_length_le {A : Type} (f g : A -> bool) (l : list A) :
  (List.length (filter f (filter g l)) <= List.length l)%nat.
Proof.
  pose proof (filter_length_le f (filter g l)). pose proof (filter_length_le g l). lia.
Qed.

(** X2: the completion rate and the share of blocked tasks that
    [calculateRTP] reports are always between 0 and 100. *)
Theorem rtp_rates_within_0_100 (c : Clock) (user : User)
    (filterType : option TaskType) (dateRange : option DateRange.t) :
  let m := metrics (calculateRTP c user filterType dateRange) in
  (0 <= completionRate m <= 100)%Q /\ (0 <= blockedTasksPercentage m <= 100)%Q.
Proof.
  cbv zeta. unfold calculateRTP.
  destruct (strictEqualsZero _); [cbn; split; split; discriminate|].
  cbn [metrics completionRate blockedTasksPercentage].
  unfold accumulate.
  destruct (fold_counters c user filterType (filteredTasks user dateRange) initialAcc)
    as (Ht & Hc & Hb).
  rewrite Ht, Hc, Hb. cbn [initialAcc Acc.totalTasks Acc.completedTasks Acc.blockedTasks plus].
  destruct (Nat.ltb 0 (List.length (filteredTasks user dateRange))) eqn:Hlt;
    [|split; split; discriminate].
  apply Nat.ltb_lt in Hlt.
  split; apply percent_of_part; try exact Hlt; apply filter_filter_length_le.
Qed.

(** ** The shape of a subtask contribution *)

Lemma sumOfWeights_filter_all (f : SubTask.t -> bool) (l : list SubTask.t) :
  sumOfWeights (filter f l) = sumOfWeights l <-> forallb f l = true.
Proof.
  induction l as [|s rest IH]; cbn [filter forallb]; [tauto|].
  pose proof (specifiedWeight_range (SubTask.priority s) (SubTask.type s)) as Hs.
  pose proof (sumOfWeights_filter_le f rest) as Hle.
  unfold sumOfWeights in *.
  destruct (f s); cbn [map fold_right andb].
  - rewrite <- IH. split; lia.
  - split; [lia | discriminate].
Qed.

Lemma sumOfWeights_filter_none (f : SubTask.t -> bool) (l : list SubTask.t) :
  sumOfWeights (filter f l) = 0 <-> forallb (fun s => negb (f s)) l = true.
Proof.
  induction l as [|s rest IH]; cbn [filter forallb]; [unfold sumOfWeights; cbn; tauto|].
  pose proof (specifiedWeight_range (SubTask.priority s) (SubTask.type s)) as Hs.
  pose proof (sumOfWeights_filter_le f rest) as Hle.
  unfold sumOfWeights in *.
  destruct (f s); cbn [map fold_right andb negb].
  - split; [lia | discriminate].
  - exact IH.
Qed.

Lemma ratio_eq_1 (a b : Z) : 0 < b -> (inject_Z a / inject_Z b == 1)%Q <-> a = b.
Proof.
  intros Hb. destruct b as [|p|p]; try lia.
  unfold Qeq, Qdiv, Qmult, Qinv, inject_Z. cbn [Qnum Qden]. split; intros H; nia.
Qed.

Lemma ratio_eq_0 (a b : Z) : 0 < b -> (inject_Z a / inject_Z b == 0)%Q <-> a = 0.
Proof.
  intros Hb. destruct b as [|p|p]; try lia.
  unfold Qeq, Qdiv, Qmult, Qinv, inject_Z. cbn [Qnum Qden]. split; intros H; nia.
Qed.

Lemma forallb_Forall {A : Type} (f : A -> bool) (l : list A) :
  forallb f l = true <-> Forall (fun x => f x = true) l.
Proof. rewrite forallb_forall, Forall_forall. tauto. Qed.

Lemma simpleRatio_eq_1 (s : SubTask.t) (rest : list SubTask.t) :
  (simpleRatio (s :: rest) == 1)%Q <-> forallb SubTask.completed (s :: rest) = true.
Proof.
  unfold simpleRatio. rewrite ratio_eq_1 by (cbn [List.length]; lia).
  rewrite forallb_Forall, <- filter_length_all. lia.
Qed.

Lemma simpleRatio_eq_0 (s : SubTask.t) (rest : list SubTask.t) :
  (simpleRatio (s :: rest) == 0)%Q
  <-> forallb (fun x => negb (SubTask.completed x)) (s :: rest) = true.
Proof.
  unfold simpleRatio. rewrite ratio_eq_0 by (cbn [List.length]; lia).
  rewrite forallb_forall.
  assert (Hlen : Z.of_nat (List.length (filter SubTask.completed (s :: rest))) = 0
                 <-> List.length (filter SubTask.completed (s :: rest)) = 0%nat) by lia.
  rewrite Hlen, filter_length_none.
  split; intros H x Hin; specialize (H x Hin);
    [rewrite H; reflexivity | apply negb_true_iff; exact H].
Qed.

Lemma contribution_shape (task : Task.t) :
  let contribution := calculateSubtaskContribution task in
  totalWeight contribution = 1%Q
  /\ (0 <= completedWeight contribution <= 1)%Q
  /\ ((completedWeight contribution == 1)%Q <-> fullyDone task = true)
  /\ ((completedWeight contribution == 0)%Q <-> nothingDone task = true).
Proof.
  cbv zeta. unfold fullyDone, nothingDone.
  destruct (Task.subTasks task) as [[|s rest]|] eqn:Hsubs; cbn [nonEmpty orEmpty].
  1,3: unfold calculateSubtaskContribution; rewrite Hsubs;
       cbn [orEmpty List.length Nat.eqb totalWeight completedWeight];
       destruct (Task.completed task); cbn [bool01 negb];
       repeat split; try discriminate; try reflexivity;
         intros H; try discriminate H; reflexivity.
  destruct (forallb subtaskWeightIsNumber (s :: rest)) eqn:Hall.
  - rewrite (contribution_of_subtasks task s rest Hsubs Hall).
    cbn [totalWeight completedWeight].
    destruct (sumOfWeights_bounds s rest) as [Hratio Hpos].
    split; [reflexivity|]. split; [apply ratio_in_unit; assumption|].
    rewrite (ratio_eq_1 _ _ Hpos), (ratio_eq_0 _ _ Hpos).
    unfold sumOfCompletedWeights.
    split; [apply sumOfWeights_filter_all | apply sumOfWeights_filter_none].
  - rewrite (contribution_of_object_weight task s rest Hsubs Hall).
    cbn [totalWeight completedWeight].
    split; [reflexivity|]. split; [apply simpleRatio_unit|].
    split; [apply simpleRatio_eq_1 | apply simpleRatio_eq_0].
Qed.

(** X11: whatever the task, its contribution has total weight 1 and a
    completed weight between 0 and 1; the completed weight is 1 exactly when
    the task is fully done and 0 exactly when nothing of it is done. *)
Theorem subtask_contribution_shape (task : Task.t) :
  let contribution := calculateSubtaskContribution task in
  totalWeight contribution = 1%Q
  /\ (0 <= completedWeight contribution <= 1)%Q
  /\ ((completedWeight contribution == 1)%Q <-> fullyDone task = true)
  /\ ((completedWeight contribution == 0)%Q <-> nothingDone task = true).
Proof. exact (contribution_shape task). Qed.

(** ** The weighted sums *)

Lemma Q2R_one : Q2R 1 = 1%R.
Proof. unfold Q2R. cbn [Qnum Qden]. field. Qed.

Lemma completionShare_unit (task : Task.t) : (0 <= completionShare task <= 1)%R.
Proof.
  unfold completionShare.
  destruct (nonEmpty (Task.subTasks task)).
  - destruct (contribution_shape task) as (_ & [Hlo Hhi] & _).
    apply Qreals.Qle_Rle in Hlo, Hhi.
    rewrite RMicromega.Q2R_0 in Hlo. rewrite Q2R_one in Hhi. split; assumption.
  - destruct (Task.completed task); lra.
Qed.

Lemma completionShare_fullyDone (task : Task.t) :
  fullyDone task = true -> completionShare task = 1%R.
Proof.
  intros Hdone. unfold completionShare.
  destruct (nonEmpty (Task.subTasks task)) eqn:Hne.
  - destruct (contribution_shape task) as (_ & _ & Hone & _).
    rewrite <- Q2R_one. apply Qreals.Qeq_eqR, Hone. exact Hdone.
  - unfold fullyDone in Hdone. rewrite Hne in Hdone. rewrite Hdone. reflexivity.
Qed.

Lemma completionShare_nothingDone (task : Task.t) :
  nothingDone task = true -> completionShare task = 0%R.
Proof.
  intros Hnone. unfold completionShare.
  destruct (nonEmpty (Task.subTasks task)) eqn:Hne.
  - destruct (contribution_shape task) as (_ & _ & _ & Hzero).
    rewrite <- RMicromega.Q2R_0. apply Qreals.Qeq_eqR, Hzero. exact Hnone.
  - unfold nothingDone in Hnone. rewrite Hne in Hnone.
    apply negb_true_iff in Hnone. rewrite Hnone. reflexivity.
Qed.

(** For a weight that is a real number the part that enters the completed
    sum is the weight times the completion share. *)
Lemma completedPart_finite (w : R) (task : Task.t) :
  completedPart (Finite w) task = Finite (w * completionShare task).
Proof.
  unfold completedPart, completionShare.
  destruct (nonEmpty (Task.subTasks task)); [reflexivity|].
  destruct (Task.completed task); f_equal; ring.
Qed.

(** For a task that is fully done it is the whole weight, whatever the
    weight is. *)
Lemma completedPart_fullyDone (w : JsNumber) (task : Task.t) :
  fullyDone task = true -> completedPart w task = w.
Proof.
  intros Hdone. pose proof (completionShare_fullyDone task Hdone) as Hshare.
  unfold completedPart, completionShare, fullyDone in *.
  destruct (nonEmpty (Task.subTasks task)).
  - unfold number. rewrite Hshare. apply js_mul_1_r.
  - rewrite Hdone. reflexivity.
Qed.

(** Every task that passes the tier filter adds its dynamic weight to the
    weighted total (the parent counts once whatever its subtasks are) and
    its completed part to the completed sum. *)
Lemma processTask_weighted (c : Clock) (user : User)
    (filterType : option TaskType) (acc : Acc.t) (task : Task.t) :
  skippedByType filterType task = false ->
  Acc.weightedTotalSum (processTask c user filterType acc task)
  = (Acc.weightedTotalSum acc + calculateDynamicWeight c task user)%js
  /\ Acc.weightedCompletedSum (processTask c user filterType acc task)
     = (Acc.weightedCompletedSum acc
        + completedPart (calculateDynamicWeight c task user) task)%js.
Proof.
  intros Hkeep. unfold processTask, completedPart. rewrite Hkeep.
  destruct (trackEstimates task _ _ _) as [[est act] n].
  destruct (nonEmpty (Task.subTasks task)) eqn:Hne;
    cbn [Acc.weightedTotalSum Acc.weightedCompletedSum]; [|split; reflexivity].
  destruct (contribution_completedSubtasks task Hne) as [_ ->].
  unfold number at 1. rewrite Q2R_one, js_mul_1_r. split; reflexivity.
Qed.

Lemma processTask_skipped (c : Clock) (user : User) (filterType : option TaskType)
    (acc : Acc.t) (task : Task.t) :
  skippedByType filterType task = true ->
  Acc.weightedCompletedSum (processTask c user filterType acc task)
  = Acc.weightedCompletedSum acc
  /\ Acc.weightedTotalSum (processTask c user filterType acc task)
     = Acc.weightedTotalSum acc.
Proof. intros Hskip. unfold processTask. rewrite Hskip. split; reflexivity. Qed.

Lemma fold_weighted (c : Clock) (user : User) (filterType : option TaskType)
    (l : list Task.t) :
  forall acc,
  Acc.weightedTotalSum (fold_left (processTask c user filterType) l acc)
  = (Acc.weightedTotalSum acc
     + sumOfDynamicWeights c user
         (filter (fun task => negb (skippedByType filterType task)) l))%js
  /\ Acc.weightedCompletedSum (fold_left (processTask c user filterType) l acc)
     = (Acc.weightedCompletedSum acc
        + sumJs (map (fun task => completedPart (calculateDynamicWeight c task user) task)
                     (filter (fun task => negb (skippedByType filterType task)) l)))%js.
Proof.
  unfold sumOfDynamicWeights.
  induction l as [|task rest IH]; intros acc; cbn [fold_left filter].
  - cbn [map sumJs fold_right]. rewrite !js_add_0_r. split; reflexivity.
  - destruct (IH (processTask c user filterType acc task)) as [Ht Hc].
    rewrite Ht, Hc.
    destruct (skippedByType filterType task) eqn:Hskip; cbn [negb map sumJs fold_right].
    + destruct (processTask_skipped c user filterType acc task Hskip) as [-> ->].
      split; reflexivity.
    + destruct (processTask_weighted c user filterType acc task Hskip) as [-> ->].
      rewrite <- !js_add_assoc. split; reflexivity.
Qed.

Lemma weightedTotalSum_is_sum_of_weights_aux (c : Clock) (user : User)
    (filterType : option TaskType) (dateRange : option DateRange.t) :
  Acc.weightedTotalSum (accumulate c user filterType dateRange)
  = sumOfDynamicWeights c user (processedTasks user filterType dateRange).
Proof.
  unfold accumulate, processedTasks.
  destruct (fold_weighted c user filterType (filteredTasks user dateRange) initialAcc)
    as [Ht _].
  rewrite Ht. cbn [initialAcc Acc.weightedTotalSum]. apply js_add_0_l.
Qed.

Lemma weightedCompletedSum_is_sum_of_parts (c : Clock) (user : User)
    (filterType : option TaskType) (dateRange : option DateRange.t) :
  Acc.weightedCompletedSum (accumulate c user filterType dateRange)
  = sumJs (map (fun task => completedPart (calculateDynamicWeight c task user) task)
               (processedTasks user filterType dateRange)).
Proof.
  unfold accumulate, processedTasks.
  destruct (fold_weighted c user filterType (filteredTasks user dateRange) initialAcc)
    as [_ Hc].
  rewrite Hc. cbn [initialAcc Acc.weightedCompletedSum]. apply js_add_0_l.
Qed.

(** X3: the weighted total is the sum of the dynamic weights of the
    processed tasks: a task enters with its dynamic weight once, however
    many subtasks it has. *)
Theorem weightedTotalSum_is_sum_of_weights (c : Clock) (user : User)
    (filterType : option TaskType) (dateRange : option DateRange.t) :
  Acc.weightedTotalSum (accumulate c user filterType dateRange)
  = sumOfDynamicWeights c user (processedTasks user filterType dateRange).
Proof. apply weightedTotalSum_is_sum_of_weights_aux. Qed.

(** X4: when no task is processed (no task at all, none inside the date
    range, or none of the filtered tier) the result is the all-zero record:
    the estimation accuracy is 0 rather than null, and the completion rate
    is 0 even if tasks were counted. *)
Theorem nothing_processed_gives_zero_result (c : Clock) (user : User)
    (filterType : option TaskType) (dateRange : option DateRange.t) :
  processedTasks user filterType dateRange = [] ->
  calculateRTP c user filterType dateRange = zeroRTP.
Proof.
  intros Hnone. unfold calculateRTP.
  rewrite weightedTotalSum_is_sum_of_weights_aux, Hnone.
  cbn [sumOfDynamicWeights map sumJs fold_right strictEqualsZero].
  destruct (Req_dec_T 0 0) as [_|Hnz]; [reflexivity | contradiction].
Qed.

Lemma nothing_processed_gives_zero_result_witness :
  calculateRTP exampleClock (userOf [blockedLowTask]) (Some HIGH) None = zeroRTP.
Proof.
  apply (nothing_processed_gives_zero_result
           exampleClock (userOf [blockedLowTask]) (Some HIGH) None).
  reflexivity.
Defined.

Lemma sumJs_map_ext {A : Type} (f g : A -> JsNumber) (l : list A) :
  (forall x, In x l -> f x = g x) -> sumJs (map f l) = sumJs (map g l).
Proof.
  induction l as [|x l IH]; intros Hext; cbn [map sumJs fold_right]; [reflexivity|].
  rewrite (Hext x (or_introl eq_refl)). f_equal.
  apply IH. intros y Hy. apply Hext. right. exact Hy.
Qed.

(** A sum is a real number only if its two terms are. *)
Lemma js_add_finite (a b : JsNumber) (s : R) :
  (a + b)%js = Finite s -> exists x y, a = Finite x /\ b = Finite y /\ s = (x + y)%R.
Proof.
  destruct a as [x| | |], b as [y| | |]; cbn; intros H; try discriminate.
  injection H as <-. exists x, y. repeat split.
Qed.

Lemma sumJs_finite {A : Type} (f : A -> JsNumber) (l : list A) :
  forall s, sumJs (map f l) = Finite s -> forall x, In x l -> exists w, f x = Finite w.
Proof.
  induction l as [|a l IH]; intros s Hs x Hin; [destruct Hin|].
  cbn [map sumJs fold_right] in Hs. fold (sumJs (map f l)) in Hs.
  apply js_add_finite in Hs. destruct Hs as (w & r & Hw & Hr & _).
  destruct Hin as [<-|Hin]; [exists w; exact Hw | exact (IH r Hr x Hin)].
Qed.

Lemma sumJs_map_zero {A : Type} (f : A -> JsNumber) (l : list A) :
  (forall x, In x l -> f x = Finite 0) -> sumJs (map f l) = Finite 0.
Proof.
  induction l as [|x l IH]; intros Hz; cbn [map sumJs fold_right]; [reflexivity|].
  rewrite (Hz x (or_introl eq_refl)).
  fold (sumJs (map f l)). rewrite IH; [cbn; f_equal; ring|].
  intros y Hy. apply Hz. right. exact Hy.
Qed.

Lemma percentage_value (c : Clock) (user : User)
    (filterType : option TaskType) (dateRange : option DateRange.t) :
  let acc := accumulate c user filterType dateRange in
  strictEqualsZero (Acc.weightedTotalSum acc) = false ->
  percentage (calculateRTP c user filterType dateRange)
  = (Acc.weightedCompletedSum acc / Acc.weightedTotalSum acc * Finite 100)%js.
Proof. intros acc Hnz. unfold calculateRTP. fold acc. rewrite Hnz. reflexivity. Qed.

Lemma percentage_zero_total (c : Clock) (user : User)
    (filterType : option TaskType) (dateRange : option DateRange.t) :
  Acc.weightedTotalSum (accumulate c user filterType dateRange) = Finite 0 ->
  percentage (calculateRTP c user filterType dateRange) = Finite 0.
Proof.
  intros Hz. unfold calculateRTP. rewrite Hz.
  cbn [strictEqualsZero]. destruct (Req_dec_T 0 0); [reflexivity | contradiction].
Qed.

Lemma strictEqualsZero_not_finite (a : JsNumber) :
  (forall s, a <> Finite s) -> strictEqualsZero a = false.
Proof. destruct a as [x| | |]; intros H; try reflexivity. exfalso. exact (H x eq_refl). Qed.

(** X5: if every processed task is fully done (completed when it has no
    subtasks, all subtasks completed when it has some, whatever the parent's
    own flag says), the weighted completed sum is the weighted total.  The
    percentage is then exactly 100 when the weighted total is a real number
    other than zero, whatever the weights are; it is 0 when the total is
    zero, and NaN when the total is no real number. *)
Theorem all_done_gives_100_percent (c : Clock) (user : User)
    (filterType : option TaskType) (dateRange : option DateRange.t) :
  (forall task, In task (processedTasks user filterType dateRange) ->
                fullyDone task = true) ->
  let acc := accumulate c user filterType dateRange in
  Acc.weightedCompletedSum acc = Acc.weightedTotalSum acc
  /\ (forall total, Acc.weightedTotalSum acc = Finite total -> total <> 0%R ->
        percentage (calculateRTP c user filterType dateRange) = Finite 100)
  /\ (Acc.weightedTotalSum acc = Finite 0 ->
        percentage (calculateRTP c user filterType dateRange) = Finite 0)
  /\ ((forall total, Acc.weightedTotalSum acc <> Finite total) ->
        percentage (calculateRTP c user filterType dateRange) = NaN).
Proof.
  intros Hdone acc.
  assert (Heq : Acc.weightedCompletedSum acc = Acc.weightedTotalSum acc).
  { unfold acc.
    rewrite weightedCompletedSum_is_sum_of_parts, weightedTotalSum_is_sum_of_weights_aux.
    unfold sumOfDynamicWeights. apply sumJs_map_ext.
    intros task Hin. apply completedPart_fullyDone. exact (Hdone task Hin). }
  split; [exact Heq|]. split; [|split].
  - intros total Htotal Hnz.
    rewrite percentage_value by (fold acc; rewrite Htotal; apply strictEqualsZero_finite, Hnz).
    fold acc. rewrite Heq, Htotal, (js_div_finite _ _ Hnz). cbn [js_mul].
    f_equal. field. exact Hnz.
  - apply percentage_zero_total.
  - intros Hnot.
    rewrite percentage_value by (apply strictEqualsZero_not_finite; exact Hnot).
    fold acc. rewrite Heq.
    destruct (Acc.weightedTotalSum acc) as [x| | |]; try reflexivity.
    exfalso. exact (Hnot x eq_refl).
Qed.

(** X6: if no piece of work of any processed task is done and the weighted
    total is a real number, the percentage is 0; if the weighted total is
    NaN, so is the percentage. *)
Theorem nothing_done_gives_0_percent (c : Clock) (user : User)
    (filterType : option TaskType) (dateRange : option DateRange.t) :
  (forall task, In task (processedTasks user filterType dateRange) ->
                nothingDone task = true) ->
  let acc := accumulate c user filterType dateRange in
  (forall total, Acc.weightedTotalSum acc = Finite total ->
     Acc.weightedCompletedSum acc = Finite 0
     /\ percentage (calculateRTP c user filterType dateRange) = Finite 0)
  /\ (Acc.weightedTotalSum acc = NaN ->
      percentage (calculateRTP c user filterType dateRange) = NaN).
Proof.
  intros Hnone acc. split.
  - intros total Htotal.
    assert (Hcompleted : Acc.weightedCompletedSum acc = Finite 0).
    { unfold acc. rewrite weightedCompletedSum_is_sum_of_parts.
      apply sumJs_map_zero. intros task Hin.
      unfold acc in Htotal. rewrite weightedTotalSum_is_sum_of_weights_aux in Htotal.
      destruct (sumJs_finite _ _ _ Htotal task Hin) as [w ->].
      rewrite completedPart_finite, (completionShare_nothingDone task (Hnone task Hin)).
      f_equal. ring. }
    split; [exact Hcompleted|].
    destruct (Req_dec_T total 0) as [->|Hnz]; [apply percentage_zero_total; exact Htotal|].
    rewrite percentage_value by (fold acc; rewrite Htotal; apply strictEqualsZero_finite, Hnz).
    fold acc. rewrite Hcompleted, Htotal, (js_div_finite _ _ Hnz). cbn [js_mul].
    f_equal. unfold Rdiv. ring.
  - intros Hnan.
    rewrite percentage_value by (fold acc; rewrite Hnan; reflexivity).
    fold acc. rewrite Hnan.
    destruct (Acc.weightedCompletedSum acc); reflexivity.
Qed.

Lemma weightedTotalSum_finished_only :
  Acc.weightedTotalSum (accumulate exampleClock (userOf [finishedTask]) None None)
  = Finite 14.
Proof.
  rewrite weightedTotalSum_is_sum_of_weights_aux.
  change (processedTasks (userOf [finishedTask]) None None) with [finishedTask].
  cbn [sumOfDynamicWeights map sumJs fold_right].
  rewrite (weight_finishedTask (userOf [finishedTask]) eq_refl).
  cbn [js_add]. f_equal. lra.
Qed.

Lemma all_done_gives_100_percent_witness :
  percentage (calculateRTP exampleClock (userOf [finishedTask]) None None) = Finite 100.
Proof.
  destruct (all_done_gives_100_percent exampleClock (userOf [finishedTask]) None None)
    as (_ & Hpercent & _).
  - intros task [<-|[]]. reflexivity.
  - apply (Hpercent 14%R); [apply weightedTotalSum_finished_only | lra].
Defined.

Lemma weightedTotalSum_planned_only :
  Acc.weightedTotalSum (accumulate exampleClock (userOf [nextWeekTask None]) None None)
  = Finite (-1).
Proof.
  rewrite weightedTotalSum_is_sum_of_weights_aux.
  change (processedTasks (userOf [nextWeekTask None]) None None) with [nextWeekTask None].
  cbn [sumOfDynamicWeights map sumJs fold_right].
  rewrite (weight_nextWeekTask None (userOf [nextWeekTask None]) eq_refl).
  change (specifiedWeight None "MID") with 5.
  cbn [js_add]. f_equal. lra.
Qed.

Lemma nothing_done_gives_0_percent_witness :
  percentage (calculateRTP exampleClock (userOf [nextWeekTask None]) None None) = Finite 0.
Proof.
  destruct (nothing_done_gives_0_percent exampleClock (userOf [nextWeekTask None]) None None)
    as (Hpercent & _).
  - intros task [<-|[]]. reflexivity.
  - apply (Hpercent (-1)%R). apply weightedTotalSum_planned_only.
Defined.

(** ** The percentage for tasks that have started *)

Lemma filteredTasks_In (user : User) (dateRange : option DateRange.t) (task : Task.t) :
  In task (filteredTasks user dateRange) -> In task (tasks user).
Proof.
  destruct dateRange as [range|]; cbn [filteredTasks]; [|tauto].
  intros Hin. apply filter_In in Hin. tauto.
Qed.

Lemma fold_weighted_sums (c : Clock) (user : User) (filterType : option TaskType)
    (l : list Task.t) :
  (forall task, In task l ->
     exists w, calculateDynamicWeight c task user = Finite w /\ (0 <= w)%R) ->
  forall acc done total,
  Acc.weightedCompletedSum acc = Finite done ->
  Acc.weightedTotalSum acc = Finite total ->
  (0 <= done <= total)%R ->
  exists done' total',
    Acc.weightedCompletedSum (fold_left (processTask c user filterType) l acc)
    = Finite done'
    /\ Acc.weightedTotalSum (fold_left (processTask c user filterType) l acc)
       = Finite total'
    /\ (0 <= done' <= total')%R.
Proof.
  induction l as [|task rest IH]; intros Hweights acc done total Hdone Htotal Hle;
    cbn [fold_left].
  - exists done, total. repeat split; tauto.
  - destruct (Hweights task (or_introl eq_refl)) as (w & Hw & Hpos).
    assert (Hrest : forall t, In t rest ->
              exists w, calculateDynamicWeight c t user = Finite w /\ (0 <= w)%R)
      by (intros t Ht; apply Hweights; right; exact Ht).
    destruct (skippedByType filterType task) eqn:Hskip.
    + destruct (processTask_skipped c user filterType acc task Hskip) as [Hc Ht].
      apply (IH Hrest _ done total); [rewrite Hc | rewrite Ht |]; assumption.
    + destruct (processTask_weighted c user filterType acc task Hskip) as [Ht Hc].
      rewrite Hw, completedPart_finite, Hdone in Hc. rewrite Hw, Htotal in Ht.
      cbn [js_add] in Hc, Ht.
      pose proof (completionShare_unit task) as Hshare.
      apply (IH Hrest _ _ _ Hc Ht). nra.
Qed.

(** X25: with non-negative preference ratios of positive sum, when every
    task of the user has started (and ends no earlier than it starts) and
    has a number as its base weight (an explicit priority, or a type that is
    no key of [Object.prototype]), and the weighted total is not zero, the
    percentage is a real number between 0 and 100. *)
Lemma percentage_within_0_100 (c : Clock) (user : User)
    (filterType : option TaskType) (dateRange : option DateRange.t) :
  preferencesNonNegative user ->
  Forall (scheduleStarted c) (tasks user) ->
  Forall (fun task => Task.priority task <> None
                      \/ isObjectPrototypeKey (Task.type task) = false) (tasks user) ->
  strictEqualsZero (Acc.weightedTotalSum (accumulate c user filterType dateRange)) = false ->
  exists p,
    percentage (calculateRTP c user filterType dateRange) = Finite p
    /\ (0 <= p <= 100)%R.
Proof.
  intros Hprefs Hstarted Hnumbers Hnonzero.
  rewrite Forall_forall in Hstarted, Hnumbers.
  destruct (fold_weighted_sums c user filterType (filteredTasks user dateRange))
    with (acc := initialAcc) (done := 0%R) (total := 0%R)
    as (done & total & Hdone & Htotal & Hle); try reflexivity; try lra.
  { intros task Hin. apply filteredTasks_In in Hin.
    apply calculateDynamicWeight_nonneg; [apply Hnumbers | exact Hprefs | apply Hstarted];
      exact Hin. }
  fold (accumulate c user filterType dateRange) in Hdone, Htotal.
  rewrite (percentage_value c user filterType dateRange Hnonzero), Hdone, Htotal.
  rewrite Htotal in Hnonzero.
  assert (Hnz : total <> 0%R).
  { intros ->. cbn in Hnonzero. destruct (Req_dec_T 0 0); [discriminate | contradiction]. }
  rewrite (js_div_finite _ _ Hnz). cbn [js_mul].
  eexists. split; [reflexivity|].
  assert (Hpos : (0 < total)%R) by lra.
  pose proof (Rdiv_nonneg done total (proj1 Hle) Hpos).
  pose proof (Rdiv_le_one done total (proj2 Hle) Hpos).
  lra.
Qed.

Lemma percentage_within_0_100_witness :
  exists p,
    percentage (calculateRTP exampleClock (userOf [finishedTask]) None None) = Finite p
    /\ (0 <= p <= 100)%R.
Proof.
  apply (percentage_within_0_100 exampleClock (userOf [finishedTask]) None None).
  - apply default_preferencesNonNegative.
  - constructor; [apply finishedTask_started | constructor].
  - constructor; [left; discriminate | constructor].
  - rewrite weightedTotalSum_finished_only. apply strictEqualsZero_finite. lra.
Defined.

(** ** The workload analyzer *)

Lemma filter_disjoint_length {A : Type} (f g h : A -> bool) (l : list A) :
  (forall x, f x = true -> h x = true) ->
  (forall x, g x = true -> h x = true) ->
  (forall x, f x = true -> g x = false) ->
  (List.length (filter f l) + List.length (filter g l) <= List.length (filter h l))%nat.
Proof.
  intros Hf Hg Hfg.
  induction l as [|x l IH]; cbn [filter List.length]; [lia|].
  specialize (Hf x). specialize (Hg x). specialize (Hfg x).
  destruct (f x), (g x), (h x); cbn [List.length];
    try lia; try (specialize (Hf eq_refl)); try (specialize (Hg eq_refl));
    try (specialize (Hfg eq_refl)); discriminate.
Qed.

Lemma filter_implies_length {A : Type} (f h : A -> bool) (l : list A) :
  (forall x, f x = true -> h x = true) ->
  (List.length (filter f l) <= List.length (filter h l))%nat.
Proof.
  intros Hf.
  induction l as [|x l IH]; cbn [filter List.length]; [lia|].
  specialize (Hf x).
  destruct (f x), (h x); cbn [List.length]; try lia;
    specialize (Hf eq_refl); discriminate.
Qed.

Lemma date_leb_ltb_exclusive (a b : Date) : date_leb a b = true -> date_ltb b a = false.
Proof.
  destruct a as [x|], b as [y|]; cbn; try discriminate.
  intros H. apply Z.leb_le in H. apply Z.ltb_ge. exact H.
Qed.

(** X12: the analyzer counts unfinished tasks only, and no task twice:
    the current load (due by the end of tomorrow) and the upcoming deadlines
    (due later, within three days) together never exceed the number of
    unfinished tasks, and neither does the number of blocked tasks. *)
Theorem workload_counts_unfinished_tasks_once (c : Clock) (user : User) :
  let m := calculateWorkloadMetrics c user in
  (currentLoad m + upcomingDeadlines m <= List.length (incompleteTasks user))%nat
  /\ (blockedTasks m <= List.length (incompleteTasks user))%nat.
Proof.
  cbv zeta. unfold calculateWorkloadMetrics, incompleteTasks.
  cbn [currentLoad upcomingDeadlines blockedTasks]. split.
  - apply filter_disjoint_length.
    + intros task H. apply andb_true_iff in H. tauto.
    + intros task H. apply andb_true_iff in H. tauto.
    + intros task H. apply andb_true_iff in H. destruct H as [Hdue _].
      rewrite (date_leb_ltb_exclusive _ _ Hdue), andb_false_r. reflexivity.
  - apply filter_implies_length.
    intros task H. apply andb_true_iff in H. tauto.
Qed.

(** X13: the daily capacity the analyzer reports is never zero (a missing
    or zero capacity becomes 5), the overload factor times the capacity is
    the current load, and for a positive capacity the factor exceeds 1
    exactly when the load exceeds the capacity. *)
Theorem overloadFactor_is_load_over_capacity (c : Clock) (user : User) :
  let m := calculateWorkloadMetrics c user in
  ~ (dailyCapacity m == 0)%Q
  /\ (truthyNumber (userWorkloadCapacity user) = false -> dailyCapacity m = 5%Q)
  /\ (overloadFactor m * dailyCapacity m == natQ (currentLoad m))%Q
  /\ ((0 < dailyCapacity m)%Q ->
      ((1 < overloadFactor m)%Q <-> (dailyCapacity m < natQ (currentLoad m))%Q)).
Proof.
  cbv zeta. unfold calculateWorkloadMetrics, userWorkloadCapacity.
  cbn [dailyCapacity overloadFactor currentLoad].
  set (load := natQ _).
  set (capacity := match preferences user with
                   | Some p => match workloadCapacity p with
                               | Some cap => if truthyQ cap then cap else 5%Q
                               | None => 5%Q
                               end
                   | None => 5%Q
                   end).
  assert (Hcap : ~ (capacity == 0)%Q).
  { unfold capacity.
    destruct (preferences user) as [p|]; [|discriminate].
    destruct (workloadCapacity p) as [cap|]; [|discriminate].
    destruct (truthyQ cap) eqn:Ht; [apply truthyQ_true; exact Ht | discriminate]. }
  split; [exact Hcap|]. split; [|split].
  - unfold capacity, truthyNumber.
    destruct (preferences user) as [p|]; [|reflexivity].
    destruct (workloadCapacity p) as [cap|]; [|reflexivity].
    intros ->. reflexivity.
  - field. exact Hcap.
  - intros Hpos. split; intros H.
    + apply (Qmult_lt_r _ _ capacity Hpos) in H.
      assert (Heq : (load / capacity * capacity == load)%Q) by (field; exact Hcap).
      rewrite Heq, Qmult_1_l in H. exact H.
    + apply Qlt_shift_div_l; [exact Hpos|]. rewrite Qmult_1_l. exact H.
Qed.

(** ** The range of the classifier *)

Lemma keywordHits_nonneg (text : string) (keywords : list string) :
  0 <= keywordHits text keywords.
Proof.
  unfold keywordHits.
  assert (H : forall n, n <= fold_left
                (fun n keyword => if includes text keyword then n + 1 else n) keywords n).
  { induction keywords as [|k rest IH]; intros n; cbn [fold_left]; [lia|].
    destruct (includes text k); [specialize (IH (n + 1)) | specialize (IH n)]; lia. }
  apply H.
Qed.

Lemma ruleDescription_grows (task : PartialTask.t) (s : Scores) :
  scoresNonNegative s ->
  scoresNonNegative (ruleDescription task s)
  /\ scoreTotal s + 1 <= scoreTotal (ruleDescription task s).
Proof. intros H. unfold ruleDescription. split_conditionals; score_arith. Qed.

Lemma ruleSubtasks_grows (task : PartialTask.t) (s : Scores) :
  scoresNonNegative s ->
  scoresNonNegative (ruleSubtasks task s)
  /\ scoreTotal s + 1 <= scoreTotal (ruleSubtasks task s).
Proof. intros H. unfold ruleSubtasks. split_conditionals; score_arith. Qed.

Lemma ruleDuration_grows (task : PartialTask.t) (s : Scores) :
  scoresNonNegative s ->
  scoresNonNegative (ruleDuration task s) /\ scoreTotal s <= scoreTotal (ruleDuration task s).
Proof. intros H. unfold ruleDuration. split_conditionals; score_arith. Qed.

Lemma ruleKeywords_grows (task : PartialTask.t) (s : Scores) :
  scoresNonNegative s ->
  scoresNonNegative (ruleKeywords task s) /\ scoreTotal s <= scoreTotal (ruleKeywords task s).
Proof.
  intros H. unfold ruleKeywords.
  pose proof (keywordHits_nonneg (classifierText task) lowPriorityKeywords).
  pose proof (keywordHits_nonneg (classifierText task) midPriorityKeywords).
  pose proof (keywordHits_nonneg (classifierText task) highPriorityKeywords).
  score_arith.
Qed.

Lemma ruleCollaborators_grows (task : PartialTask.t) (s : Scores) :
  scoresNonNegative s ->
  scoresNonNegative (ruleCollaborators task s)
  /\ scoreTotal s <= scoreTotal (ruleCollaborators task s).
Proof. intros H. unfold ruleCollaborators. split_conditionals; score_arith. Qed.

Lemma ruleBlocked_grows (task : PartialTask.t) (s : Scores) :
  scoresNonNegative s ->
  scoresNonNegative (ruleBlocked task s) /\ scoreTotal s <= scoreTotal (ruleBlocked task s).
Proof. intros H. unfold ruleBlocked. split_conditionals; score_arith. Qed.

Lemma ruleEstimate_grows (task : PartialTask.t) (s : Scores) :
  scoresNonNegative s ->
  scoresNonNegative (ruleEstimate task s) /\ scoreTotal s <= scoreTotal (ruleEstimate task s).
Proof. intros H. unfold ruleEstimate. split_conditionals; score_arith. Qed.

(** The scores are never negative, and the first two rules always award a
    point each. *)
Lemma classifierScores_sound (task : PartialTask.t) :
  scoresNonNegative (classifierScores task) /\ 2 <= scoreTotal (classifierScores task).
Proof.
  unfold classifierScores.
  set (s0 := {| scoreLOW := 0; scoreMID := 0; scoreHIGH := 0 |}).
  assert (H0 : scoresNonNegative s0) by (unfold s0; score_arith).
  assert (T0 : scoreTotal s0 = 0) by reflexivity.
  destruct (ruleDescription_grows task s0 H0) as [H1 T1].
  destruct (ruleSubtasks_grows task _ H1) as [H2 T2].
  destruct (ruleDuration_grows task _ H2) as [H3 T3].
  destruct (ruleKeywords_grows task _ H3) as [H4 T4].
  destruct (ruleCollaborators_grows task _ H4) as [H5 T5].
  destruct (ruleBlocked_grows task _ H5) as [H6 T6].
  destruct (ruleEstimate_grows task _ H6) as [H7 T7].
  split; [exact H7 | lia].
Qed.

Lemma Math_roundQ_ge (n t k : Z) :
  0 < t -> (2 * k - 1) * t <= 6 * n ->
  k <= Math_roundQ (inject_Z n / inject_Z t * 3).
Proof.
  intros Ht Hk. unfold Math_roundQ.
  rewrite <- (Qfloor_Z k). apply Qfloor_resp_le.
  destruct t as [|p|p]; try lia.
  unfold Qle, Qdiv, Qmult, Qplus, Qinv, inject_Z. cbn [Qnum Qden]. nia.
Qed.

Lemma Math_roundQ_le (n t k : Z) :
  0 < t -> 6 * n < (2 * k + 1) * t ->
  Math_roundQ (inject_Z n / inject_Z t * 3) <= k.
Proof.
  intros Ht Hk. unfold Math_roundQ.
  set (q := (inject_Z n / inject_Z t * 3 + (1 # 2))%Q).
  assert (Hq : (q < inject_Z (k + 1))%Q).
  { unfold q. destruct t as [|p|p]; try lia.
    unfold Qlt, Qdiv, Qmult, Qplus, Qinv, inject_Z. cbn [Qnum Qden]. nia. }
  pose proof (Qfloor_le q) as Hfloor.
  assert (Hlt : (inject_Z (Qfloor q) < inject_Z (k + 1))%Q)
    by (eapply Qle_lt_trans; eassumption).
  rewrite <- Zlt_Qlt in Hlt. lia.
Qed.

Lemma asPriorityScale_value (n : Z) :
  1 <= n <= 10 -> priorityValue (asPriorityScale n) = n.
Proof.
  intros Hn.
  assert (H : n = 1 \/ n = 2 \/ n = 3 \/ n = 4 \/ n = 5
              \/ n = 6 \/ n = 7 \/ n = 8 \/ n = 9 \/ n = 10) by lia.
  repeat (destruct H as [-> | H]; [reflexivity|]). subst n. reflexivity.
Qed.

Lemma classifyTask_ranges (task : PartialTask.t) :
  let result := classifyTask task in
  let p := priorityValue (Classification.priority result) in
  3 <= p <= 9
  /\ (Classification.type result = HIGH -> 6 <= p)
  /\ (Classification.type result = LOW -> p <= 6)
  /\ (Classification.type result = MID -> 5 <= p <= 8).
Proof.
  cbv zeta. unfold classifyTask.
  destruct (classifierScores_sound task) as [(Hl & Hm & Hh) Htotal].
  set (s := classifierScores task) in *. unfold scoreTotal in Htotal.
  set (t := scoreLOW s + scoreMID s + scoreHIGH s) in *.
  set (n := scoreHIGH s * 3 + scoreMID s * 2 + scoreLOW s).
  assert (Ht : (t =? 0) = false) by (apply Z.eqb_neq; lia).
  rewrite Ht. cbn [Classification.priority Classification.type].
  set (r := Math_roundQ (inject_Z n / inject_Z t * 3)).
  assert (Hlo : 3 <= r) by (apply Math_roundQ_ge; unfold n, t in *; lia).
  assert (Hhi : r <= 9) by (apply Math_roundQ_le; unfold n, t in *; lia).
  rewrite asPriorityScale_value by lia.
  replace (Z.max 1 (Z.min 10 r)) with r by lia.
  split; [lia|].
  destruct ((scoreMID s <? scoreHIGH s) && (scoreLOW s <? scoreHIGH s)) eqn:Hhigh.
  - apply andb_true_iff in Hhigh. destruct Hhigh as [H1 H2].
    apply Z.ltb_lt in H1, H2.
    assert (6 <= r) by (apply Math_roundQ_ge; unfold n, t in *; lia).
    repeat split; intros; try discriminate; lia.
  - apply andb_false_iff in Hhigh.
    destruct (scoreLOW s <? scoreMID s) eqn:Hmid.
    + apply Z.ltb_lt in Hmid.
      assert (Hle : scoreHIGH s <= scoreMID s).
      { destruct Hhigh as [H|H]; apply Z.ltb_ge in H; lia. }
      assert (5 <= r) by (apply Math_roundQ_ge; unfold n, t in *; lia).
      assert (r <= 8) by (apply Math_roundQ_le; unfold n, t in *; lia).
      repeat split; intros; try discriminate; lia.
    + apply Z.ltb_ge in Hmid.
      assert (Hle : scoreHIGH s <= scoreLOW s).
      { destruct Hhigh as [H|H]; apply Z.ltb_ge in H; lia. }
      assert (r <= 6) by (apply Math_roundQ_le; unfold n, t in *; lia).
      repeat split; intros; try discriminate; lia.
Qed.

(** X14: the classifier never returns a priority below 3 or above 9; the
    tier HIGH comes with a priority of at least 6, the tier LOW with one of
    at most 6, and the tier MID with one between 5 and 8. *)
Theorem classifyTask_priority_ranges (task : PartialTask.t) :
  let result := classifyTask task in
  let p := priorityValue (Classification.priority result) in
  3 <= p <= 9
  /\ (Classification.type result = HIGH -> 6 <= p)
  /\ (Classification.type result = LOW -> p <= 6)
  /\ (Classification.type result = MID -> 5 <= p <= 8).
Proof. exact (classifyTask_ranges task). Qed.

(** * Properties of the callers *)

(** ** The task form *)

Lemma tierOfString_name (t : TaskType) : tierOfString (TaskType_name t) = Some t.
Proof. destruct t; reflexivity. Qed.

Lemma handleSubmit_some (f : Form.t) (task : Task.t) :
  handleSubmit f = Some task ->
  truthyString (Form.taskName f) = true
  /\ truthyDateTime (Form.startDateTime f) = true
  /\ truthyDateTime (Form.endDateTime f) = true
  /\ task =
     Task.mk (Form.taskName f) (Form.taskDescription f)
             (Form.startDateTime f) (Form.endDateTime f)
             false
             (TaskType_name (Classification.type (formClassification f)))
             (Some (orPriority (Form.priority f)
                               (Classification.priority (formClassification f))))
             (match Form.subtasks f with
              | [] => None
              | _ :: _ =>
                  Some (map (submittedSubtask f (formClassification f)) (Form.subtasks f))
              end)
             (if truthyNumber (Form.estimatedMinutes f)
              then Form.estimatedMinutes f else None)
             None
             (nonEmptyList (Form.blockedByTasks f))
             (nonEmptyList (Form.selectedCollaborators f)).
Proof.
  unfold handleSubmit.
  destruct (truthyString (Form.taskName f));
    destruct (truthyDateTime (Form.startDateTime f));
    destruct (truthyDateTime (Form.endDateTime f)); cbn [negb orb];
    try discriminate.
  intros H. injection H as <-. repeat split.
Qed.




(** X16: a task submitted by the form always carries an explicit priority
    and a tier as its type, and so does each of its subtasks; its base
    weight is therefore its priority, never a tier default.  The priority is
    the one chosen in the form when there is one; otherwise it is the
    classifier's (between 3 and 9) in AUTO mode and 5 for a chosen tier. *)
Theorem submitted_task_has_explicit_priority (f : Form.t) (task : Task.t) :
  handleSubmit f = Some task ->
  exists p,
    Task.priority task = Some p
    /\ getPriorityWeight (Task.priority task) (Task.type task)
       = NumberWeight (priorityValue p)
    /\ tierOfString (Task.type task) <> None
    /\ (forall chosen, Form.priority f = Some chosen -> p = chosen)
    /\ (Form.taskType f = AUTO -> Form.priority f = None -> 3 <= priorityValue p <= 9)
    /\ (forall tier, Form.taskType f = FixedType tier ->
          Task.type task = TaskType_name tier
          /\ (Form.priority f = None -> p = P5))
    /\ Forall (fun s => SubTask.priority s <> None
                        /\ tierOfString (SubTask.type s) <> None)
              (orEmpty (Task.subTasks task)).
Proof.
  intros Hsome.
  destruct (handleSubmit_some f task Hsome) as (_ & _ & _ & ->).
  exists (orPriority (Form.priority f) (Classification.priority (formClassification f))).
  cbn [Task.priority Task.type Task.subTasks getPriorityWeight].
  split; [reflexivity|]. split; [reflexivity|].
  split; [rewrite tierOfString_name; discriminate|].
  split; [intros chosen ->; reflexivity|].
  split; [|split].
  - intros Hauto Hnone. rewrite Hnone. cbn [orPriority].
    unfold formClassification. rewrite Hauto. apply classifyTask_ranges.
  - intros tier Hfixed. unfold formClassification. rewrite Hfixed.
    cbn [Classification.type Classification.priority].
    split; [reflexivity | intros ->; reflexivity].
  - destruct (Form.subtasks f) as [|s rest]; [constructor|].
    cbn [orEmpty]. apply Forall_forall. intros sub Hin.
    apply in_map_iff in Hin. destruct Hin as (s' & <- & _).
    cbn [submittedSubtask SubTask.priority SubTask.type].
    split; [discriminate | rewrite tierOfString_name; discriminate].
Qed.

Lemma exampleForm_submits :
  exists task, handleSubmit exampleForm = Some task.
Proof. eexists. reflexivity. Qed.

Lemma submitted_task_has_explicit_priority_witness :
  exists task p,
    handleSubmit exampleForm = Some task
    /\ Task.priority task = Some p
    /\ getPriorityWeight (Task.priority task) (Task.type task)
       = NumberWeight (priorityValue p).
Proof.
  destruct exampleForm_submits as [task Htask].
  destruct (submitted_task_has_explicit_priority exampleForm task Htask)
    as (p & Hp & Hw & _).
  exists task, p. repeat split; assumption.
Defined.

(** ** Adding a task in the dashboard *)

Lemma accumulate_counters_app (c : Clock) (user user' : User)
    (filterType : option TaskType) (task : Task.t) :
  tasks user' = tasks user ++ [task] ->
  Acc.totalTasks (accumulate c user' filterType None)
  = S (Acc.totalTasks (accumulate c user filterType None))
  /\ Acc.completedTasks (accumulate c user' filterType None)
     = incrIf (negb (skippedByType filterType task) && countsAsCompleted task)
              (Acc.completedTasks (accumulate c user filterType None)).
Proof.
  intros Htasks. unfold accumulate. cbn [filteredTasks]. rewrite Htasks.
  destruct (fold_counters c user' filterType (tasks user ++ [task]) initialAcc)
    as (Ht' & Hc' & _).
  destruct (fold_counters c user filterType (tasks user) initialAcc) as (Ht & Hc & _).
  rewrite Ht', Hc', Ht, Hc, !filter_app, !length_app.
  cbn [filter List.length initialAcc Acc.totalTasks Acc.completedTasks].
  destruct (negb (skippedByType filterType task)); cbn [andb filter List.length incrIf];
    [destruct (countsAsCompleted task); cbn [incrIf List.length]|]; split; lia.
Qed.

(** X17: [handleAddTask] keeps the number of users, leaves the users with
    another name as they are and appends the task to those with the current
    user's name.  For the updated user [totalTasks] grows by one, and when
    the task comes from the form [completedTasks] stays as it was. *)
Theorem adding_a_submitted_task (c : Clock) (users : list User) (currentUser : User)
    (filterType : option TaskType) (f : Form.t) (task : Task.t) :
  handleSubmit f = Some task ->
  List.length (handleAddTask users currentUser task) = List.length users
  /\ (forall user, In user users -> name user <> name currentUser ->
        In user (handleAddTask users currentUser task))
  /\ (forall user, In user users -> name user = name currentUser ->
        In (addTask user task) (handleAddTask users currentUser task)
        /\ Acc.totalTasks (accumulate c (addTask user task) filterType None)
           = S (Acc.totalTasks (accumulate c user filterType None))
        /\ Acc.completedTasks (accumulate c (addTask user task) filterType None)
           = Acc.completedTasks (accumulate c user filterType None)).
Proof.
  intros Hsome.
  assert (Hfresh : countsAsCompleted task = false).
  { destruct (handleSubmit_some f task Hsome) as (_ & _ & _ & ->).
    unfold countsAsCompleted. cbn [Task.subTasks Task.completed].
    destruct (nonEmpty _); [apply andb_false_r | reflexivity]. }
  unfold handleAddTask. split; [apply length_map|]. split.
  - intros user Hin Hname. apply in_map_iff. exists user. split; [|exact Hin].
    apply String.eqb_neq in Hname. rewrite Hname. reflexivity.
  - intros user Hin Hname. split.
    + apply in_map_iff. exists user. split; [|exact Hin].
      apply String.eqb_eq in Hname. rewrite Hname. reflexivity.
    + destruct (accumulate_counters_app c user (addTask user task) filterType task eq_refl)
        as [Ht Hc].
      rewrite Ht, Hc, Hfresh, andb_false_r. split; reflexivity.
Qed.

Lemma adding_a_submitted_task_witness :
  exists task,
    handleSubmit exampleForm = Some task
    /\ List.length (handleAddTask [plannerUser] plannerUser task) = 1%nat.
Proof.
  destruct exampleForm_submits as [task Htask].
  exists task. split; [exact Htask|].
  apply (adding_a_submitted_task exampleClock [plannerUser] plannerUser None
           exampleForm task Htask).
Defined.

(** ** Toggling a selection in the form *)

Lemma existsb_eqb_In (item : string) (l : list string) :
  existsb (String.eqb item) l = true <-> In item l.
Proof.
  rewrite existsb_exists. split.
  - intros (x & Hin & Heq). apply String.eqb_eq in Heq. subst. exact Hin.
  - intros Hin. exists item. split; [exact Hin | apply String.eqb_refl].
Qed.

Lemma filter_other_absent (item : string) (l : list string) :
  ~ In item l -> filter (fun c => negb (String.eqb c item)) l = l.
Proof.
  induction l as [|x l IH]; cbn [filter]; intros Hnot; [reflexivity|].
  destruct (String.eqb_spec x item) as [->|Hne]; cbn [negb].
  - exfalso. apply Hnot. left. reflexivity.
  - f_equal. apply IH. intros Hin. apply Hnot. right. exact Hin.
Qed.

(** X18: toggling an item flips its membership and nothing else: the other
    items stay, a selection without duplicates stays without duplicates, and
    toggling an absent item twice gives the selection back. *)
Theorem toggle_flips_membership (selected : list string) (item : string) :
  (In item (toggle selected item) <-> ~ In item selected)
  /\ (forall other, other <> item ->
        (In other (toggle selected item) <-> In other selected))
  /\ (NoDup selected -> NoDup (toggle selected item))
  /\ (~ In item selected -> toggle (toggle selected item) item = selected).
Proof.
  unfold toggle at 1 2 3.
  destruct (existsb (String.eqb item) selected) eqn:Hmem.
  - apply existsb_eqb_In in Hmem.
    split; [|split; [|split]].
    + rewrite filter_In, negb_true_iff, String.eqb_neq. split; [tauto|].
      intros Hnot. contradiction.
    + intros other Hne. rewrite filter_In, negb_true_iff, String.eqb_neq. tauto.
    + apply NoDup_filter.
    + intros Hnot. contradiction.
  - assert (Hnot : ~ In item selected).
    { intros Hin. apply existsb_eqb_In in Hin. congruence. }
    split; [|split; [|split]].
    + rewrite in_app_iff. cbn. tauto.
    + intros other Hne. rewrite in_app_iff. cbn. split; [|tauto].
      intros [H|[H|[]]]; [exact H | congruence].
    + intros Hnodup. apply NoDup_app; [exact Hnodup | repeat constructor; intros [] |].
      intros x Hx [<-|[]]. contradiction.
    + intros _. unfold toggle. rewrite Hmem.
      assert (Hin : existsb (String.eqb item) (selected ++ [item]) = true).
      { apply existsb_eqb_In. rewrite in_app_iff. right. left. reflexivity. }
      rewrite Hin, filter_app, (filter_other_absent item selected Hnot).
      cbn [filter]. rewrite String.eqb_refl. cbn [negb]. apply app_nil_r.
Qed.

(** ** Pagination of the task list *)

Lemma firstn_add {A : Type} (a b : nat) :
  forall l : list A, firstn (a + b) l = firstn a l ++ firstn b (skipn a l).
Proof.
  induction a as [|a IH]; intros l; [reflexivity|].
  destruct l as [|x l]; cbn [Nat.add firstn skipn app].
  - rewrite firstn_nil. reflexivity.
  - rewrite IH. reflexivity.
Qed.

Lemma currentTasks_page {A : Type} (perPage page : nat) (l : list A) :
  currentTasks perPage page l = firstn perPage (skipn ((page - 1) * perPage) l).
Proof.
  unfold currentTasks, slice. cbv zeta.
  set (s := ((page - 1) * perPage)%nat).
  pose proof (length_skipn s l) as Hlen.
  destruct (Nat.le_gt_cases (s + perPage) (List.length l)) as [Hle|Hgt].
  - rewrite Nat.min_l by exact Hle. f_equal. lia.
  - rewrite Nat.min_r by lia.
    rewrite !firstn_all2; [reflexivity | lia | lia].
Qed.

Lemma pages_prefix {A : Type} (perPage : nat) (l : list A) (m : nat) :
  List.concat (map (fun page => currentTasks perPage page l) (seq 1 m))
  = firstn (m * perPage) l.
Proof.
  induction m as [|m IH]; [reflexivity|].
  rewrite seq_S, map_app, concat_app, IH. cbn [map List.concat Nat.add].
  rewrite app_nil_r, currentTasks_page.
  replace (S m - 1)%nat with m by lia.
  replace (S m * perPage)%nat with (m * perPage + perPage)%nat by lia.
  symmetry. apply firstn_add.
Qed.

Lemma tasksPerPage_pos (limit : option nat) : (0 < tasksPerPage limit)%nat.
Proof.
  unfold tasksPerPage. destruct limit as [n|]; [|lia].
  destruct (Nat.eqb_spec n 0); lia.
Qed.

Lemma totalPages_bounds (totalTasks perPage : nat) :
  (0 < perPage)%nat ->
  (totalTasks <= totalPages totalTasks perPage * perPage)%nat
  /\ (totalPages totalTasks perPage * perPage < totalTasks + perPage)%nat.
Proof.
  intros Hpos. unfold totalPages.
  pose proof (Nat.div_mod_eq (totalTasks + perPage - 1) perPage) as Hdiv.
  pose proof (Nat.mod_upper_bound (totalTasks + perPage - 1) perPage ltac:(lia)) as Hmod.
  split; nia.
Qed.

(** X19: the pages of the task list partition it: the page size is never
    zero (a missing or zero limit means 10), the pages 1 to [totalPages] put
    one after the other give the whole list, no page is longer than the page
    size, every page from 1 to [totalPages] shows a task and every later
    page is empty; [handlePageChange] never leaves the range of pages. *)
Theorem pagination_partitions_the_list {A : Type} (limit : option nat) (sortedTasks : list A) :
  let perPage := tasksPerPage limit in
  let pages := totalPages (List.length sortedTasks) perPage in
  (0 < perPage)%nat
  /\ List.concat (map (fun page => currentTasks perPage page sortedTasks) (seq 1 pages))
     = sortedTasks
  /\ (forall page, (1 <= page)%nat ->
        (List.length (currentTasks perPage page sortedTasks) <= perPage)%nat)
  /\ (forall page, (1 <= page <= pages)%nat ->
        currentTasks perPage page sortedTasks <> [])
  /\ (forall page, (pages < page)%nat -> currentTasks perPage page sortedTasks = [])
  /\ (forall currentPage page,
        (1 <= currentPage <= pages)%nat ->
        (1 <= handlePageChange pages currentPage page <= pages)%nat).
Proof.
  intros perPage pages.
  pose proof (tasksPerPage_pos limit) as Hpos. fold perPage in Hpos.
  destruct (totalPages_bounds (List.length sortedTasks) perPage Hpos) as [Hlo Hhi].
  fold pages in Hlo, Hhi.
  assert (Hlen : forall page,
             List.length (currentTasks perPage page sortedTasks)
             = Nat.min perPage (List.length sortedTasks - (page - 1) * perPage)).
  { intros page. rewrite currentTasks_page, length_firstn, length_skipn. reflexivity. }
  split; [exact Hpos|]. split; [|split; [|split; [|split]]].
  - rewrite pages_prefix. apply firstn_all2. exact Hlo.
  - intros page _. rewrite Hlen. lia.
  - intros page [H1 Hp] Hnil.
    apply (f_equal (@List.length A)) in Hnil. rewrite Hlen in Hnil. cbn in Hnil.
    assert ((page - 1) * perPage < List.length sortedTasks)%nat by nia.
    lia.
  - intros page Hp. apply length_zero_iff_nil. rewrite Hlen.
    assert (List.length sortedTasks <= (page - 1) * perPage)%nat by nia.
    lia.
  - intros currentPage page Hcur. unfold handlePageChange.
    destruct (Nat.leb 1 page && Nat.leb page pages) eqn:Hok; [|exact Hcur].
    apply andb_true_iff in Hok. destruct Hok as [H1 H2].
    apply Nat.leb_le in H1, H2. lia.
Qed.

(** ** The task breakdown *)

Lemma tierOfString_some (type : string) (tier : TaskType) :
  tierOfString type = Some tier <-> type = TaskType_name tier.
Proof.
  split.
  - unfold tierOfString.
    destruct (String.eqb_spec type "LOW") as [->|_]; [intros [= <-]; reflexivity|].
    destruct (String.eqb_spec type "MID") as [->|_]; [intros [= <-]; reflexivity|].
    destruct (String.eqb_spec type "HIGH") as [->|_]; [intros [= <-]; reflexivity|].
    discriminate.
  - intros ->. apply tierOfString_name.
Qed.

Lemma breakdownShare_unit (task : Task.t) : (0 <= breakdownShare task <= 1)%Q.
Proof.
  unfold breakdownShare.
  destruct (Task.subTasks task) as [[|s rest]|]; cbn [nonEmpty orEmpty].
  1,3: destruct (Task.completed task); split; discriminate.
  unfold natQ. apply ratio_in_unit.
  - pose proof (filter_length_le SubTask.completed (s :: rest)). lia.
  - cbn [List.length]. lia.
Qed.

Lemma natQ_S (n : nat) : (natQ (S n) == natQ n + 1)%Q.
Proof.
  unfold natQ. rewrite Nat2Z.inj_succ. unfold Z.succ. rewrite inject_Z_plus. reflexivity.
Qed.

Lemma countTasks_none (l : list Task.t) : countTasks l None = None.
Proof. induction l as [|task rest IH]; [reflexivity | exact IH]. Qed.

(** The type is a key of [taskCounts] or of its prototype. *)
Lemma countTask_some (counts : TaskCounts.t) (task : Task.t) :
  countTask counts task <> None
  <-> (tierOfString (Task.type task) <> None
       \/ isObjectPrototypeKey (Task.type task) = true).
Proof.
  unfold countTask.
  destruct (tierOfString (Task.type task)) as [tier|].
  - split; [intros _; left; discriminate | discriminate].
  - destruct (isObjectPrototypeKey (Task.type task)).
    + split; [intros _; right; reflexivity | discriminate].
    + split; [intros H; contradiction | intros [H|H]; [contradiction | discriminate]].
Qed.

Lemma hasTier_tierOfString (tier : TaskType) (task : Task.t) :
  hasTier tier task = true <-> tierOfString (Task.type task) = Some tier.
Proof. unfold hasTier. rewrite String.eqb_eq. symmetry. apply tierOfString_some. Qed.

Lemma hasTier_none (tier : TaskType) (task : Task.t) :
  tierOfString (Task.type task) = None -> hasTier tier task = false.
Proof.
  intros Hnone. destruct (hasTier tier task) eqn:H; [|reflexivity].
  apply hasTier_tierOfString in H. congruence.
Qed.

Lemma countTask_step (counts counts1 : TaskCounts.t) (task : Task.t) :
  countTask counts task = Some counts1 ->
  countsSound counts ->
  countsSound counts1
  /\ forall tier,
       total (tierCount counts1 tier)
       = (total (tierCount counts tier) + (if hasTier tier task then 1 else 0))%nat.
Proof.
  unfold countTask. intros Hstep Hsound.
  destruct (tierOfString (Task.type task)) as [tier0|] eqn:Htier.
  - injection Hstep as <-.
    apply tierOfString_some in Htier.
    pose proof (breakdownShare_unit task) as Hshare.
    split.
    + intros tier. specialize (Hsound tier).
      destruct tier, tier0; cbn [tierCount setTierCount TaskCounts.LOW TaskCounts.MID
                                   TaskCounts.HIGH total completed] in *;
        try exact Hsound; rewrite natQ_S; split; lqa.
    + intros tier. unfold hasTier. rewrite Htier.
      destruct tier, tier0; cbn [tierCount setTierCount TaskCounts.LOW TaskCounts.MID
                                   TaskCounts.HIGH total completed];
        cbn; lia.
  - destruct (isObjectPrototypeKey (Task.type task)); [|discriminate].
    injection Hstep as <-. split; [exact Hsound|].
    intros tier. rewrite (hasTier_none tier task Htier). lia.
Qed.

Lemma countTasks_inv (l : list Task.t) :
  forall counts,
  countsSound counts ->
  match countTasks l (Some counts) with
  | None =>
      exists task, In task l
                   /\ tierOfString (Task.type task) = None
                   /\ isObjectPrototypeKey (Task.type task) = false
  | Some counts' =>
      (forall task, In task l ->
         tierOfString (Task.type task) <> None
         \/ isObjectPrototypeKey (Task.type task) = true)
      /\ countsSound counts'
      /\ forall tier,
           total (tierCount counts' tier)
           = (total (tierCount counts tier) + List.length (filter (hasTier tier) l))%nat
  end.
Proof.
  induction l as [|task rest IH]; intros counts Hsound.
  - cbn. split; [intros task []|]. split; [exact Hsound|]. intros tier. lia.
  - cbn [countTasks fold_left].
    destruct (countTask counts task) as [counts1|] eqn:Hstep.
    + destruct (countTask_step counts counts1 task Hstep Hsound) as [Hsound1 Htotal1].
      assert (Hkey : countTask counts task <> None) by (rewrite Hstep; discriminate).
      apply countTask_some in Hkey.
      specialize (IH counts1 Hsound1). fold (countTasks rest (Some counts1)).
      destruct (countTasks rest (Some counts1)) as [counts'|].
      * destruct IH as (Hall & Hsound' & Htotal').
        split; [|split; [exact Hsound'|]].
        -- intros t [<-|Hin]; [exact Hkey | apply Hall; exact Hin].
        -- intros tier. rewrite Htotal', Htotal1. cbn [filter].
           destruct (hasTier tier task); cbn [List.length]; lia.
      * destruct IH as (t & Hin & Ht). exists t. split; [right; exact Hin | exact Ht].
    + fold (countTasks rest None). rewrite countTasks_none.
      exists task. split; [left; reflexivity|].
      unfold countTask in Hstep.
      destruct (tierOfString (Task.type task)); [discriminate|].
      destruct (isObjectPrototypeKey (Task.type task)); [discriminate|].
      split; reflexivity.
Qed.

Lemma zeroCounts_sound : countsSound zeroCounts.
Proof. intros tier. destruct tier; cbn; split; discriminate. Qed.

(** X20: the breakdown fails (with a TypeError) exactly when some task has
    a type that is none of LOW, MID and HIGH and no key of
    [Object.prototype] either; otherwise each tier's total is the number of
    tasks of that tier (a task whose type is a key of [Object.prototype] is
    counted in no tier), and its completed count, in which a task with
    subtasks enters with the fraction of its completed subtasks, lies
    between 0 and that total. *)
Theorem taskCounts_shape (user : User) :
  (taskCounts user = None <->
   exists task, In task (tasks user)
                /\ tierOfString (Task.type task) = None
                /\ isObjectPrototypeKey (Task.type task) = false)
  /\ forall counts,
       taskCounts user = Some counts ->
       forall tier,
         total (tierCount counts tier) = List.length (filter (hasTier tier) (tasks user))
         /\ (0 <= completed (tierCount counts tier)
               <= natQ (total (tierCount counts tier)))%Q.
Proof.
  unfold taskCounts.
  pose proof (countTasks_inv (tasks user) zeroCounts zeroCounts_sound) as Hinv.
  destruct (countTasks (tasks user) (Some zeroCounts)) as [counts'|].
  - destruct Hinv as (Hall & Hsound & Htotal). split.
    + split; [discriminate|]. intros (task & Hin & Hnone & Hkey).
      exfalso. destruct (Hall task Hin) as [H|H]; congruence.
    + intros counts [= <-] tier. split; [|apply Hsound].
      rewrite Htotal. destruct tier; reflexivity.
  - split; [split; [intros _; exact Hinv | reflexivity]|]. discriminate.
Qed.

(** ** The workload card *)

Lemma Math_roundQ_ge_int (q : Q) (k : Z) :
  (inject_Z k <= q)%Q -> k <= Math_roundQ q.
Proof.
  intros H. unfold Math_roundQ. rewrite <- (Qfloor_Z k). apply Qfloor_resp_le. lqa.
Qed.

(** X21: for a positive daily capacity the bar of the workload card shows
    a value between 0 and 100.  The over-capacity warning appears exactly
    when the load exceeds the capacity; the bar is then full and amber or
    red, and the percentage over capacity is not negative.  The
    spare-capacity hint comes with the blue bar, never with the warning. *)
Theorem workload_card_is_consistent (c : Clock) (user : User) :
  let m := calculateWorkloadMetrics c user in
  (0 < dailyCapacity m)%Q ->
  0 <= workloadPercentage m <= 100
  /\ (showsOverloadWarning m = true <-> (dailyCapacity m < natQ (currentLoad m))%Q)
  /\ (showsOverloadWarning m = true ->
        workloadPercentage m = 100
        /\ (getOverloadColor m = Amber \/ getOverloadColor m = Red)
        /\ 0 <= overCapacityPercent m
        /\ showsSpareCapacity m = false)
  /\ (showsSpareCapacity m = true -> getOverloadColor m = Blue).
Proof.
  intros m Hcap.
  assert (Hfactor : (overloadFactor m == natQ (currentLoad m) / dailyCapacity m)%Q)
    by reflexivity.
  assert (Hnonneg : (0 <= overloadFactor m)%Q).
  { rewrite Hfactor. apply Qle_shift_div_l; [exact Hcap|]. rewrite Qmult_0_l.
    unfold natQ. change 0%Q with (inject_Z 0). rewrite <- Zle_Qle. lia. }
  unfold workloadPercentage, showsOverloadWarning, getOverloadColor,
    overCapacityPercent, showsSpareCapacity.
  set (factor := overloadFactor m) in *.
  split; [|split; [|split]].
  - assert (0 <= Math_roundQ (factor * 100)).
    { apply Math_roundQ_ge_int. change (inject_Z 0) with 0%Q. clearbody factor. lqa. }
    lia.
  - rewrite Qltb_lt, Hfactor. split; intros H.
    + apply (Qmult_lt_r _ _ (dailyCapacity m) Hcap) in H.
      assert (Heq : (natQ (currentLoad m) / dailyCapacity m * dailyCapacity m
                     == natQ (currentLoad m))%Q) by (field; lqa).
      rewrite Heq, Qmult_1_l in H. exact H.
    + apply Qlt_shift_div_l; [exact Hcap|]. rewrite Qmult_1_l. exact H.
  - intros Hwarn. rewrite Hwarn. apply Qltb_lt in Hwarn.
    split; [|split; [|split]].
    + assert (100 <= Math_roundQ (factor * 100)).
      { apply Math_roundQ_ge_int. change (inject_Z 100) with 100%Q.
        clearbody factor. lqa. }
      lia.
    + destruct (Qltb (15 # 10) factor); [right | left]; reflexivity.
    + apply Math_roundQ_ge_int. change (inject_Z 0) with 0%Q. clearbody factor. lqa.
    + destruct (Qle_bool factor (5 # 10)) eqn:Hle; [|reflexivity].
      apply Qle_bool_iff in Hle. lqa.
  - intros Hspare. apply Qle_bool_iff in Hspare.
    assert (H1 : Qltb (15 # 10) factor = false).
    { destruct (Qltb (15 # 10) factor) eqn:H; [apply Qltb_lt in H; lqa | reflexivity]. }
    assert (H2 : Qltb 1 factor = false).
    { destruct (Qltb 1 factor) eqn:H; [apply Qltb_lt in H; lqa | reflexivity]. }
    assert (H3 : Qltb (7 # 10) factor = false).
    { destruct (Qltb (7 # 10) factor) eqn:H; [apply Qltb_lt in H; lqa | reflexivity]. }
    rewrite H1, H2, H3. reflexivity.
Qed.

Lemma workload_card_is_consistent_witness :
  workloadPercentage (calculateWorkloadMetrics exampleClock lateUser) = 100.
Proof.
  apply (workload_card_is_consistent exampleClock lateUser).
  - vm_compute. reflexivity.
  - vm_compute. reflexivity.
Defined.

(** ** The pagination bar *)

Lemma pagesAround_In (currentPage pages page : nat) :
  In page (pagesAround currentPage pages) <->
  (2 <= page <= pages - 1 /\ currentPage - 1 <= page <= currentPage + 1)%nat.
Proof.
  unfold pagesAround. cbv zeta.
  rewrite filter_In, in_seq, negb_true_iff, orb_false_iff, !Nat.leb_gt. lia.
Qed.

Lemma pagesAround_NoDup (currentPage pages : nat) : NoDup (pagesAround currentPage pages).
Proof. unfold pagesAround. apply NoDup_filter, seq_NoDup. Qed.

Lemma pagesAround_length (currentPage pages : nat) :
  (List.length (pagesAround currentPage pages) <= 3)%nat.
Proof.
  unfold pagesAround. cbv zeta.
  etransitivity; [apply filter_length_le|]. rewrite length_seq. lia.
Qed.

Lemma linkedPages_app (a b : list PaginationItem) :
  linkedPages (a ++ b) = linkedPages a ++ linkedPages b.
Proof. unfold linkedPages. apply flat_map_app. Qed.

Lemma activePages_app (a b : list PaginationItem) :
  activePages (a ++ b) = activePages a ++ activePages b.
Proof. unfold activePages. apply flat_map_app. Qed.

Lemma linkedPages_links (currentPage : nat) (l : list nat) :
  linkedPages (map (fun i => PageLink i (Nat.eqb currentPage i)) l) = l.
Proof. induction l as [|x l IH]; cbn; [reflexivity | f_equal; exact IH]. Qed.

Lemma activePages_links (currentPage : nat) (l : list nat) :
  activePages (map (fun i => PageLink i (Nat.eqb currentPage i)) l)
  = filter (Nat.eqb currentPage) l.
Proof.
  induction l as [|x l IH]; cbn [map activePages flat_map filter]; [reflexivity|].
  fold (activePages (map (fun i => PageLink i (Nat.eqb currentPage i)) l)).
  rewrite IH. destruct (Nat.eqb currentPage x); reflexivity.
Qed.

Lemma linkedPages_of_items (currentPage pages : nat) :
  linkedPages (getPaginationItems currentPage pages)
  = [1%nat] ++ pagesAround currentPage pages ++ (if Nat.ltb 1 pages then [pages] else []).
Proof.
  unfold getPaginationItems.
  rewrite !linkedPages_app, linkedPages_links.
  destruct (Nat.ltb 3 currentPage), (Nat.ltb currentPage (pages - 2)), (Nat.ltb 1 pages);
    reflexivity.
Qed.

Lemma activePages_of_items (currentPage pages : nat) :
  activePages (getPaginationItems currentPage pages)
  = filter (Nat.eqb currentPage)
           ([1%nat] ++ pagesAround currentPage pages
            ++ (if Nat.ltb 1 pages then [pages] else [])).
Proof.
  unfold getPaginationItems.
  rewrite !activePages_app, activePages_links, !filter_app.
  destruct (Nat.ltb 3 currentPage), (Nat.ltb currentPage (pages - 2)), (Nat.ltb 1 pages);
    cbn [activePages flat_map filter app];
    destruct (Nat.eqb currentPage 1); try destruct (Nat.eqb currentPage pages);
    rewrite ?app_nil_r; reflexivity.
Qed.

Lemma filter_eqb_NoDup (x : nat) (l : list nat) :
  NoDup l -> In x l -> filter (Nat.eqb x) l = [x].
Proof.
  induction 1 as [|y l Hy Hnodup IH]; intros Hin; [destruct Hin|].
  cbn [filter]. destruct (Nat.eqb_spec x y) as [<-|Hne].
  - f_equal. clear IH Hin.
    induction l as [|z l IHl]; [reflexivity|].
    cbn [filter]. destruct (Nat.eqb_spec x z) as [<-|_].
    + exfalso. apply Hy. left. reflexivity.
    + apply IHl.
      * intros H. apply Hy. right. exact H.
      * inversion Hnodup. assumption.
  - apply IH. destruct Hin as [->|Hin]; [contradiction | exact Hin].
Qed.

(** X22: the pagination bar links page 1, the last page when there is more
    than one, and the pages next to the current one that lie strictly
    between them; no page is linked twice, the bar has at most seven items,
    and when the current page is one of the pages exactly its link is
    marked active. *)
Theorem pagination_bar_links (currentPage pages : nat) :
  let items := getPaginationItems currentPage pages in
  (forall page,
      In page (linkedPages items) <->
      (page = 1 \/ (1 < pages /\ page = pages)
       \/ (2 <= page <= pages - 1 /\ currentPage - 1 <= page <= currentPage + 1))%nat)
  /\ NoDup (linkedPages items)
  /\ (List.length items <= 7)%nat
  /\ ((1 <= currentPage <= pages)%nat -> activePages items = [currentPage]).
Proof.
  cbv zeta.
  assert (Hin : forall page,
      In page (linkedPages (getPaginationItems currentPage pages)) <->
      (page = 1 \/ (1 < pages /\ page = pages)
       \/ (2 <= page <= pages - 1 /\ currentPage - 1 <= page <= currentPage + 1))%nat).
  { intros page. rewrite linkedPages_of_items, !in_app_iff, pagesAround_In.
    destruct (Nat.ltb_spec 1 pages); cbn [In]; lia. }
  assert (Hnodup : NoDup (linkedPages (getPaginationItems currentPage pages))).
  { rewrite linkedPages_of_items.
    apply NoDup_app; [repeat constructor; intros [] | |].
    - apply NoDup_app; [apply pagesAround_NoDup | |].
      + destruct (Nat.ltb 1 pages); repeat constructor; intros [].
      + intros x Hx Hlast. apply pagesAround_In in Hx.
        destruct (Nat.ltb 1 pages); cbn [In] in Hlast; lia.
    - intros x [<-|[]] Hx. apply in_app_iff in Hx. rewrite pagesAround_In in Hx.
      destruct (Nat.ltb_spec 1 pages); cbn [In] in Hx; lia. }
  split; [exact Hin|]. split; [exact Hnodup|]. split.
  - unfold getPaginationItems. rewrite !length_app, length_map.
    pose proof (pagesAround_length currentPage pages).
    destruct (Nat.ltb 3 currentPage), (Nat.ltb currentPage (pages - 2)), (Nat.ltb 1 pages);
      cbn [List.length]; lia.
  - intros Hcurrent. rewrite activePages_of_items.
    rewrite <- linkedPages_of_items.
    apply filter_eqb_NoDup; [exact Hnodup|]. apply Hin. lia.
Qed.

Lemma pagination_bar_links_witness :
  activePages (getPaginationItems 4 9) = [4%nat].
Proof.
  apply (pagination_bar_links 4 9). lia.
Defined.

(** ** The tier filter splits the sums *)

Lemma js_add_shuffle (x a b c : JsNumber) :
  (x + (a + b + c))%js = (a + (x + b) + c)%js
  /\ (x + (a + b + c))%js = (a + b + (x + c))%js.
Proof.
  split.
  - rewrite !js_add_assoc, (js_add_comm x a). reflexivity.
  - rewrite <- !js_add_assoc, (js_add_comm x (a + (b + c))%js), <- !js_add_assoc.
    rewrite (js_add_comm c x). reflexivity.
Qed.

Lemma sumJs_by_tier (f : Task.t -> JsNumber) (l : list Task.t) :
  (forall task, In task l -> tierOfString (Task.type task) <> None) ->
  sumJs (map f l)
  = (sumJs (map f (filter (fun t => negb (skippedByType (Some LOW) t)) l))
     + sumJs (map f (filter (fun t => negb (skippedByType (Some MID) t)) l))
     + sumJs (map f (filter (fun t => negb (skippedByType (Some HIGH) t)) l)))%js.
Proof.
  induction l as [|task rest IH]; intros Htiered.
  - cbn. f_equal. ring.
  - cbn [map sumJs fold_right filter]. fold (sumJs (map f rest)).
    rewrite IH by (intros t Ht; apply Htiered; right; exact Ht).
    destruct (tierOfString (Task.type task)) as [tier|] eqn:Htier;
      [|exfalso; exact (Htiered task (or_introl eq_refl) Htier)].
    apply tierOfString_some in Htier.
    unfold skippedByType. rewrite Htier.
    destruct tier; cbn [TaskType_name String.eqb Ascii.eqb Bool.eqb negb andb];
      cbn [map sumJs fold_right];
      repeat match goal with
             | |- context [fold_right js_add (Finite 0) ?l] => fold (sumJs l)
             end.
    + rewrite !js_add_assoc. reflexivity.
    + apply js_add_shuffle.
    + apply js_add_shuffle.
Qed.

Lemma processedTasks_no_filter (user : User) (dateRange : option DateRange.t) :
  processedTasks user None dateRange = filteredTasks user dateRange.
Proof.
  unfold processedTasks. cbn [skippedByType negb].
  induction (filteredTasks user dateRange) as [|t l IHl]; cbn [filter];
    [|rewrite IHl]; reflexivity.
Qed.

(** X23: when every task carries one of the three tiers as its type, the
    weighted total and the weighted completed sum without a tier filter are
    the sums of those under the filters LOW, MID and HIGH. *)
Theorem tier_filters_split_the_sums (c : Clock) (user : User)
    (dateRange : option DateRange.t) :
  (forall task, In task (tasks user) -> tierOfString (Task.type task) <> None) ->
  let acc := fun filterType => accumulate c user filterType dateRange in
  Acc.weightedTotalSum (acc None)
  = (Acc.weightedTotalSum (acc (Some LOW)) + Acc.weightedTotalSum (acc (Some MID))
     + Acc.weightedTotalSum (acc (Some HIGH)))%js
  /\ Acc.weightedCompletedSum (acc None)
     = (Acc.weightedCompletedSum (acc (Some LOW))
        + Acc.weightedCompletedSum (acc (Some MID))
        + Acc.weightedCompletedSum (acc (Some HIGH)))%js.
Proof.
  intros Htiered acc. unfold acc.
  assert (Hrange : forall task, In task (filteredTasks user dateRange) ->
                                tierOfString (Task.type task) <> None).
  { intros task Hin. apply Htiered. exact (filteredTasks_In _ _ _ Hin). }
  pose proof (processedTasks_no_filter user dateRange) as Hall.
  rewrite !weightedTotalSum_is_sum_of_weights_aux, !weightedCompletedSum_is_sum_of_parts.
  rewrite Hall. unfold sumOfDynamicWeights, processedTasks.
  split; apply sumJs_by_tier; exact Hrange.
Qed.

Lemma tier_filters_split_the_sums_witness :
  Acc.weightedTotalSum (accumulate exampleClock plannerUser None None)
  = (Acc.weightedTotalSum (accumulate exampleClock plannerUser (Some LOW) None)
     + Acc.weightedTotalSum (accumulate exampleClock plannerUser (Some MID) None)
     + Acc.weightedTotalSum (accumulate exampleClock plannerUser (Some HIGH) None))%js.
Proof.
  apply (tier_filters_split_the_sums exampleClock plannerUser None).
  intros task [<-|[<-|[]]]; vm_compute; discriminate.
Defined.

(** ** Base weights that are no numbers *)

Lemma js_add_NaN_r (a : JsNumber) : (a + NaN)%js = NaN.
Proof. destruct a; reflexivity. Qed.

Lemma sumJs_NaN {A : Type} (f : A -> JsNumber) (l : list A) (x : A) :
  In x l -> f x = NaN -> sumJs (map f l) = NaN.
Proof.
  induction l as [|a l IH]; intros Hin Hx; [destruct Hin|].
  cbn [map sumJs fold_right]. fold (sumJs (map f l)).
  destruct Hin as [->|Hin]; [rewrite Hx; reflexivity|].
  rewrite (IH Hin Hx). apply js_add_NaN_r.
Qed.

(** X28: a task without explicit priority whose type is a key of
    [Object.prototype] has a base weight that is no number and the dynamic
    weight NaN, whatever the user and the time; once such a task is
    processed the weighted total is NaN, the test against zero fails, and
    the percentage is NaN. *)
Theorem inherited_task_type_gives_NaN (c : Clock) (user : User)
    (filterType : option TaskType) (dateRange : option DateRange.t) (task : Task.t) :
  In task (processedTasks user filterType dateRange) ->
  Task.priority task = None ->
  isObjectPrototypeKey (Task.type task) = true ->
  getPriorityWeight (Task.priority task) (Task.type task) = ObjectWeight
  /\ calculateDynamicWeight c task user = NaN
  /\ Acc.weightedTotalSum (accumulate c user filterType dateRange) = NaN
  /\ percentage (calculateRTP c user filterType dateRange) = NaN.
Proof.
  intros Hin Hpriority Hkey.
  assert (Hb : baseWeight task = ObjectWeight).
  { unfold baseWeight. apply getPriorityWeight_object.
    unfold weightIsNumber. rewrite Hpriority, Hkey. reflexivity. }
  assert (Hw : calculateDynamicWeight c task user = NaN).
  { unfold calculateDynamicWeight, weightBeforeWorkload. cbv zeta.
    rewrite (preferenceWeight_object c task user Hb).
    destruct (_ && _); destruct (overloadAdjusts c user); reflexivity. }
  assert (Htotal : Acc.weightedTotalSum (accumulate c user filterType dateRange) = NaN).
  { rewrite weightedTotalSum_is_sum_of_weights_aux. unfold sumOfDynamicWeights.
    exact (sumJs_NaN _ _ task Hin Hw). }
  split; [exact Hb|]. split; [exact Hw|]. split; [exact Htotal|].
  rewrite percentage_value by (rewrite Htotal; reflexivity).
  rewrite Htotal. destruct (Acc.weightedCompletedSum _); reflexivity.
Qed.

Lemma inherited_task_type_gives_NaN_witness :
  percentage (calculateRTP exampleClock (userOf [finishedTask; inheritedKeyTask]) None None)
  = NaN.
Proof.
  apply (inherited_task_type_gives_NaN
           exampleClock (userOf [finishedTask; inheritedKeyTask]) None None inheritedKeyTask).
  - right. left. reflexivity.
  - reflexivity.
  - reflexivity.
Defined.
